(** * The ticker connection manager of [src/hooks/useCoinbaseTicker.ts]

    A shallow embedding of the React hook [useCoinbaseTicker]: its React
    state, its refs, the timers and sockets it creates, and every handler
    it installs, followed by the properties of the manager.

    Conventions of the embedding.
    - A JavaScript number that holds a price is a binary64 [float]
      (Rocq's primitive floats are IEEE 754 binary64, as JS numbers are).
    - The reconnect counter and the close codes are integers ([Z]).
    - A number that holds a delay is the rational that the double denotes
      ([Q]); the result of [*], [+] and [Math.pow] on delays is rounded to
      the nearest double, ties to even ([round64]).
    - A [useState] setter takes effect at once; no handler reads the
      React state, so the order of renders does not matter.
    - [console.log] / [console.warn] / [console.error] calls have no
      effect on the hook and are left out. *)

From Stdlib Require Import Bool List String Ascii ZArith QArith Qminmax Qround Qabs Lia Lqa.
From Stdlib Require Import DecimalString.
From Stdlib Require Import PrimFloat FloatOps SpecFloat.
From Stdlib Require FloatAxioms.
From ExtLib Require Import Structures.Monad Structures.MonadState.
From ExtLib Require Import Data.Monads.StateMonad.
Import ListNotations.
Import MonadNotation.

Set Warnings "-register-all".

Local Open Scope string_scope.
Local Open Scope Z_scope.

(** ** The JavaScript runtime *)

Module JS.

(** *** [parseFloat] on strings (ECMAScript, StrDecimalLiteral prefix)

    A string is the sequence of the bytes of its UTF-8 text.  The white
    space that [parseFloat] skips is WhiteSpace and LineTerminator of
    ECMAScript: the ASCII characters below and the characters U+00A0,
    U+1680, U+2000 to U+200A, U+2028, U+2029, U+202F, U+205F, U+3000 and
    U+FEFF, of two or three bytes each. *)

Definition isWhiteSpace (c : ascii) : bool :=
  match nat_of_ascii c with
  | 9%nat | 10%nat | 11%nat | 12%nat | 13%nat | 32%nat => true
  | _ => false
  end.

(** The third byte of a white space character that starts with E2 80. *)
Definition isGeneralSpace (c : ascii) : bool :=
  let n := Z.of_nat (nat_of_ascii c) in
  ((128 <=? n) && (n <=? 138)) || (n =? 168) || (n =? 169) || (n =? 175).

Fixpoint trimStart (s : string) : string :=
  match s with
  | String c r =>
      if isWhiteSpace c then trimStart r
      else
        match nat_of_ascii c, r with
        | 194%nat, String c1 r1 =>
            if (nat_of_ascii c1 =? 160)%nat then trimStart r1 else s
        | 225%nat, String c1 (String c2 r2) =>
            if ((nat_of_ascii c1 =? 154) && (nat_of_ascii c2 =? 128))%nat
            then trimStart r2 else s
        | 226%nat, String c1 (String c2 r2) =>
            if ((nat_of_ascii c1 =? 128)%nat && isGeneralSpace c2)
               || ((nat_of_ascii c1 =? 129) && (nat_of_ascii c2 =? 159))%nat
            then trimStart r2 else s
        | 227%nat, String c1 (String c2 r2) =>
            if ((nat_of_ascii c1 =? 128) && (nat_of_ascii c2 =? 128))%nat
            then trimStart r2 else s
        | 239%nat, String c1 (String c2 r2) =>
            if ((nat_of_ascii c1 =? 187) && (nat_of_ascii c2 =? 191))%nat
            then trimStart r2 else s
        | _, _ => s
        end
  | EmptyString => s
  end.

Definition digitOf (c : ascii) : option Z :=
  let n := Z.of_nat (nat_of_ascii c) in
  if (48 <=? n) && (n <=? 57) then Some (n - 48) else None.

(** [readDigits acc cnt s]: consumes the decimal digits at the head of
    [s]; returns the accumulated value, the number of digits read and
    the rest of the string. *)
Fixpoint readDigits (acc cnt : Z) (s : string) : Z * Z * string :=
  match s with
  | String c r =>
      match digitOf c with
      | Some d => readDigits (10 * acc + d) (cnt + 1) r
      | None => (acc, cnt, s)
      end
  | EmptyString => (acc, cnt, s)
  end.

(** The binary64 nearest to [a / b] (ties to even), for [a, b > 0]:
    a quotient of at least 65 bits with a sticky bit is handed to the
    rounding function of [SpecFloat]. *)
Definition roundRatio (neg : bool) (a b : Z) : float :=
  let k := Z.max 0 (66 + Z.log2 b - Z.log2 a) in
  let n := a * 2 ^ k in
  let m := 2 * (n / b) + (if n mod b =? 0 then 0 else 1) in
  SF2Prim (binary_normalize prec emax (if neg then - m else m) (- k - 1) false).

(** The double denoted by [(-1)^neg * m * 10^e]. *)
Definition decimalToFloat (neg : bool) (m e : Z) : float :=
  if m =? 0 then (if neg then neg_zero else zero)
  else if 0 <=? e then roundRatio neg (m * 10 ^ e) 1
  else roundRatio neg m (10 ^ (- e)).

(** The exponent part [e], [e+], [e-] followed by at least one digit;
    anything else is not part of the literal. *)
Definition readExponent (s : string) : Z :=
  match s with
  | String c r =>
      if (Ascii.eqb c "e" || Ascii.eqb c "E")%bool then
        let '(neg, r') :=
          match r with
          | String "-" t => (true, t)
          | String "+" t => (false, t)
          | _ => (false, r)
          end in
        let '(v, cnt, _) := readDigits 0 0 r' in
        if cnt =? 0 then 0 else if neg then - v else v
      else 0
  | EmptyString => 0
  end.

Definition parseFloat (input : string) : float :=
  let s := trimStart input in
  let '(neg, s1) :=
    match s with
    | String "-" r => (true, r)
    | String "+" r => (false, r)
    | _ => (false, s)
    end in
  if String.prefix "Infinity" s1 then (if neg then neg_infinity else infinity)
  else
    let '(ip, ni, s2) := readDigits 0 0 s1 in
    let '(m, nf, s3) :=
      match s2 with
      | String "." r => readDigits ip 0 r
      | _ => (ip, 0, s2)
      end in
    if ni + nf =? 0 then nan
    else decimalToFloat neg m (readExponent s3 - nf).

(** *** Values: what [JSON.parse] and [response.json()] produce *)

Inductive value : Type :=
| VUndefined
| VNull
| VBool (b : bool)
| VNum (n : float)
| VStr (s : string)
| VArr (l : list value)
| VObj (fields : list (string * value)).

(** ToBoolean. *)
Definition truthyNum (n : float) : bool := negb (is_zero n) && negb (is_nan n).

Definition truthy (v : value) : bool :=
  match v with
  | VUndefined | VNull => false
  | VBool b => b
  | VNum n => truthyNum n
  | VStr s => negb (String.eqb s "")
  | VArr _ | VObj _ => true
  end.

(** [a || b]. *)
Definition orElse (a b : value) : value := if truthy a then a else b.

(** [v === s] for a string [s]. *)
Definition strictEqStr (v : value) (s : string) : bool :=
  match v with
  | VStr t => String.eqb t s
  | _ => false
  end.

(** Reading a property of [null] or [undefined] throws a TypeError. *)
Definition nullish (v : value) : bool :=
  match v with
  | VUndefined | VNull => true
  | _ => false
  end.

(** The fields of a parsed object have distinct names. *)
Fixpoint lookup (k : string) (fields : list (string * value)) : value :=
  match fields with
  | [] => VUndefined
  | (k', v) :: r => if String.eqb k k' then v else lookup k r
  end.

(** [v.k] for a [v] that is not nullish and a [k] that is one of the
    field names the hook reads; none of them is a property of a
    boolean, number, string or array. *)
Definition prop (v : value) (k : string) : value :=
  match v with
  | VObj fields => lookup k fields
  | _ => VUndefined
  end.

(** [v?.k]. *)
Definition optProp (v : value) (k : string) : value := prop v k.

(** ToString(v) throws a TypeError when the conversion yields no
    primitive.  A parsed object converts through the inherited
    [Object.prototype.toString], unless it has an own property
    "toString": that property, which is never a function in parsed JSON,
    hides the inherited method, and [valueOf] returns the object itself.
    An array converts through [join], which converts every element that
    is neither [null] nor [undefined]. *)
Fixpoint toStringThrows (v : value) : bool :=
  match v with
  | VObj fields => existsb (fun f => String.eqb (fst f) "toString") fields
  | VArr l => existsb toStringThrows l
  | _ => false
  end.

(** The number at the head of ToString(v), when ToString(v) returns.
    ToString of a number is the shortest text that reads back as that
    number (the sign of zero is dropped); of an array, its elements
    joined by commas (a comma ends the numeric prefix, a nullish element
    prints as the empty text); [undefined], [null], booleans and objects
    print as words with no numeric prefix. *)
Fixpoint numericPrefix (v : value) : float :=
  match v with
  | VStr s => parseFloat s
  | VNum n => if is_zero n then zero else n
  | VArr (x :: _) => numericPrefix x
  | _ => nan
  end.

(** [parseFloat(v)] is [parseFloat(ToString(v))]; [None] when ToString
    throws. *)
Definition parseFloatV (v : value) : option float :=
  if toStringThrows v then None else Some (numericPrefix v).

(** *** Doubles that hold a delay

    A finite double is the rational it denotes.  The result of an
    arithmetic operation is the double nearest to the exact result, ties
    to even (IEEE 754 binary64, roundTiesToEven): a double has 53
    significant bits, and the subnormal doubles share the last place
    2^-1074.  A result beyond the largest double is not turned into
    Infinity here; the delays are capped by [Math.min] before that
    matters. *)

Definition pow2 (e : Z) : Q :=
  if 0 <=? e then inject_Z (2 ^ e) else 1 # Z.to_pos (2 ^ (- e)).

(** The integer part of the binary logarithm of [x > 0]. *)
Definition ilog2 (x : Q) : Z :=
  let e := Z.log2 (Qnum x) - Z.log2 (Zpos (Qden x)) in
  if Qle_bool (pow2 e) x then e else e - 1.

(** The exponent of the last place of the doubles around [x]. *)
Definition lastPlace (x : Q) : Z := Z.max (ilog2 (Qabs x) - 52) (-1074).

(** The integer nearest to [x], the even one of two that are equally
    near. *)
Definition nearestEven (x : Q) : Z :=
  let f := Qfloor x in
  match (x - inject_Z f ?= 1 # 2)%Q with
  | Lt => f
  | Gt => f + 1
  | Eq => if Z.even f then f else f + 1
  end.

(** The double nearest to [x]. *)
Definition round64 (x : Q) : Q :=
  let e := lastPlace x in
  Qred (inject_Z (nearestEven (x / pow2 e)) * pow2 e).

(** The rational that a finite [float] denotes (0 for the others). *)
Definition doubleValue (f : float) : Q :=
  match Prim2SF f with
  | S754_finite s m e => Qred ((if s then -1 else 1) * inject_Z (Zpos m) * pow2 e)
  | _ => 0
  end.

(** Decimal text of an integer, as a template literal prints it. *)
Definition showZ (n : Z) : string := NilZero.string_of_int (Z.to_int n).

End JS.

(** ** The hook *)

Module Ticker.
Import JS.
Local Open Scope monad_scope.

(** *** Sockets and timers of the browser *)

Inductive ReadyState := CONNECTING | OPEN | CLOSING | CLOSED.

Definition ReadyState_eqb (a b : ReadyState) : bool :=
  match a, b with
  | CONNECTING, CONNECTING | OPEN, OPEN | CLOSING, CLOSING | CLOSED, CLOSED => true
  | _, _ => false
  end.

(** The functions the hook hands to [setTimeout] and [setInterval]. *)
Inductive Callback :=
| WsTimeoutCb                       (* line 315: connect() after the settle delay *)
| ConnectionTimeoutCb (ws : nat)    (* line 143: the watchdog of socket [ws] *)
| TimeoutRetryCb                    (* line 149: () => connect() *)
| ReconnectCb                       (* line 267: connect() after the backoff *)
| CreationRetryCb                   (* line 285: the counter is incremented, connect() *)
| FetchPriceDataCb.                 (* line 108: fetchPriceData *)

Record Timer := mkTimer {
  callback : Callback;
  delay : Q;              (* milliseconds *)
  repeats : bool          (* [setInterval] rather than [setTimeout] *)
}.

(** A [WebSocket] with what its four handlers close over. *)
Record Socket := mkSocket {
  readyState : ReadyState;
  connectionTimeout : option nat;   (* [None] until the handlers are installed *)
  sent : list value                 (* arguments of [ws.send], JSON text as a value *)
}.

(** What [setError] receives. *)
Inductive ErrorText :=
| Text (s : string)
| FeedErrorText (message : value).  (* `WebSocket error: ${message}`, for a
                                       message that ToString converts *)

(** *** State *)

(** The four [useState] cells: the read model of the hook. *)
Record View := mkView {
  price : option float;
  tickerData : option value;
  isConnected : bool;
  error : option ErrorText
}.

(** The six [useRef] cells. *)
Record Refs := mkRefs {
  wsRef : option nat;
  reconnectTimeoutRef : option nat;
  fallbackIntervalRef : option nat;
  reconnectAttemptsRef : Z;
  fallbackStoppedRef : bool;
  isConnectingRef : bool
}.

(** The browser side: sockets created so far, pending timers, the
    handle [wsTimeout] that the effect's cleanup closes over, and the
    number of [fetchPriceData] calls whose requests are in flight. *)
Record Runtime := mkRuntime {
  sockets : list (nat * Socket);
  timers : list (nat * Timer);
  nextSocket : nat;
  nextTimer : nat;
  wsTimeout : option nat;
  fetchesInFlight : nat
}.

Record State := mkState {
  view :> View;
  refs :> Refs;
  runtime :> Runtime
}.

Definition initial : State :=
  {| view := mkView None None false None;
     refs := mkRefs None None None 0 false false;
     runtime := mkRuntime [] [] 1 1 None 0 |}.

Definition withView (f : View -> View) (s : State) : State :=
  mkState (f s) s s.
Definition withRefs (f : Refs -> Refs) (s : State) : State :=
  mkState s (f s) s.
Definition withRuntime (f : Runtime -> Runtime) (s : State) : State :=
  mkState s s (f s).

Abbreviation M := (state State).

Definition update (f : State -> State) : M unit := modify f ;; ret tt.

(** [useState] setters. *)
Definition setPrice (p : option float) : M unit :=
  update (withView (fun v => mkView p (tickerData v) (isConnected v) (error v))).
Definition setTickerData (d : option value) : M unit :=
  update (withView (fun v => mkView (price v) d (isConnected v) (error v))).
Definition setIsConnected (b : bool) : M unit :=
  update (withView (fun v => mkView (price v) (tickerData v) b (error v))).
Definition setError (e : option ErrorText) : M unit :=
  update (withView (fun v => mkView (price v) (tickerData v) (isConnected v) e)).

(** Assignments to [ref.current]. *)
Definition set_wsRef (x : option nat) : M unit :=
  update (withRefs (fun r => mkRefs x (reconnectTimeoutRef r) (fallbackIntervalRef r)
    (reconnectAttemptsRef r) (fallbackStoppedRef r) (isConnectingRef r))).
Definition set_reconnectTimeoutRef (x : option nat) : M unit :=
  update (withRefs (fun r => mkRefs (wsRef r) x (fallbackIntervalRef r)
    (reconnectAttemptsRef r) (fallbackStoppedRef r) (isConnectingRef r))).
Definition set_fallbackIntervalRef (x : option nat) : M unit :=
  update (withRefs (fun r => mkRefs (wsRef r) (reconnectTimeoutRef r) x
    (reconnectAttemptsRef r) (fallbackStoppedRef r) (isConnectingRef r))).
Definition set_reconnectAttemptsRef (x : Z) : M unit :=
  update (withRefs (fun r => mkRefs (wsRef r) (reconnectTimeoutRef r) (fallbackIntervalRef r)
    x (fallbackStoppedRef r) (isConnectingRef r))).
Definition set_fallbackStoppedRef (x : bool) : M unit :=
  update (withRefs (fun r => mkRefs (wsRef r) (reconnectTimeoutRef r) (fallbackIntervalRef r)
    (reconnectAttemptsRef r) x (isConnectingRef r))).
Definition set_isConnectingRef (x : bool) : M unit :=
  update (withRefs (fun r => mkRefs (wsRef r) (reconnectTimeoutRef r) (fallbackIntervalRef r)
    (reconnectAttemptsRef r) (fallbackStoppedRef r) x)).

(** Browser primitives. *)
Definition set_timers (t : list (nat * Timer)) : M unit :=
  update (withRuntime (fun w => mkRuntime (sockets w) t (nextSocket w) (nextTimer w)
    (wsTimeout w) (fetchesInFlight w))).
Definition set_sockets (l : list (nat * Socket)) : M unit :=
  update (withRuntime (fun w => mkRuntime l (timers w) (nextSocket w) (nextTimer w)
    (wsTimeout w) (fetchesInFlight w))).
Definition set_wsTimeout (x : option nat) : M unit :=
  update (withRuntime (fun w => mkRuntime (sockets w) (timers w) (nextSocket w) (nextTimer w)
    x (fetchesInFlight w))).
Definition set_fetchesInFlight (n : nat) : M unit :=
  update (withRuntime (fun w => mkRuntime (sockets w) (timers w) (nextSocket w) (nextTimer w)
    (wsTimeout w) n)).

(** [setTimeout] and [setInterval] return a fresh handle. *)
Definition schedule (t : Timer) : M nat :=
  id <- gets (fun s : State => nextTimer s) ;;
  update (withRuntime (fun w => mkRuntime (sockets w) (timers w ++ [(id, t)])
    (nextSocket w) (S id) (wsTimeout w) (fetchesInFlight w))) ;;
  ret id.
Definition setTimeout (cb : Callback) (ms : Q) : M nat := schedule (mkTimer cb ms false).
Definition setInterval (cb : Callback) (ms : Q) : M nat := schedule (mkTimer cb ms true).

Definition cancel (id : nat) (l : list (nat * Timer)) : list (nat * Timer) :=
  filter (fun p => negb (Nat.eqb (fst p) id)) l.
Definition clearTimeout (id : nat) : M unit :=
  l <- gets (fun s : State => timers s) ;; set_timers (cancel id l).
Definition clearInterval (id : nat) : M unit := clearTimeout id.

Fixpoint find {A} (id : nat) (l : list (nat * A)) : option A :=
  match l with
  | [] => None
  | (k, x) :: r => if Nat.eqb k id then Some x else find id r
  end.

Fixpoint replace {A} (id : nat) (x : A) (l : list (nat * A)) : list (nat * A) :=
  match l with
  | [] => []
  | (k, y) :: r => if Nat.eqb k id then (k, x) :: r else (k, y) :: replace id x r
  end.

Definition socket (ws : nat) : M (option Socket) :=
  gets (fun s : State => find ws (sockets s)).

Definition updateSocket (ws : nat) (f : Socket -> Socket) : M unit :=
  l <- gets (fun s : State => sockets s) ;;
  match find ws l with
  | Some k => set_sockets (replace ws (f k) l)
  | None => ret tt
  end.

(** [new WebSocket(url)], when it does not throw. *)
Definition newWebSocket : M nat :=
  id <- gets (fun s : State => nextSocket s) ;;
  update (withRuntime (fun w => mkRuntime (sockets w ++ [(id, mkSocket CONNECTING None [])])
    (timers w) (S id) (nextTimer w) (wsTimeout w) (fetchesInFlight w))) ;;
  ret id.

(** [ws.close(...)]: a socket that is connecting or open starts
    closing; the close event comes later.  The code and reason handed
    to [close] are not recorded. *)
Definition close (ws : nat) : M unit :=
  updateSocket ws (fun k =>
    match readyState k with
    | CONNECTING | OPEN => mkSocket CLOSING (connectionTimeout k) (sent k)
    | _ => k
    end).

(** [ws.send(text)]. *)
Definition send (ws : nat) (msg : value) : M unit :=
  updateSocket ws (fun k => mkSocket (readyState k) (connectionTimeout k) (sent k ++ [msg])).

(** [clearTimeout(connectionTimeout)] inside a handler of [ws]. *)
Definition clearConnectionTimeout (ws : nat) : M unit :=
  k <- socket ws ;;
  match k with
  | Some {| connectionTimeout := Some t |} => clearTimeout t
  | _ => ret tt
  end.

(** *** The polling fetcher (lines 41-116) *)

(** A [Response]: its status and what [json()] resolves to ([None]
    when the body is not JSON and the promise rejects). *)
Record Response := mkResponse {
  status : Z;
  json : option value
}.

Definition ok (r : Response) : bool := (200 <=? status r) && (status r <=? 299).

(** What [Promise.all] of the two [fetch] calls settles to: [None] when
    either request rejects, else the ticker and the stats response. *)
Definition FetchOutcome : Type := option (Response * Response).

Section Hook.

Variable productId : string.

(** The synchronous part of [fetchPriceData]: both requests leave. *)
Definition fetchPriceData : M unit :=
  n <- gets (fun s : State => fetchesInFlight s) ;;
  set_fetchesInFlight (S n).

(** The [catch] block, lines 98-101. *)
Definition fetchFailed : M unit :=
  setError (Some (Text "Unable to fetch price data")).

(** The object literal of lines 75-91; [now] is [Date.now()]. *)
Definition realTickerData (tickerData statsData : value) (now : float) : value :=
  VObj
    [ ("price", prop tickerData "price");
      ("time", prop tickerData "time");
      ("product_id", VStr productId);
      ("sequence", orElse (prop tickerData "trade_id") (VNum now));
      ("side", VStr "buy");
      ("last_size", orElse (prop tickerData "size") (VStr "0"));
      ("best_bid", orElse (prop tickerData "bid") (VStr "0"));
      ("best_ask", orElse (prop tickerData "ask") (VStr "0"));
      ("volume_24h",
        orElse (orElse (optProp statsData "volume") (prop tickerData "volume")) (VStr "0"));
      ("low_24h", orElse (optProp statsData "low") (VStr "0"));
      ("high_24h", orElse (optProp statsData "high") (VStr "0"));
      ("volume_30d", orElse (optProp statsData "volume_30day") (VStr "0"));
      ("best_bid_size", VStr "0");
      ("best_ask_size", VStr "0");
      ("open_24h", orElse (optProp statsData "open") (VStr "0")) ].

(** The rest of [fetchPriceData], once the requests have settled. *)
Definition fetchPriceData_settled (outcome : FetchOutcome) (now : float) : M unit :=
  match outcome with
  | None => fetchFailed
  | Some (tickerResponse, statsResponse) =>
      if status tickerResponse =? 429 then
        setError (Some (Text "Rate limited - reducing update frequency"))
      else if negb (ok tickerResponse) then fetchFailed
      else
        match json tickerResponse,
              (if ok statsResponse then json statsResponse else Some VNull) with
        | Some tickerData, Some statsData =>
            if nullish tickerData then fetchFailed
            else
              match parseFloatV (prop tickerData "price") with
              | Some currentPrice =>
                  if truthyNum currentPrice && negb (is_nan currentPrice) then
                    setPrice (Some currentPrice) ;;
                    setTickerData (Some (realTickerData tickerData statsData now)) ;;
                    setError None ;;
                    setIsConnected true
                  else fetchFailed
              | None => fetchFailed   (* the TypeError is caught on line 98 *)
              end
        | _, _ => fetchFailed
        end
  end.

Definition startFallback : M unit :=
  set_fallbackStoppedRef false ;;
  fetchPriceData ;;
  id <- setInterval FetchPriceDataCb 5000%Q ;;
  set_fallbackIntervalRef (Some id).

Definition stopFallback : M unit :=
  r <- gets (fun s : State => fallbackIntervalRef s) ;;
  match r with
  | Some id => clearInterval id ;; set_fallbackIntervalRef None
  | None => ret tt
  end.

(** *** The streaming client (lines 118-291) *)

(** Lines 131-136 and 333-337: the tracked socket, unless closed, is
    closed and forgotten. *)
Definition closeTracked : M unit :=
  w <- gets (fun s : State => wsRef s) ;;
  match w with
  | Some ws =>
      k <- socket ws ;;
      match k with
      | Some k =>
          if negb (ReadyState_eqb (readyState k) CLOSED)
          then close ws ;; set_wsRef None
          else ret tt
      | None => ret tt
      end
  | None => ret tt
  end.

(** [connect()]; [throws] tells whether [new WebSocket] throws. *)
Definition connect (throws : bool) : M unit :=
  busy <- gets (fun s : State => isConnectingRef s) ;;
  if busy then ret tt
  else
    set_isConnectingRef true ;;
    setError None ;;
    stopFallback ;;
    set_fallbackStoppedRef false ;;
    closeTracked ;;
    if throws then
      (* catch, lines 275-290 *)
      set_isConnectingRef false ;;
      setError (Some (Text "Failed to connect to price feed")) ;;
      n <- gets (fun s : State => reconnectAttemptsRef s) ;;
      if 2 <=? n then startFallback
      else setTimeout CreationRetryCb 5000%Q ;; ret tt
    else
      ws <- newWebSocket ;;
      set_wsRef (Some ws) ;;
      t <- setTimeout (ConnectionTimeoutCb ws) 15000%Q ;;
      (* the four handlers of [ws] close over [t] *)
      updateSocket ws (fun k => mkSocket (readyState k) (Some t) (sent k)).

(** The body of the watchdog, lines 143-151. *)
Definition onConnectionTimeout (ws : nat) : M unit :=
  k <- socket ws ;;
  match k with
  | Some {| readyState := CONNECTING |} =>
      close ws ;;
      setError (Some (Text "Connection timeout - retrying...")) ;;
      setTimeout TimeoutRetryCb 3000%Q ;;
      ret tt
  | _ => ret tt
  end.

Definition subscribeMessage : value :=
  VObj [ ("type", VStr "subscribe");
         ("product_ids", VArr [VStr productId]);
         ("channels", VArr [VStr "ticker"]) ].

(** [ws.onopen]; [sendThrows] tells whether [ws.send] throws. *)
Definition onopen (ws : nat) (sendThrows : bool) : M unit :=
  set_isConnectingRef false ;;
  clearConnectionTimeout ws ;;
  setIsConnected true ;;
  if sendThrows then setError (Some (Text "Failed to subscribe to price feed"))
  else send ws subscribeMessage.

(** [ws.onmessage]; [data] is what [JSON.parse(event.data)] returns,
    [None] when it throws.  An exception inside the [try] of line 179 is
    caught on line 203, which only logs it. *)
Definition onmessage (ws : nat) (data : option value) : M unit :=
  match data with
  | None => ret tt
  | Some data =>
      if nullish data then ret tt     (* [data.type] throws *)
      else if strictEqStr (prop data "type") "ticker"
              && strictEqStr (prop data "product_id") productId then
        match parseFloatV (prop data "price") with
        | Some priceNum =>
            setPrice (Some priceNum) ;;
            setTickerData (Some data) ;;
            set_reconnectAttemptsRef 0 ;;
            stopped <- gets (fun s : State => fallbackStoppedRef s) ;;
            if negb stopped then stopFallback ;; set_fallbackStoppedRef true
            else ret tt
        | None => ret tt              (* [parseFloat] throws *)
        end
      else if strictEqStr (prop data "type") "subscriptions" then ret tt
      else if strictEqStr (prop data "type") "error" then
        let message := orElse (prop data "message") (VStr "Unknown error") in
        if toStringThrows message then ret tt   (* the template literal throws *)
        else setError (Some (FeedErrorText message))
      else ret tt
  end.

Definition onerror (ws : nat) : M unit :=
  set_isConnectingRef false ;;
  clearConnectionTimeout ws ;;
  setError (Some (Text "Connection error occurred")).

Definition getErrorMessage (code : Z) : string :=
  match code with
  | 1001 => "Server going away"
  | 1002 => "Protocol error"
  | 1003 => "Unsupported data type"
  | 1005 => "No status received"
  | 1006 => "Abnormal closure"
  | 1007 => "Invalid data"
  | 1008 => "Policy violation"
  | 1009 => "Message too large"
  | 1011 => "Server error"
  | 1012 => "Service restart"
  | 1013 => "Try again later"
  | 1014 => "Bad gateway"
  | 1015 => "TLS handshake failed"
  | _ => "Connection error (" ++ showZ code ++ ")"
  end.

(** Lines 263-265; [random] is what [Math.random()] returns. *)
Definition retryDelay (attempts : Z) (random : Q) : Q :=
  let baseDelay := 10000%Q in
  let jitter := round64 (random * 2000) in
  Qmin (round64 (round64 (baseDelay * round64 (2 ^ attempts)) + jitter)) 30000%Q.

(** [ws.onclose].  The [shouldDelayLonger] and outer [baseDelay]
    constants of lines 253-254 are never read. *)
Definition onclose (ws : nat) (code : Z) (random : Q) : M unit :=
  set_isConnectingRef false ;;
  clearConnectionTimeout ws ;;
  setIsConnected false ;;
  if negb (code =? 1000) then
    n <- gets (fun s : State => reconnectAttemptsRef s) ;;
    set_reconnectAttemptsRef (n + 1) ;;
    let errorMsg := getErrorMessage code in
    n <- gets (fun s : State => reconnectAttemptsRef s) ;;
    if 2 <=? n then
      setError (Some (Text (errorMsg ++ " - using REST API fallback"))) ;;
      startFallback
    else
      setError (Some (Text (errorMsg ++ ". Reconnecting... (" ++ showZ n ++ "/2)"))) ;;
      t <- setTimeout ReconnectCb (retryDelay n random) ;;
      set_reconnectTimeoutRef (Some t)
  else ret tt.

(** *** The public surface (lines 293-346) *)

Definition reconnect (throws : bool) : M unit :=
  r <- gets (fun s : State => reconnectTimeoutRef s) ;;
  match r with
  | Some t => clearTimeout t
  | None => ret tt
  end ;;
  set_reconnectAttemptsRef 0 ;;
  connect throws.

(** The effect body: runs on mount and whenever [productId] changes. *)
Definition effect : M unit :=
  setPrice None ;;
  setTickerData None ;;
  setError None ;;
  set_reconnectAttemptsRef 0 ;;
  startFallback ;;
  t <- setTimeout WsTimeoutCb 1000%Q ;;
  set_wsTimeout (Some t).

(** The cleanup returned by the effect. *)
Definition cleanup : M unit :=
  t <- gets (fun s : State => wsTimeout s) ;;
  match t with
  | Some t => clearTimeout t
  | None => ret tt
  end ;;
  r <- gets (fun s : State => reconnectTimeoutRef s) ;;
  match r with
  | Some t => clearTimeout t ;; set_reconnectTimeoutRef None
  | None => ret tt
  end ;;
  closeTracked ;;
  stopFallback ;;
  set_isConnectingRef false ;;
  set_fallbackStoppedRef false.

(** *** The event loop *)

Inductive Event :=
| EffectRuns
| CleanupRuns
| ReconnectCalled (throws : bool)
| TimerFires (id : nat) (throws : bool)
| FetchSettles (outcome : FetchOutcome) (now : float)
| SocketOpens (ws : nat) (sendThrows : bool)
| SocketMessage (ws : nat) (data : option value)
| SocketError (ws : nat)
| SocketCloses (ws : nat) (code : Z) (random : Q).

Definition runCallback (cb : Callback) (throws : bool) : M unit :=
  match cb with
  | WsTimeoutCb | TimeoutRetryCb | ReconnectCb => connect throws
  | ConnectionTimeoutCb ws => onConnectionTimeout ws
  | CreationRetryCb =>
      n <- gets (fun s : State => reconnectAttemptsRef s) ;;
      set_reconnectAttemptsRef (n + 1) ;;
      connect throws
  | FetchPriceDataCb => fetchPriceData
  end.

Definition setReadyState (ws : nat) (r : ReadyState) : M unit :=
  updateSocket ws (fun k => mkSocket r (connectionTimeout k) (sent k)).

(** One task of the event loop.  The browser delivers a timer only
    while it is pending, a fetch result only for a request in
    flight, [open] only to a connecting socket, [message] only to an
    open one, [error] and [close] only to a socket that is not yet
    closed; anything else is no event at all and changes nothing. *)
Definition dispatch (e : Event) : M unit :=
  match e with
  | EffectRuns => effect
  | CleanupRuns => cleanup
  | ReconnectCalled throws => reconnect throws
  | TimerFires id throws =>
      l <- gets (fun s : State => timers s) ;;
      match find id l with
      | Some t =>
          (if repeats t then ret tt else set_timers (cancel id l)) ;;
          runCallback (callback t) throws
      | None => ret tt
      end
  | FetchSettles outcome now =>
      n <- gets (fun s : State => fetchesInFlight s) ;;
      match n with
      | S n' => set_fetchesInFlight n' ;; fetchPriceData_settled outcome now
      | O => ret tt
      end
  | SocketOpens ws sendThrows =>
      k <- socket ws ;;
      match k with
      | Some {| readyState := CONNECTING; connectionTimeout := Some _ |} =>
          setReadyState ws OPEN ;; onopen ws sendThrows
      | _ => ret tt
      end
  | SocketMessage ws data =>
      k <- socket ws ;;
      match k with
      | Some {| readyState := OPEN |} => onmessage ws data
      | _ => ret tt
      end
  | SocketError ws =>
      k <- socket ws ;;
      match k with
      | Some {| readyState := CLOSED |} | None => ret tt
      | Some _ => onerror ws
      end
  | SocketCloses ws code random =>
      k <- socket ws ;;
      match k with
      | Some {| readyState := CLOSED |} | None => ret tt
      | Some _ => setReadyState ws CLOSED ;; onclose ws code random
      end
  end.

Definition step (s : State) (e : Event) : State := execState (dispatch e) s.

Definition run (s : State) (es : list Event) : State := fold_left step es s.

End Hook.

(** A run across renders.  A handler is a closure of the render that
    created it and keeps that render's [productId]: after the instrument
    has changed, a timer, socket or fetch of an earlier render still runs
    with the old one.  Each task comes with the [productId] of the
    closure that handles it. *)
Definition runAcross (s : State) (es : list (string * Event)) : State :=
  fold_left (fun s task => step (fst task) s (snd task)) es s.

End Ticker.

(** ** The component that shows the ticker
    ([src/components/PriceTicker.tsx])

    [PriceTicker] calls the hook and keeps three cells of its own: the
    state cells [previousPrice] and [priceDirection], and the ref
    [lastReportedPrice].  Its effect (lines 18-38) runs after a render
    with the price that the hook returned; a state cell read by the
    effect holds what the previous runs have set, since the effect is
    re-created whenever [previousPrice] changes. *)

Module PriceTicker.
Import JS.

Inductive Direction := up | down | neutral.

(** The cells of the component; [reported] lists the arguments of the
    calls of [onPriceChange], oldest first. *)
Record Display := mkDisplay {
  previousPrice : option float;
  priceDirection : Direction;
  lastReportedPrice : option float;
  reported : list float
}.

(** The first render. *)
Definition mounted : Display := mkDisplay None neutral None [].

(** [price !== x] for a number [price] and an [x] that is a number or
    [null]: NaN differs from every number, itself included. *)
Definition strictNotEqual (price : float) (x : option float) : bool :=
  match x with
  | Some y => negb (price =? y)%float
  | None => true
  end.

(** The effect of lines 18-38, run with the [price] of the hook. *)
Definition priceEffect (price : option float) (d : Display) : Display :=
  match price with
  | Some price =>
      if strictNotEqual price (lastReportedPrice d) then
        mkDisplay
          (Some price)
          match previousPrice d with
          | Some previousPrice =>
              if (previousPrice <? price)%float then up
              else if (price <? previousPrice)%float then down
              else neutral
          | None => priceDirection d
          end
          (Some price)
          (reported d ++ [price])
      else d
  | None => d
  end.

(** The component after the effect has run with each price of
    [prices] in turn. *)
Definition renders (prices : list (option float)) : Display :=
  fold_left (fun d price => priceEffect price d) prices mounted.

Definition getPriceColorClass (priceDirection : Direction) : string :=
  match priceDirection with
  | up => "text-green-400"
  | down => "text-red-400"
  | neutral => "text-white"
  end.

(** A template literal: fixed text and numbers printed by
    [toFixed(2)]. *)
Inductive Piece :=
| Lit (s : string)
| ToFixed2 (x : float).

Record Change := mkChange {
  dollar : list Piece;
  percent : list Piece;
  isPositive : bool
}.

(** Lines 53-61. *)
Definition formatChange (current open : float) : Change :=
  let change := (current - open)%float in
  let changePercent := ((change / open) * 100)%float in
  {| dollar :=
       if (0 <=? change)%float then [Lit "+$"; ToFixed2 (abs change)]
       else [Lit "-$"; ToFixed2 (abs change)];
     percent :=
       if (0 <=? change)%float then [Lit "+"; ToFixed2 changePercent; Lit "%"]
       else [ToFixed2 changePercent; Lit "%"];
     isPositive := (0 <=? change)%float |}.

(** The 24h change of lines 137-140, read off the quote; [None] when
    [parseFloat] throws and the render fails. *)
Definition change24h (tickerData : value) : option Change :=
  match parseFloatV (prop tickerData "open_24h") with
  | Some open =>
      match parseFloatV (prop tickerData "price") with
      | Some current => Some (formatChange current open)
      | None => None
      end
  | None => None
  end.

End PriceTicker.

(** ** Vocabulary of the properties *)

Module Spec.
Import JS Ticker.

(** The hook holds the handle of a polling interval.  (An interval whose
    handle has been overwritten is pending without being held.) *)
Definition pollingActive (s : State) : bool :=
  match fallbackIntervalRef s with
  | Some _ => true
  | None => false
  end.

(** A ticker message for the subscribed instrument: the test of line 183,
    on data whose [type] can be read. *)
Definition isTickerFor (productId : string) (data : value) : bool :=
  negb (nullish data)
  && strictEqStr (prop data "type") "ticker"
  && strictEqStr (prop data "product_id") productId.

(** Neither a streaming message nor the cleanup. *)
Definition beforeAnyMessage (e : Event) : bool :=
  match e with
  | SocketMessage _ _ | CleanupRuns => false
  | _ => true
  end.

(** The callbacks that call [connect()]. *)
Definition callsConnect (cb : Callback) : bool :=
  match cb with
  | WsTimeoutCb | TimeoutRetryCb | ReconnectCb | CreationRetryCb => true
  | ConnectionTimeoutCb _ | FetchPriceDataCb => false
  end.

(** The event makes the hook run [connect()]. *)
Definition runsConnect (s : State) (e : Event) : bool :=
  match e with
  | ReconnectCalled _ => true
  | TimerFires id _ =>
      match find id (timers s) with
      | Some t => callsConnect (callback t)
      | None => false
      end
  | _ => false
  end.

(** The browser delivers [close] (and [error]) to socket [ws]. *)
Definition closable (s : State) (ws : nat) : bool :=
  match find ws (sockets s) with
  | Some k => negb (ReadyState_eqb (readyState k) CLOSED)
  | None => false
  end.

(** The work of the user or of React, not of the manager's own timers
    and sockets. *)
Definition manual (e : Event) : bool :=
  match e with
  | ReconnectCalled _ | EffectRuns => true
  | _ => false
  end.

(** The events that may set the reconnect counter back to zero. *)
Definition resetsCounter (productId : string) (e : Event) : bool :=
  match e with
  | EffectRuns | ReconnectCalled _ => true
  | SocketMessage _ (Some data) => isTickerFor productId data
  | _ => false
  end.

Definition isPolling (p : nat * Timer) : bool :=
  match callback (snd p) with
  | FetchPriceDataCb => true
  | _ => false
  end.

Definition isClosed (p : nat * Socket) : bool :=
  ReadyState_eqb (readyState (snd p)) CLOSED.

(** Streaming is at rest: every socket is closed and the only timers
    still pending are polling timers. *)
Definition atRest (s : State) : bool :=
  forallb isPolling (timers s) && forallb isClosed (sockets s).

(** [clearTimeout(h)] for a handle that may be [null]. *)
Definition cancelOpt (h : option nat) (l : list (nat * Timer)) : list (nat * Timer) :=
  match h with
  | Some id => cancel id l
  | None => l
  end.

(** The timers left by [clearTimeout(connectionTimeout)] in a handler
    of [ws]. *)
Definition timersWithoutWatchdog (ws : nat) (s : State) : list (nat * Timer) :=
  match find ws (sockets s) with
  | Some {| connectionTimeout := Some t |} => cancel t (timers s)
  | _ => timers s
  end.

(** The handle [h], when one is held, was returned by a [setTimeout] or
    [setInterval] call, and the timer it names, if still pending, runs
    the callback [cb]. *)
Definition handleIs (cb : Callback) (h : option nat) (s : State) : Prop :=
  forall i, h = Some i ->
    (i < nextTimer s)%nat /\ forall t, find i (timers s) = Some t -> callback t = cb.

(** Handles are fresh; the polling handle names the pending polling
    interval; each other handle the hook keeps names a timer of its own
    kind. *)
Definition wellFormed (s : State) : Prop :=
  (forall i t, find i (timers s) = Some t -> (i < nextTimer s)%nat)
  /\ (forall i, fallbackIntervalRef s = Some i ->
        find i (timers s) = Some (mkTimer FetchPriceDataCb 5000%Q true))
  /\ handleIs ReconnectCb (reconnectTimeoutRef s) s
  /\ handleIs WsTimeoutCb (wsTimeout s) s
  /\ (forall ws k, find ws (sockets s) = Some k ->
        (ws < nextSocket s)%nat
        /\ handleIs (ConnectionTimeoutCb ws) (connectionTimeout k) s).

(** *** Properties of states that the proofs carry through a handler *)

(** The computation [m] keeps the property [P] of the state. *)
Definition preserves {B : Type} (P : State -> Prop) (m : M B) : Prop :=
  forall s, P s -> P (execState m s).

(** The reconnect counter holds [v]. *)
Definition attemptsAre (v : Z) (s : State) : Prop := reconnectAttemptsRef s = v.

(** Streaming is at rest and the next socket to be created is number [n]. *)
Definition restingAt (n : nat) (s : State) : Prop :=
  atRest s = true /\ nextSocket s = n.

Definition polling (s : State) : Prop := pollingActive s = true.

(** *** Vocabulary of the further properties *)

(** The price that a quote carries, as [parseFloat(tickerData.price)]
    reads it. *)
Definition quotedPrice (q : value) : option float := parseFloatV (prop q "price").

(** Price and quote agree. *)
Definition quoteAgrees (s : State) : Prop :=
  match tickerData s with
  | Some q => exists p, quotedPrice q = Some p /\ price s = Some p
  | None => price s = None
  end.

(** Price and quote are [p] and [q]. *)
Definition quoteIs (p : option float) (q : option value) (s : State) : Prop :=
  price s = p /\ tickerData s = q.

(** An error text is set. *)
Definition errorShown (s : State) : bool :=
  match error s with
  | Some _ => true
  | None => false
  end.

Definition shown (s : State) : Prop := errorShown s = true.

(** Whether [new WebSocket] throws in the [connect()] that the event
    runs. *)
Definition creationThrows (e : Event) : bool :=
  match e with
  | ReconnectCalled throws | TimerFires _ throws => throws
  | _ => false
  end.

(** The connected flag holds [b]. *)
Definition connectedIs (b : bool) (s : State) : Prop := isConnected s = b.

(** A socket that is connecting or open. *)
Definition live (k : Socket) : bool :=
  match readyState k with
  | CONNECTING | OPEN => true
  | CLOSING | CLOSED => false
  end.

(** Sockets are numbered in the order of their creation; a live socket
    is the tracked one; a socket has sent nothing, or, once it has left
    the connecting state, the subscription for one of the instruments
    [known] so far and nothing else. *)
Definition socketsSound (known : string -> Prop) (s : State) : Prop :=
  forall ws k, find ws (sockets s) = Some k ->
    (ws < nextSocket s)%nat
    /\ (live k = true -> wsRef s = Some ws)
    /\ (sent k = []
        \/ (readyState k <> CONNECTING
            /\ exists productId, known productId /\ sent k = [subscribeMessage productId])).

(** A socket on which [open] or [close] is still to come. *)
Definition pending (k : Socket) : bool :=
  match readyState k with
  | CONNECTING | CLOSING => true
  | OPEN | CLOSED => false
  end.

Definition trackedPending (s : State) : bool :=
  match wsRef s with
  | Some ws =>
      match find ws (sockets s) with
      | Some k => pending k
      | None => false
      end
  | None => false
  end.

(** While the in-flight guard is set, the tracked socket has neither
    opened nor closed yet. *)
Definition guardSound (s : State) : Prop :=
  (forall ws k, find ws (sockets s) = Some k -> (ws < nextSocket s)%nat)
  /\ (isConnectingRef s = true -> trackedPending s = true).

(** The delay that each kind of timer is created with: the constants of
    lines 108, 149, 151, 288 and 318, and for the backoff of line 265 the
    range that it takes with the counter at 1. *)
Definition timerSound (t : Timer) : Prop :=
  match callback t with
  | WsTimeoutCb => delay t = 1000%Q /\ repeats t = false
  | ConnectionTimeoutCb _ => delay t = 15000%Q /\ repeats t = false
  | TimeoutRetryCb => delay t = 3000%Q /\ repeats t = false
  | ReconnectCb => (20000 <= delay t)%Q /\ (delay t <= 22000)%Q /\ repeats t = false
  | CreationRetryCb => delay t = 5000%Q /\ repeats t = false
  | FetchPriceDataCb => delay t = 5000%Q /\ repeats t = true
  end.

Definition timersSound (s : State) : Prop :=
  Forall (fun p => timerSound (snd p)) (timers s).

(** The "only once" flag of line 190 is set only while polling is off. *)
Definition flagSound (s : State) : Prop :=
  fallbackStoppedRef s = true -> fallbackIntervalRef s = None.

(** [Math.random()] returns a number of [0, 1). *)
Definition fairRandom (e : Event) : Prop :=
  match e with
  | SocketCloses _ _ random => (0 <= random)%Q /\ (random < 1)%Q
  | _ => True
  end.

(** *** Vocabulary of the component *)

Import PriceTicker.

(** No element of the list is [===] to the one before it. *)
Fixpoint distinctNeighbours (l : list float) : bool :=
  match l with
  | a :: (b :: _) as r => negb (b =? a)%float && distinctNeighbours r
  | _ => true
  end.

(** How the price moved from [a] to [b], as lines 22-28 decide it. *)
Definition directionOf (a b : float) : Direction :=
  if (a <? b)%float then up else if (b <? a)%float then down else neutral.

(** The move between the last two elements of a list kept oldest
    first; [neutral] while it has fewer than two. *)
Definition lastMove (l : list float) : Direction :=
  match rev l with
  | b :: a :: _ => directionOf a b
  | _ => neutral
  end.

(** The last element. *)
Definition newest (l : list float) : option float :=
  match rev l with
  | b :: _ => Some b
  | [] => None
  end.

(** The cells of the component agree with the reports made so far. *)
Definition tidy (d : Display) : Prop :=
  previousPrice d = newest (reported d)
  /\ lastReportedPrice d = newest (reported d)
  /\ priceDirection d = lastMove (reported d)
  /\ distinctNeighbours (reported d) = true.

End Spec.

(** ** Properties of the manager *)

Import JS Ticker Spec.
Local Open Scope monad_scope.
Local Open Scope list_scope.

(** *** Running the state monad *)

Section MonadLaws.
Context {A B : Type}.

Lemma exec_bind (m : M A) (k : A -> M B) (s : State) :
  execState (bind m k) s = execState (k (evalState m s)) (execState m s).
Proof. unfold execState, evalState. cbn. destruct (runState m s). reflexivity. Qed.

Lemma eval_bind (m : M A) (k : A -> M B) (s : State) :
  evalState (bind m k) s = evalState (k (evalState m s)) (execState m s).
Proof. unfold execState, evalState. cbn. destruct (runState m s). reflexivity. Qed.

Lemma exec_ret (a : A) (s : State) : execState (ret a) s = s.
Proof. reflexivity. Qed.

Lemma eval_ret (a : A) (s : State) : evalState (ret a) s = a.
Proof. reflexivity. Qed.

Lemma exec_gets (f : State -> A) (s : State) : execState (gets f) s = s.
Proof. reflexivity. Qed.

Lemma eval_gets (f : State -> A) (s : State) : evalState (gets f) s = f s.
Proof. reflexivity. Qed.

End MonadLaws.

Lemma exec_update (f : State -> State) (s : State) : execState (update f) s = f s.
Proof. reflexivity. Qed.

Ltac mrun := repeat first
  [ rewrite exec_bind | rewrite eval_bind | rewrite exec_ret | rewrite eval_ret
  | rewrite exec_gets | rewrite eval_gets | rewrite exec_update ].

(** Unfolds the setters and browser primitives, then runs the monad. *)
Ltac prim :=
  unfold setPrice, setTickerData, setIsConnected, setError,
    set_wsRef, set_reconnectTimeoutRef, set_fallbackIntervalRef,
    set_reconnectAttemptsRef, set_fallbackStoppedRef, set_isConnectingRef,
    set_timers, set_sockets, set_wsTimeout, set_fetchesInFlight,
    setTimeout, setInterval, schedule, clearInterval, clearTimeout,
    socket, newWebSocket; mrun.

Ltac proj := cbn [view refs runtime withView withRefs withRuntime
  price tickerData isConnected error
  wsRef reconnectTimeoutRef fallbackIntervalRef reconnectAttemptsRef
  fallbackStoppedRef isConnectingRef
  sockets timers nextSocket nextTimer wsTimeout fetchesInFlight].

Ltac peel := repeat progress (try prim; proj).

(** Runs a computation by reduction, as far as the state decides it. *)
Ltac msimpl :=
  lazy beta iota zeta delta
      [execState evalState runState bind ret gets get put modify update
       Monad_state MonadState_state fst snd
       setPrice setTickerData setIsConnected setError
       set_wsRef set_reconnectTimeoutRef set_fallbackIntervalRef
       set_reconnectAttemptsRef set_fallbackStoppedRef set_isConnectingRef
       set_timers set_sockets set_wsTimeout set_fetchesInFlight
       setTimeout setInterval schedule clearInterval clearTimeout
       socket newWebSocket setReadyState send close updateSocket
       clearConnectionTimeout fetchPriceData fetchFailed
       startFallback stopFallback closeTracked
       withView withRefs withRuntime];
  proj.

(** The same on a state whose eighteen cells are variables: every
    projection computes. *)
Ltac open_state s :=
  destruct s as [[? ? ? ?] [? ? ? ? ? ?] [? ? ? ? ? ?]];
  cbn [view refs runtime price tickerData isConnected error
       wsRef reconnectTimeoutRef fallbackIntervalRef reconnectAttemptsRef
       fallbackStoppedRef isConnectingRef
       sockets timers nextSocket nextTimer wsTimeout fetchesInFlight] in *.

Ltac compute_state :=
  cbv beta iota zeta delta
      [execState evalState runState bind ret gets get put modify update
       Monad_state MonadState_state fst snd
       setPrice setTickerData setIsConnected setError
       set_wsRef set_reconnectTimeoutRef set_fallbackIntervalRef
       set_reconnectAttemptsRef set_fallbackStoppedRef set_isConnectingRef
       set_timers set_sockets set_wsTimeout set_fetchesInFlight
       setTimeout setInterval schedule clearInterval clearTimeout
       socket newWebSocket setReadyState send close updateSocket
       clearConnectionTimeout fetchPriceData fetchFailed
       startFallback stopFallback closeTracked
       withView withRefs withRuntime
       view refs runtime price tickerData isConnected error
       wsRef reconnectTimeoutRef fallbackIntervalRef reconnectAttemptsRef
       fallbackStoppedRef isConnectingRef
       sockets timers nextSocket nextTimer wsTimeout fetchesInFlight
       readyState connectionTimeout sent].

Ltac reuse_eq :=
  match goal with
  | H : ?x = _ |- context [match ?x with _ => _ end] => rewrite H
  end.

(** Splits on an innermost test. *)
Ltac split_match :=
  match goal with
  | |- context [match ?x with _ => _ end] =>
      lazymatch x with
      | context [match _ with _ => _ end] => fail
      | _ => destruct x eqn:?
      end
  end.

Ltac cases := repeat (msimpl; try first [reuse_eq | split_match]).

(** The same on an opened state. *)
Ltac cases_open := repeat (compute_state; try first [reuse_eq | split_match]).

(** *** Tables of sockets and timers *)

Lemma find_replace {A : Type} (id : nat) (x y : A) (l : list (nat * A)) :
  find id l = Some y -> find id (replace id x l) = Some x.
Proof.
  induction l as [|[k z] r IH]; simpl; [discriminate|].
  destruct (Nat.eqb k id) eqn:E; simpl; rewrite E; auto.
Qed.

Lemma find_app {A : Type} (i : nat) (l1 l2 : list (nat * A)) :
  find i (l1 ++ l2) = match find i l1 with Some x => Some x | None => find i l2 end.
Proof.
  induction l1 as [|[k x] l1 IH]; cbn [find app]; [reflexivity|].
  destruct (Nat.eqb k i); auto.
Qed.

Lemma find_cancel (i j : nat) (l : list (nat * Timer)) :
  find i (cancel j l) = if Nat.eqb j i then None else find i l.
Proof.
  unfold cancel. induction l as [|[k x] l IH]; cbn [find filter fst].
  - destruct (Nat.eqb j i); reflexivity.
  - destruct (Nat.eqb_spec k j) as [->|Hkj]; cbn [negb find].
    + rewrite IH. destruct (Nat.eqb_spec j i); reflexivity.
    + rewrite IH. destruct (Nat.eqb_spec k i) as [->|Hki]; [|reflexivity].
      destruct (Nat.eqb_spec j i); [congruence|reflexivity].
Qed.

Lemma find_replace_any {A : Type} (i j : nat) (x : A) (l : list (nat * A)) :
  find i (replace j x l)
  = if Nat.eqb j i then match find j l with Some _ => Some x | None => None end
    else find i l.
Proof.
  induction l as [|[k y] l IH]; cbn [find replace].
  - destruct (Nat.eqb j i); reflexivity.
  - destruct (Nat.eqb_spec k j) as [->|Hkj]; cbn [find].
    + destruct (Nat.eqb_spec j i); reflexivity.
    + rewrite IH. destruct (Nat.eqb_spec k i) as [->|Hki].
      * destruct (Nat.eqb_spec j i); [congruence|reflexivity].
      * reflexivity.
Qed.

(** *** The watchdog *)

(** C8. When the watchdog of a socket fires while that socket is still
    connecting, the socket is closed, the timeout error is shown, exactly
    one retry is scheduled with a delay of 3000 ms, and the reconnect
    counter keeps its value. *)
Theorem watchdog_fires_while_connecting
    (productId : string) (s : State) (id ws : nat) (k : Socket) (d : Q) (throws : bool) :
  find id (timers s) = Some (mkTimer (ConnectionTimeoutCb ws) d false) ->
  find ws (sockets s) = Some k ->
  readyState k = CONNECTING ->
  let s' := step productId s (TimerFires id throws) in
  find ws (sockets s') = Some (mkSocket CLOSING (connectionTimeout k) (sent k))
  /\ error s' = Some (Text "Connection timeout - retrying...")
  /\ timers s' = cancel id (timers s) ++ [(nextTimer s, mkTimer TimeoutRetryCb 3000%Q false)]
  /\ reconnectAttemptsRef s' = reconnectAttemptsRef s.
Proof.
  intros Ht Hk Hr s'. subst s'. unfold step, dispatch.
  mrun. rewrite Ht. cbn [repeats callback runCallback]. mrun.
  unfold onConnectionTimeout. prim. proj.
  rewrite Hk. destruct k as [r c sn]. cbn in Hr. subst r.
  unfold close, updateSocket. prim. proj.
  rewrite Hk. prim. proj. cbn [readyState connectionTimeout sent].
  repeat split. eapply find_replace; eassumption.
Qed.

Lemma watchdog_fires_while_connecting_witness :
  let s := run "BTC-USD" initial [EffectRuns; TimerFires 2 false] in
  let s' := step "BTC-USD" s (TimerFires 3 false) in
  find 1 (sockets s') = Some (mkSocket CLOSING (Some 3%nat) [])
  /\ error s' = Some (Text "Connection timeout - retrying...")
  /\ timers s' = [(4%nat, mkTimer TimeoutRetryCb 3000%Q false)]
  /\ reconnectAttemptsRef s' = 0.
Proof.
  exact (watchdog_fires_while_connecting "BTC-USD"
           (run "BTC-USD" initial [EffectRuns; TimerFires 2 false])
           3 1 (mkSocket CONNECTING (Some 3%nat) []) 15000%Q false
           eq_refl eq_refl eq_refl).
Defined.

(** *** Properties kept by a computation *)

Section Preserves.
Context {A B : Type} (P : State -> Prop).

Lemma preserves_bind (m : M A) (k : A -> M B) :
  preserves P m -> (forall a, preserves P (k a)) -> preserves P (bind m k).
Proof. intros Hm Hk s Hs. rewrite exec_bind. apply Hk, Hm, Hs. Qed.

Lemma preserves_ret (a : A) : preserves P (ret a).
Proof. intros s Hs. exact Hs. Qed.

Lemma preserves_gets (f : State -> A) : preserves P (gets f).
Proof. intros s Hs. exact Hs. Qed.

Lemma preserves_update (f : State -> State) :
  (forall s, P s -> P (f s)) -> preserves P (update f).
Proof. intros Hf s Hs. rewrite exec_update. apply Hf, Hs. Qed.

End Preserves.

Create HintDb frame.

Ltac primitives :=
  unfold setPrice, setTickerData, setIsConnected, setError,
    set_wsRef, set_reconnectTimeoutRef, set_fallbackIntervalRef,
    set_reconnectAttemptsRef, set_fallbackStoppedRef, set_isConnectingRef,
    set_timers, set_sockets, set_wsTimeout, set_fetchesInFlight,
    setTimeout, setInterval, schedule, clearInterval, clearTimeout,
    socket, newWebSocket, setReadyState, send, close, updateSocket,
    clearConnectionTimeout, fetchPriceData, fetchFailed.

(** Walks through a computation; what an update does to the property is
    left to [tac]. *)
Ltac pres_with tac :=
  repeat
    lazymatch goal with
    | |- preserves _ (ret _) => apply preserves_ret
    | |- preserves _ (gets _) => apply preserves_gets
    | |- preserves _ (update _) => apply preserves_update; tac
    | |- preserves _ (bind _ _) => apply preserves_bind; [|intros ?]
    | |- preserves _ (match ?x with _ => _ end) => destruct x
    | |- preserves _ _ => first [ solve [auto with frame] | progress primitives ]
    end.

(** *** The reconnect counter *)

Ltac pres := pres_with ltac:(intros; unfold attemptsAre in *; proj; assumption).

Lemma keeps_attempts {B : Type} (m : M B) (s : State) :
  (forall v, preserves (attemptsAre v) m) ->
  reconnectAttemptsRef (execState m s) = reconnectAttemptsRef s.
Proof. intros H. apply (H (reconnectAttemptsRef s) s). reflexivity. Qed.

Lemma stopFallback_attempts (v : Z) : preserves (attemptsAre v) stopFallback.
Proof. unfold stopFallback. pres. Qed.

Lemma startFallback_attempts (v : Z) : preserves (attemptsAre v) startFallback.
Proof. unfold startFallback. pres. Qed.

Lemma closeTracked_attempts (v : Z) : preserves (attemptsAre v) closeTracked.
Proof. unfold closeTracked. pres. Qed.

#[local] Hint Resolve stopFallback_attempts startFallback_attempts
  closeTracked_attempts : frame.

Lemma connect_attempts (v : Z) (throws : bool) : preserves (attemptsAre v) (connect throws).
Proof. unfold connect. pres. Qed.

Lemma onopen_attempts (productId : string) (v : Z) (ws : nat) (sendThrows : bool) :
  preserves (attemptsAre v) (onopen productId ws sendThrows).
Proof. unfold onopen. pres. Qed.

Lemma onerror_attempts (v : Z) (ws : nat) : preserves (attemptsAre v) (onerror ws).
Proof. unfold onerror. pres. Qed.

Lemma onConnectionTimeout_attempts (v : Z) (ws : nat) :
  preserves (attemptsAre v) (onConnectionTimeout ws).
Proof. unfold onConnectionTimeout. pres. Qed.

Lemma fetchPriceData_settled_attempts
    (productId : string) (v : Z) (outcome : FetchOutcome) (now : float) :
  preserves (attemptsAre v) (fetchPriceData_settled productId outcome now).
Proof. unfold fetchPriceData_settled. pres. Qed.

Lemma cleanup_attempts (v : Z) : preserves (attemptsAre v) cleanup.
Proof. unfold cleanup. pres. Qed.

Lemma setReadyState_attempts (v : Z) (ws : nat) (r : ReadyState) :
  preserves (attemptsAre v) (setReadyState ws r).
Proof. pres. Qed.

#[local] Hint Resolve connect_attempts onopen_attempts onerror_attempts
  onConnectionTimeout_attempts fetchPriceData_settled_attempts cleanup_attempts
  setReadyState_attempts : frame.

(** A message that is not a ticker for the subscribed instrument. *)
Lemma onmessage_attempts (productId : string) (v : Z) (ws : nat) (data : option value) :
  match data with
  | Some d => isTickerFor productId d = false
  | None => True
  end ->
  preserves (attemptsAre v) (onmessage productId ws data).
Proof.
  unfold onmessage, isTickerFor. destruct data as [d|]; [|intros _; pres].
  destruct (nullish d); [intros _; pres|].
  cbn [negb andb]. intros ->. pres.
Qed.

Lemma onclose_normal_attempts (v : Z) (ws : nat) (random : Q) :
  preserves (attemptsAre v) (onclose ws 1000 random).
Proof. unfold onclose. cbn [Z.eqb Pos.eqb negb]. pres. Qed.

Lemma onclose_counts (ws : nat) (code : Z) (random : Q) (s : State) :
  code <> 1000 ->
  reconnectAttemptsRef (execState (onclose ws code random) s) = reconnectAttemptsRef s + 1.
Proof.
  intros Hc. apply Z.eqb_neq in Hc.
  unfold onclose. rewrite Hc. cbn [negb]. mrun.
  match goal with
  | |- context [if ?c then _ else _] => destruct c
  end.
  - mrun. rewrite (keeps_attempts startFallback) by auto with frame.
    prim. proj. rewrite (keeps_attempts (clearConnectionTimeout ws)) by (intros; pres).
    reflexivity.
  - prim. proj. rewrite (keeps_attempts (clearConnectionTimeout ws)) by (intros; pres).
    reflexivity.
Qed.

Lemma runCallback_attempts (cb : Callback) (throws : bool) (s : State) :
  reconnectAttemptsRef (execState (runCallback cb throws) s) = reconnectAttemptsRef s
  \/ reconnectAttemptsRef (execState (runCallback cb throws) s) = reconnectAttemptsRef s + 1.
Proof.
  destruct cb; cbn [runCallback];
    try solve [left; apply keeps_attempts; intros; pres].
  right. mrun. rewrite (keeps_attempts (connect throws)) by auto with frame.
  prim. proj. reflexivity.
Qed.

(** One task changes the counter by nothing, adds one to it, or is one of
    the resetting events. *)
Lemma step_counter (productId : string) (s : State) (e : Event) :
  reconnectAttemptsRef (step productId s e) = reconnectAttemptsRef s
  \/ reconnectAttemptsRef (step productId s e) = reconnectAttemptsRef s + 1
  \/ (reconnectAttemptsRef (step productId s e) = 0 /\ resetsCounter productId e = true).
Proof.
  unfold step. destruct e; cbn [dispatch resetsCounter].
  - right; right. split; [|reflexivity].
    unfold effect. peel.
    rewrite (keeps_attempts startFallback) by auto with frame. peel. reflexivity.
  - left. apply keeps_attempts. auto with frame.
  - right; right. split; [|reflexivity].
    unfold reconnect. peel.
    rewrite (keeps_attempts (connect throws)) by auto with frame. peel. reflexivity.
  - mrun. destruct (find id (timers s)) as [t|]; [|left; reflexivity].
    mrun.
    destruct (runCallback_attempts (callback t) throws
                (execState (if repeats t then ret tt else set_timers (cancel id (timers s))) s))
      as [H|H]; [left|right; left]; rewrite H; clear H.
    + apply keeps_attempts; intros; pres.
    + f_equal. apply keeps_attempts; intros; pres.
  - left. mrun. destruct (fetchesInFlight s); [reflexivity|].
    apply keeps_attempts; intros; pres.
  - left. unfold socket. mrun. apply keeps_attempts; intros.
    destruct (find ws (sockets s)) as [[[] []]|]; pres.
  - unfold socket. mrun.
    destruct (find ws (sockets s)) as [[[] ? ?]|]; try (left; reflexivity).
    destruct data as [d|].
    + destruct (isTickerFor productId d) eqn:Ht.
      * unfold onmessage, isTickerFor in *.
        destruct (nullish d); [discriminate|]. cbn [negb andb] in Ht. rewrite Ht.
        destruct (parseFloatV (prop d "price")); [|left; reflexivity].
        right; right. split; [|reflexivity].
        mrun.
        match goal with
        | |- context [if ?c then _ else _] => destruct c
        end.
        -- peel. rewrite (keeps_attempts stopFallback) by auto with frame.
           peel. reflexivity.
        -- peel. reflexivity.
      * left. apply keeps_attempts; intros. apply onmessage_attempts. exact Ht.
    + left. apply keeps_attempts; intros. apply onmessage_attempts. exact I.
  - left. unfold socket. mrun. apply keeps_attempts; intros.
    destruct (find ws (sockets s)) as [[[] ? ?]|]; pres.
  - unfold socket. mrun.
    destruct (find ws (sockets s)) as [[[] ? ?]|]; try (left; reflexivity).
    all: destruct (Z.eq_dec code 1000) as [->|Hc];
      [ left; mrun; rewrite (keeps_attempts (onclose ws 1000 random))
          by (intros; apply onclose_normal_attempts);
        apply keeps_attempts; intros; pres
      | right; left; mrun; rewrite onclose_counts by assumption;
        f_equal; apply keeps_attempts; intros; pres ].
Qed.

Lemma step_counter_nonneg (productId : string) (s : State) (e : Event) :
  0 <= reconnectAttemptsRef s -> 0 <= reconnectAttemptsRef (step productId s e).
Proof.
  intros H. destruct (step_counter productId s e) as [E|[E|[E _]]]; rewrite E; lia.
Qed.

(** The counter is never negative along a run. *)
Lemma run_counter_nonneg (productId : string) (es : list Event) (s : State) :
  0 <= reconnectAttemptsRef s -> 0 <= reconnectAttemptsRef (run productId s es).
Proof.
  revert s. induction es as [|e es IH]; intros s H; cbn [run fold_left]; [exact H|].
  apply IH, step_counter_nonneg, H.
Qed.

Lemma closable_find (s : State) (ws : nat) :
  closable s ws = true ->
  exists k, find ws (sockets s) = Some k /\ readyState k <> CLOSED.
Proof.
  unfold closable. destruct (find ws (sockets s)) as [k|]; [|discriminate].
  intros H. exists k. split; [reflexivity|].
  intros E. rewrite E in H. discriminate.
Qed.

(** What the event loop does with a close event it delivers. *)
Lemma step_close (productId : string) (s : State) (ws : nat) (code : Z) (random : Q) :
  closable s ws = true ->
  step productId s (SocketCloses ws code random)
  = execState (onclose ws code random) (execState (setReadyState ws CLOSED) s).
Proof.
  intros H. destruct (closable_find s ws H) as [[r c sn] [Hk Hr]].
  unfold step. cbn [dispatch]. unfold socket. mrun. rewrite Hk.
  destruct r; mrun; try reflexivity. cbn in Hr. congruence.
Qed.

(** What one task does to the reconnect counter.  Every close event with
    a code other than 1000 adds exactly one to it; a task that leaves the
    counter at zero found it at zero, or is a new run of the effect, a
    manual reconnect() or a frame that the handler takes as a ticker for
    the subscribed instrument; the open event of a socket leaves the
    counter as it is. *)
Lemma counter_discipline (productId : string) (s : State) (e : Event) :
  0 <= reconnectAttemptsRef s ->
  let s' := step productId s e in
  (forall ws code random,
      e = SocketCloses ws code random -> closable s ws = true -> code <> 1000 ->
      reconnectAttemptsRef s' = reconnectAttemptsRef s + 1)
  /\ (reconnectAttemptsRef s' = 0 ->
        reconnectAttemptsRef s = 0
        \/ e = EffectRuns
        \/ (exists throws, e = ReconnectCalled throws)
        \/ (exists ws data,
              e = SocketMessage ws (Some data) /\ isTickerFor productId data = true))
  /\ (forall ws sendThrows,
        e = SocketOpens ws sendThrows -> reconnectAttemptsRef s' = reconnectAttemptsRef s)
  /\ 0 <= reconnectAttemptsRef s'.
Proof.
  intros Hn s'. subst s'. repeat split.
  - intros ws code random -> Hc Hcode. rewrite step_close by assumption.
    rewrite onclose_counts by assumption. f_equal.
    apply keeps_attempts; intros; pres.
  - intros Hz. destruct (step_counter productId s e) as [E|[E|[_ E]]].
    + left. congruence.
    + lia.
    + right. destruct e; cbn [resetsCounter] in E; try discriminate.
      * left. reflexivity.
      * right; left. eexists. reflexivity.
      * right; right. destruct data as [d|]; [|discriminate].
        exists ws, d. split; [reflexivity|exact E].
  - intros ws sendThrows ->. unfold step. cbn [dispatch]. unfold socket. mrun.
    apply keeps_attempts; intros.
    destruct (find ws (sockets s)) as [[[] []]|]; pres.
  - apply step_counter_nonneg, Hn.
Qed.

(** C3 at its failing input.  Socket 1 has closed abnormally, the counter
    is 1, and the retry has opened socket 2.  The next frame is a ticker
    for the subscribed instrument whose price field is "oops": no price
    is parsed out of it ([parseFloat] returns NaN), yet the handler sets
    the counter back to 0 on line 188.  The socket then closes abnormally
    again, and is granted a retry as if it were the first failure. *)
Lemma unparsable_ticker_resets_counter :
  let frame :=
    VObj [("type", VStr "ticker"); ("product_id", VStr "BTC-USD"); ("price", VStr "oops")] in
  let s := run "BTC-USD" initial
             [EffectRuns; TimerFires 2 false; SocketOpens 1 false;
              SocketCloses 1 1006 (1 # 2); TimerFires 4 false; SocketOpens 2 false] in
  let s' := step "BTC-USD" s (SocketMessage 2 (Some frame)) in
  let s'' := step "BTC-USD" s' (SocketCloses 2 1006 (1 # 2)) in
  reconnectAttemptsRef s = 1
  /\ option_map is_nan (parseFloatV (prop frame "price")) = Some true
  /\ reconnectAttemptsRef s' = 0
  /\ price s' = Some nan
  /\ reconnectAttemptsRef s'' = 1
  /\ error s'' = Some (Text "Abnormal closure. Reconnecting... (1/2)")
  /\ pollingActive s'' = false.
Proof. vm_compute. repeat split. Qed.

(** *** The reconnection policy *)

(** **** Rounding to the nearest double *)

Lemma pow2_scale (e : Z) : e <= 0 -> (pow2 e * inject_Z (2 ^ (- e)) == 1)%Q.
Proof.
  intros He. unfold pow2. destruct (Z.leb_spec 0 e) as [H|H].
  - replace e with 0 by lia. reflexivity.
  - assert (P : 0 < 2 ^ (- e)) by (apply Z.pow_pos_nonneg; lia).
    unfold Qeq, Qmult, inject_Z. cbn [Qnum Qden].
    rewrite Pos.mul_1_r, Z2Pos.id by exact P. lia.
Qed.

Lemma pow2_pos (e : Z) : (0 < pow2 e)%Q.
Proof.
  unfold pow2. destruct (0 <=? e) eqn:E.
  - apply Z.leb_le in E. change 0%Q with (inject_Z 0). rewrite <- Zlt_Qlt.
    apply Z.pow_pos_nonneg; lia.
  - reflexivity.
Qed.

Lemma pow2_inv (e : Z) : e <= 0 -> (/ pow2 e == inject_Z (2 ^ (- e)))%Q.
Proof.
  intros He. pose proof (pow2_pos e) as P.
  apply (Qmult_inj_l _ _ (pow2 e)); [lra|].
  rewrite Qmult_inv_r by lra. symmetry. apply pow2_scale, He.
Qed.

Lemma nearestEven_floor (x : Q) :
  Qfloor x <= nearestEven x <= Qfloor x + 1.
Proof.
  unfold nearestEven.
  destruct (x - inject_Z (Qfloor x) ?= 1 # 2)%Q; [destruct (Z.even (Qfloor x))| |]; lia.
Qed.

Lemma nearestEven_ge (m : Z) (x : Q) : (inject_Z m <= x)%Q -> m <= nearestEven x.
Proof.
  intros H. apply Qfloor_resp_le in H. rewrite Qfloor_Z in H.
  pose proof (nearestEven_floor x). lia.
Qed.

Lemma nearestEven_le (M : Z) (x : Q) : (x <= inject_Z M)%Q -> nearestEven x <= M.
Proof.
  intros H. pose proof (nearestEven_floor x) as B.
  pose proof (Qfloor_resp_le _ _ H) as F. rewrite Qfloor_Z in F.
  destruct (Z.eq_dec (Qfloor x) M) as [E|E]; [|lia].
  unfold nearestEven. rewrite E.
  assert (X : (x - inject_Z M <= 0)%Q) by lra.
  destruct (x - inject_Z M ?= 1 # 2)%Q eqn:C.
  - apply Qeq_alt in C. lra.
  - lia.
  - apply Qgt_alt in C. lra.
Qed.

Lemma ilog2_small (x : Q) : (0 <= x)%Q -> (x < inject_Z (2 ^ 53))%Q -> ilog2 x <= 52.
Proof.
  intros H0 H. unfold ilog2.
  set (e := Z.log2 (Qnum x) - Z.log2 (Z.pos (Qden x))).
  destruct (Qle_bool (pow2 e) x) eqn:T.
  - apply Qle_bool_iff in T.
    destruct (Z.le_gt_cases e 52) as [L|G]; [exact L|exfalso].
    assert (P : (inject_Z (2 ^ 53) <= pow2 e)%Q).
    { unfold pow2. destruct (Z.leb_spec 0 e); [|lia].
      rewrite <- Zle_Qle. apply Z.pow_le_mono_r; lia. }
    lra.
  - assert (E : e <= 53); [|lia]. subst e.
    destruct x as [n d]. cbn [Qnum Qden] in *.
    unfold Qlt, inject_Z in H. cbn [Qnum Qden] in H. rewrite Z.mul_1_r in H.
    destruct (Z.le_gt_cases n 0) as [Hn|Hn].
    + rewrite (Z.log2_nonpos n) by exact Hn. pose proof (Z.log2_nonneg (Z.pos d)). lia.
    + assert (L : Z.log2 n <= Z.log2 (2 ^ 53 * Z.pos d)) by (apply Z.log2_le_mono; lia).
      rewrite Z.mul_comm, Z.log2_mul_pow2 in L by lia. lia.
Qed.

(** Below 2^53 the last place of a double is at most the unit. *)
Lemma lastPlace_small (x : Q) : (Qabs x < inject_Z (2 ^ 53))%Q -> lastPlace x <= 0.
Proof.
  intros H. unfold lastPlace.
  pose proof (ilog2_small (Qabs x) (Qabs_nonneg x) H). lia.
Qed.

(** So every integer is a double there, and rounding does not cross
    one. *)
Lemma round64_le (M : Z) (x : Q) :
  (Qabs x < inject_Z (2 ^ 53))%Q -> (x <= inject_Z M)%Q -> (round64 x <= inject_Z M)%Q.
Proof.
  intros Hs H. unfold round64. rewrite Qred_correct.
  pose proof (lastPlace_small x Hs) as He.
  set (e := lastPlace x) in *.
  pose proof (pow2_scale e He) as S. pose proof (pow2_pos e) as P.
  assert (K : (0 < inject_Z (2 ^ (- e)))%Q).
  { change 0%Q with (inject_Z 0). rewrite <- Zlt_Qlt. apply Z.pow_pos_nonneg; lia. }
  assert (D : (x / pow2 e == x * inject_Z (2 ^ (- e)))%Q).
  { unfold Qdiv. rewrite (pow2_inv e He). reflexivity. }
  assert (N : nearestEven (x / pow2 e) <= M * 2 ^ (- e)).
  { apply nearestEven_le. rewrite D, inject_Z_mult. nra. }
  rewrite Zle_Qle, inject_Z_mult in N.
  assert (R : (inject_Z M == inject_Z M * inject_Z (2 ^ (- e)) * pow2 e)%Q).
  { rewrite <- Qmult_assoc, (Qmult_comm (inject_Z (2 ^ (- e)))), S. ring. }
  rewrite R. nra.
Qed.

Lemma round64_ge (m : Z) (x : Q) :
  (Qabs x < inject_Z (2 ^ 53))%Q -> (inject_Z m <= x)%Q -> (inject_Z m <= round64 x)%Q.
Proof.
  intros Hs H. unfold round64. rewrite Qred_correct.
  pose proof (lastPlace_small x Hs) as He.
  set (e := lastPlace x) in *.
  pose proof (pow2_scale e He) as S. pose proof (pow2_pos e) as P.
  assert (K : (0 < inject_Z (2 ^ (- e)))%Q).
  { change 0%Q with (inject_Z 0). rewrite <- Zlt_Qlt. apply Z.pow_pos_nonneg; lia. }
  assert (D : (x / pow2 e == x * inject_Z (2 ^ (- e)))%Q).
  { unfold Qdiv. rewrite (pow2_inv e He). reflexivity. }
  assert (N : m * 2 ^ (- e) <= nearestEven (x / pow2 e)).
  { apply nearestEven_ge. rewrite D, inject_Z_mult. nra. }
  rewrite Zle_Qle, inject_Z_mult in N.
  assert (R : (inject_Z m == inject_Z m * inject_Z (2 ^ (- e)) * pow2 e)%Q).
  { rewrite <- Qmult_assoc, (Qmult_comm (inject_Z (2 ^ (- e)))), S. ring. }
  rewrite R. nra.
Qed.

Lemma Qabs_small (x : Q) (M : Z) :
  (0 <= x)%Q -> (x <= inject_Z M)%Q -> M < 2 ^ 53 -> (Qabs x < inject_Z (2 ^ 53))%Q.
Proof.
  intros H0 H1 HM. rewrite Qabs_pos by exact H0.
  rewrite Zlt_Qlt in HM. lra.
Qed.

(** The model agrees with the binary64 arithmetic of the machine. *)
Example round64_is_binary64 :
  round64 (doubleValue 0x1.999999999999ap-4 * doubleValue 0x1.6666666666666p-1)
  = doubleValue (0x1.999999999999ap-4 * 0x1.6666666666666p-1)%float
  /\ round64 (doubleValue 0x1.999999999999ap-4 + doubleValue 0x1.999999999999ap-3)
     = doubleValue (0x1.999999999999ap-4 + 0x1.999999999999ap-3)%float
  /\ round64 (doubleValue 0x1.ffffffffffffep-1 * 2000)
     = doubleValue (0x1.ffffffffffffep-1 * 2000)%float
  /\ round64 (20000 + doubleValue (0x1.ffffffffffffep-1 * 2000)%float)
     = doubleValue (20000 + 0x1.ffffffffffffep-1 * 2000)%float
  /\ round64 (9007199254740993 # 1) = doubleValue 9007199254740992%float
  /\ round64 (3 * pow2 (-1075)) = doubleValue 0x1p-1073%float.
Proof. vm_compute. repeat split. Qed.

(** **** The backoff *)

Lemma Qmin_left (x y : Q) : (x <= y)%Q -> Qmin x y = x.
Proof.
  intros H. unfold Qmin, GenericMinMax.gmin.
  destruct (x ?= y)%Q eqn:C; try reflexivity.
  apply Qgt_alt in C. lra.
Qed.

(** The jitter of line 264, as a double. *)
Lemma jitter_range (random : Q) :
  (0 <= random)%Q -> (random < 1)%Q ->
  (0 <= round64 (random * 2000))%Q /\ (round64 (random * 2000) <= 2000)%Q.
Proof.
  intros H0 H1.
  assert (S : (Qabs (random * 2000) < inject_Z (2 ^ 53))%Q).
  { apply (Qabs_small _ 2000); [lra | change (inject_Z 2000) with 2000%Q; lra | lia]. }
  split.
  - apply (round64_ge 0 _ S). change (inject_Z 0) with 0%Q. lra.
  - apply (round64_le 2000 _ S). change (inject_Z 2000) with 2000%Q. lra.
Qed.

(** The delay of the first retry: the rounded sum of 20 seconds and the
    jitter; the cap of 30 seconds is out of reach. *)
Lemma retryDelay_first (random : Q) :
  (0 <= random)%Q -> (random < 1)%Q ->
  retryDelay 1 random = round64 (20000 + round64 (random * 2000))
  /\ (20000 <= retryDelay 1 random)%Q /\ (retryDelay 1 random <= 22000)%Q.
Proof.
  intros H0 H1. destruct (jitter_range random H0 H1) as [J0 J1].
  unfold retryDelay.
  replace (round64 (10000 * round64 (2 ^ 1))) with 20000%Q by (vm_compute; reflexivity).
  set (j := round64 (random * 2000)) in *.
  assert (S : (Qabs (20000 + j) < inject_Z (2 ^ 53))%Q).
  { apply (Qabs_small _ 22000); [lra | change (inject_Z 22000) with 22000%Q; lra | lia]. }
  assert (L : (20000 <= round64 (20000 + j))%Q).
  { apply (round64_ge 20000 _ S). change (inject_Z 20000) with 20000%Q. lra. }
  assert (U : (round64 (20000 + j) <= 22000)%Q).
  { apply (round64_le 22000 _ S). change (inject_Z 22000) with 22000%Q. lra. }
  rewrite Qmin_left by lra. auto.
Qed.

(** C7, as stated: the delay of the first retry is
    min(10000 * 2^attemptCount + jitter, 30000) for a jitter in [0, 2000).
    It fails when [Math.random()] returns 1 - 2^-52: the jitter is the
    double just below 2000, and the sum of 20000 and that jitter, rounded
    to the nearest double, is 22000 exactly. *)
Lemma rounded_delay_reaches_the_bound :
  ~ (forall (s : State) (ws : nat) (code : Z) (random : Q),
       code <> 1000 ->
       reconnectAttemptsRef s + 1 = 1 ->
       (0 <= random)%Q -> (random < 1)%Q ->
       let s' := execState (onclose ws code random) s in
       exists jitter d : Q,
         (0 <= jitter)%Q /\ (jitter < 2000)%Q
         /\ (d == Qmin (10000 * 2 ^ reconnectAttemptsRef s' + jitter) 30000)%Q
         /\ timers s'
            = timersWithoutWatchdog ws s ++ [(nextTimer s, mkTimer ReconnectCb d false)]).
Proof.
  intros H.
  specialize (H (run "BTC-USD" initial [EffectRuns; TimerFires 2 false; SocketOpens 1 false])
                1%nat 1006 (4503599627370495 # 4503599627370496)).
  cbv zeta in H.
  destruct H as (jitter & d & J0 & J1 & Hd & Ht).
  - discriminate.
  - reflexivity.
  - discriminate.
  - reflexivity.
  - assert (T : timers
                  (execState (onclose 1 1006 (4503599627370495 # 4503599627370496))
                     (run "BTC-USD" initial
                        [EffectRuns; TimerFires 2 false; SocketOpens 1 false]))
                = [(4%nat, mkTimer ReconnectCb 22000 false)])
      by (vm_compute; reflexivity).
    assert (W : timersWithoutWatchdog 1
                  (run "BTC-USD" initial [EffectRuns; TimerFires 2 false; SocketOpens 1 false])
                ++ [(nextTimer
                       (run "BTC-USD" initial
                          [EffectRuns; TimerFires 2 false; SocketOpens 1 false]),
                     mkTimer ReconnectCb d false)]
                = [(4%nat, mkTimer ReconnectCb d false)])
      by (vm_compute; reflexivity).
    assert (A : reconnectAttemptsRef
                  (execState (onclose 1 1006 (4503599627370495 # 4503599627370496))
                     (run "BTC-USD" initial
                        [EffectRuns; TimerFires 2 false; SocketOpens 1 false]))
                = 1)
      by (vm_compute; reflexivity).
    rewrite T, W in Ht. rewrite A in Hd.
    injection Ht as Ed. subst d.
    change (2 ^ 1)%Q with 2%Q in Hd.
    pose proof (Q.le_min_l (10000 * 2 + jitter) 30000) as M.
    rewrite <- Hd in M. lra.
Qed.

(** What the close handler does when it brings the counter to 1; [d] is
    the delay of line 265. *)
Lemma onclose_first_retry (s : State) (ws : nat) (code : Z) (random d : Q) :
  code <> 1000 ->
  reconnectAttemptsRef s + 1 = 1 ->
  retryDelay 1 random = d ->
  let s' := execState (onclose ws code random) s in
  timers s' = timersWithoutWatchdog ws s ++ [(nextTimer s, mkTimer ReconnectCb d false)]
  /\ reconnectTimeoutRef s' = Some (nextTimer s)
  /\ error s'
     = Some (Text (getErrorMessage code ++ ". Reconnecting... (" ++ showZ 1 ++ "/2)")%string)
  /\ reconnectAttemptsRef s' = 1.
Proof.
  intros Hc Hn Hd. cbv zeta. apply Z.eqb_neq in Hc.
  open_state s. unfold onclose, timersWithoutWatchdog.
  rewrite Hc. cbn [negb]. compute_state.
  match goal with
  | |- context [find ws ?l] => destruct (find ws l) as [[r [t|] sn]|]
  end.
  all: rewrite Hn; cbn [Z.leb Z.compare Pos.compare Pos.compare_cont]; rewrite Hd; repeat split.
Qed.

(** C7, amended.  An abnormal close that brings the counter to 1 schedules
    exactly one retry and shows the error
    "<reason>. Reconnecting... (attemptCount/2)".  The delay of the retry
    is the double nearest to 20000 + jitter, where the jitter is the
    double nearest to [Math.random() * 2000]; so it is
    min(10000 * 2^attemptCount + j, 30000) for a [j] in the closed
    interval [0, 2000]. *)
Theorem first_abnormal_close_schedules_retry
    (s : State) (ws : nat) (code : Z) (random : Q) :
  code <> 1000 ->
  reconnectAttemptsRef s + 1 = 1 ->
  (0 <= random)%Q -> (random < 1)%Q ->
  let s' := execState (onclose ws code random) s in
  let attemptCount := reconnectAttemptsRef s' in
  exists j d : Q,
    (0 <= j)%Q /\ (j <= 2000)%Q
    /\ (d == Qmin (10000 * 2 ^ attemptCount + j) 30000)%Q
    /\ d = round64 (20000 + round64 (random * 2000))
    /\ timers s'
       = timersWithoutWatchdog ws s ++ [(nextTimer s, mkTimer ReconnectCb d false)]
    /\ reconnectTimeoutRef s' = Some (nextTimer s)
    /\ error s'
       = Some (Text (getErrorMessage code ++ ". Reconnecting... ("
                       ++ showZ attemptCount ++ "/2)")%string)
    /\ attemptCount = 1.
Proof.
  intros Hc Hn H0 H1 s' attemptCount. subst attemptCount s'.
  destruct (retryDelay_first random H0 H1) as (E & L & U).
  destruct (onclose_first_retry s ws code random _ Hc Hn eq_refl) as (Ft & Fr & Fe & Fa).
  rewrite Fa. revert E L U Ft. generalize (retryDelay 1 random). intros d E L U Ft.
  exists (d - 20000)%Q, d.
  split; [lra|]. split; [lra|].
  split.
  { change (2 ^ 1)%Q with 2%Q. rewrite Q.min_l by lra. ring. }
  split; [exact E|].
  repeat split; assumption.
Qed.

Lemma first_abnormal_close_schedules_retry_witness :
  let s := run "BTC-USD" initial [EffectRuns; TimerFires 2 false; SocketOpens 1 false] in
  let s' := execState (onclose 1 1006 (1 # 2)) s in
  exists j d : Q,
    (0 <= j)%Q /\ (j <= 2000)%Q
    /\ (d == Qmin (10000 * 2 ^ reconnectAttemptsRef s' + j) 30000)%Q
    /\ d = round64 (20000 + round64 ((1 # 2) * 2000))
    /\ timers s'
       = timersWithoutWatchdog 1 s ++ [(nextTimer s, mkTimer ReconnectCb d false)]
    /\ reconnectTimeoutRef s' = Some (nextTimer s)
    /\ error s'
       = Some (Text (getErrorMessage 1006 ++ ". Reconnecting... ("
                       ++ showZ (reconnectAttemptsRef s') ++ "/2)")%string)
    /\ reconnectAttemptsRef s' = 1.
Proof.
  apply (first_abnormal_close_schedules_retry
           (run "BTC-USD" initial [EffectRuns; TimerFires 2 false; SocketOpens 1 false])
           1 1006 (1 # 2)).
  - discriminate.
  - vm_compute; reflexivity.
  - discriminate.
  - reflexivity.
Defined.

Example scenario_C_first_close :
  let s := run "BTC-USD" initial
             [EffectRuns; TimerFires 2 false; SocketOpens 1 false;
              SocketCloses 1 1006 (1 # 2)] in
  error s = Some (Text "Abnormal closure. Reconnecting... (1/2)")
  /\ (exists d, timers s = [(4%nat, mkTimer ReconnectCb d false)] /\ (d == 21000)%Q)
  /\ reconnectAttemptsRef s = 1.
Proof.
  split; [reflexivity|]. split; [|reflexivity].
  eexists. split; reflexivity.
Qed.

(** *** Streaming at rest *)

Lemma forallb_cancel (p : nat * Timer -> bool) (id : nat) (l : list (nat * Timer)) :
  forallb p l = true -> forallb p (cancel id l) = true.
Proof.
  unfold cancel. induction l as [|x l IH]; cbn [forallb filter]; [reflexivity|].
  intros H. apply andb_true_iff in H. destruct H as [Hx Hl].
  destruct (negb (Nat.eqb (fst x) id)); cbn [forallb]; [rewrite Hx|]; auto.
Qed.

Lemma find_polling (id : nat) (t : Timer) (l : list (nat * Timer)) :
  forallb isPolling l = true -> find id l = Some t -> callback t = FetchPriceDataCb.
Proof.
  induction l as [|[k x] l IH]; cbn [forallb find]; [discriminate|].
  intros H. apply andb_true_iff in H. destruct H as [Hx Hl].
  destruct (Nat.eqb k id); [|auto].
  intros E. injection E as <-. unfold isPolling in Hx. cbn [snd] in Hx.
  revert Hx. destruct (callback x); intros; congruence.
Qed.

Lemma find_closed (ws : nat) (k : Socket) (l : list (nat * Socket)) :
  forallb isClosed l = true -> find ws l = Some k -> readyState k = CLOSED.
Proof.
  induction l as [|[i x] l IH]; cbn [forallb find]; [discriminate|].
  intros H. apply andb_true_iff in H. destruct H as [Hx Hl].
  destruct (Nat.eqb i ws); [|auto].
  intros E. injection E as <-. unfold isClosed in Hx. cbn [snd] in Hx.
  revert Hx. destruct (readyState x); cbn [ReadyState_eqb]; intros; congruence.
Qed.

Lemma restingAt_parts (n : nat) (s : State) :
  restingAt n s <->
  forallb isPolling (timers s) = true /\ forallb isClosed (sockets s) = true
  /\ nextSocket s = n.
Proof.
  unfold restingAt, atRest. rewrite andb_true_iff. tauto.
Qed.

Ltac pres_rest :=
  pres_with ltac:(intros; unfold restingAt, atRest in *; proj; assumption).

Lemma clearTimeout_resting (n id : nat) : preserves (restingAt n) (clearTimeout id).
Proof.
  intros s H. unfold clearTimeout. peel.
  apply restingAt_parts in H. apply restingAt_parts. proj.
  destruct H as (Ht & Hs & Hn). auto using forallb_cancel.
Qed.

#[local] Hint Resolve clearTimeout_resting : frame.

Lemma clearInterval_resting (n id : nat) : preserves (restingAt n) (clearInterval id).
Proof. unfold clearInterval. auto with frame. Qed.

Lemma closeTracked_resting (n : nat) : preserves (restingAt n) closeTracked.
Proof.
  intros s H. unfold closeTracked. peel.
  destruct (wsRef s) as [w|]; [|exact H]. peel.
  destruct (find w (sockets s)) as [k|] eqn:Hk; [|exact H].
  apply restingAt_parts in H. destruct H as (Ht & Hs & Hn).
  rewrite (find_closed w k _ Hs Hk). cbn [ReadyState_eqb negb]. mrun.
  apply restingAt_parts. auto.
Qed.

#[local] Hint Resolve clearInterval_resting closeTracked_resting : frame.

Lemma stopFallback_resting (n : nat) : preserves (restingAt n) stopFallback.
Proof. unfold stopFallback. pres_rest. Qed.

#[local] Hint Resolve stopFallback_resting : frame.

Lemma cleanup_resting (n : nat) : preserves (restingAt n) cleanup.
Proof. unfold cleanup. pres_rest. Qed.

Lemma fetchPriceData_resting (n : nat) : preserves (restingAt n) fetchPriceData.
Proof. unfold fetchPriceData. pres_rest. Qed.

Lemma fetchPriceData_settled_resting
    (productId : string) (n : nat) (outcome : FetchOutcome) (now : float) :
  preserves (restingAt n) (fetchPriceData_settled productId outcome now).
Proof. unfold fetchPriceData_settled. pres_rest. Qed.

#[local] Hint Resolve cleanup_resting fetchPriceData_resting
  fetchPriceData_settled_resting : frame.

(** While streaming is at rest, a task that is neither a manual
    reconnect() nor a new run of the effect creates no socket and leaves
    streaming at rest. *)
Lemma step_resting (productId : string) (n : nat) (s : State) (e : Event) :
  manual e = false -> restingAt n s -> restingAt n (step productId s e).
Proof.
  intros Hm H. unfold step.
  destruct e; cbn [manual] in Hm; try discriminate; cbn [dispatch].
  - apply cleanup_resting, H.
  - mrun. destruct (find id (timers s)) as [t|] eqn:Ht; [|exact H].
    pose proof H as H'. apply restingAt_parts in H'. destruct H' as (Hp & _).
    mrun. rewrite (find_polling id t _ Hp Ht). cbn [runCallback].
    apply fetchPriceData_resting.
    destruct (repeats t); [exact H|]. exact (clearTimeout_resting n id s H).
  - mrun. destruct (fetchesInFlight s); [exact H|]. mrun.
    apply fetchPriceData_settled_resting. revert H. generalize s.
    match goal with
    | |- forall s0, _ -> _ (execState ?m s0) => change (preserves (restingAt n) m)
    end.
    pres_rest.
  - unfold socket. mrun. destruct (find ws (sockets s)) as [k|] eqn:Hk; [|exact H].
    pose proof H as H'. apply restingAt_parts in H'. destruct H' as (_ & Hs & _).
    pose proof (find_closed ws k _ Hs Hk) as Hr. destruct k as [r c sn].
    cbn in Hr. subst r. exact H.
  - unfold socket. mrun. destruct (find ws (sockets s)) as [k|] eqn:Hk; [|exact H].
    pose proof H as H'. apply restingAt_parts in H'. destruct H' as (_ & Hs & _).
    pose proof (find_closed ws k _ Hs Hk) as Hr. destruct k as [r c sn].
    cbn in Hr. subst r. exact H.
  - unfold socket. mrun. destruct (find ws (sockets s)) as [k|] eqn:Hk; [|exact H].
    pose proof H as H'. apply restingAt_parts in H'. destruct H' as (_ & Hs & _).
    pose proof (find_closed ws k _ Hs Hk) as Hr. destruct k as [r c sn].
    cbn in Hr. subst r. exact H.
  - unfold socket. mrun. destruct (find ws (sockets s)) as [k|] eqn:Hk; [|exact H].
    pose proof H as H'. apply restingAt_parts in H'. destruct H' as (_ & Hs & _).
    pose proof (find_closed ws k _ Hs Hk) as Hr. destruct k as [r c sn].
    cbn in Hr. subst r. exact H.
Qed.

Lemma run_resting (productId : string) (n : nat) (es : list Event) (s : State) :
  forallb (fun e => negb (manual e)) es = true ->
  restingAt n s -> restingAt n (run productId s es).
Proof.
  revert s. induction es as [|e es IH]; intros s Hes H; cbn [run fold_left]; [exact H|].
  cbn [forallb] in Hes. apply andb_true_iff in Hes. destruct Hes as [He Hes].
  apply IH; [exact Hes|]. apply step_resting; [|exact H].
  destruct (manual e); [discriminate|reflexivity].
Qed.

(** *** Giving up on streaming *)

(** What the close handler does when it gives up: an abnormal close that
    brings the counter to 2 or more shows
    "<reason> - using REST API fallback", restarts polling, and schedules
    nothing but the polling interval.  It cancels nothing besides the
    watchdog of its socket: a retry that is pending stays pending. *)
Lemma give_up_branch
    (productId : string) (s : State) (ws : nat) (code : Z) (random : Q) :
  closable s ws = true ->
  code <> 1000 ->
  2 <= reconnectAttemptsRef s + 1 ->
  let s' := step productId s (SocketCloses ws code random) in
  error s' = Some (Text (getErrorMessage code ++ " - using REST API fallback")%string)
  /\ fallbackIntervalRef s' = Some (nextTimer s)
  /\ reconnectTimeoutRef s' = reconnectTimeoutRef s
  /\ timers s'
     = timersWithoutWatchdog ws s ++ [(nextTimer s, mkTimer FetchPriceDataCb 5000%Q true)].
Proof.
  intros Hc Hcode Hn s'. subst s'.
  rewrite step_close by assumption.
  destruct (closable_find s ws Hc) as [[r c sn] [Hk Hr]].
  apply Z.eqb_neq in Hcode; apply Z.leb_le in Hn.
  open_state s; unfold onclose, timersWithoutWatchdog.
  rewrite Hcode; cbn [negb]; compute_state; rewrite Hk.
  rewrite (find_replace ws _ _ _ Hk); compute_state.
  destruct c as [t|]; rewrite Hn; repeat split.
Qed.

(** C4 at its failing input.  The watchdog closes the first socket and
    schedules its own retry (timer 4); the close event of that socket
    brings the counter to 1 and schedules a backoff retry (timer 5, held
    in [reconnectTimeoutRef]); the watchdog's retry connects again, and
    that second socket closes abnormally: the counter reaches 2, the
    handler shows "Abnormal closure - using REST API fallback" and
    restarts polling.  It does not cancel the backoff retry, as
    [reconnect()] on line 294 and the cleanup on line 327 do: the retry
    is still pending, fires, and [connect()] creates a third socket and
    stops the polling that had just been restarted, with no manual
    reconnect() in between. *)
Lemma pending_retry_connects_after_giving_up :
  let s := run "BTC-USD" initial
             [EffectRuns; TimerFires 2 false; TimerFires 3 false;
              SocketCloses 1 1006 (1 # 2); TimerFires 4 false;
              SocketCloses 2 1006 (1 # 2)] in
  let s' := step "BTC-USD" s (TimerFires 5 false) in
  reconnectAttemptsRef s = 2
  /\ error s = Some (Text "Abnormal closure - using REST API fallback")
  /\ fallbackIntervalRef s = Some 7%nat
  /\ reconnectTimeoutRef s = Some 5%nat
  /\ timers s = [(5%nat, mkTimer ReconnectCb 21000 false);
                 (7%nat, mkTimer FetchPriceDataCb 5000 true)]
  /\ nextSocket s = 3%nat
  /\ nextSocket s' = 4%nat
  /\ wsRef s' = Some 3%nat
  /\ find 3 (sockets s') = Some (mkSocket CONNECTING (Some 8%nat) [])
  /\ fallbackIntervalRef s' = None
  /\ timers s' = [(8%nat, mkTimer (ConnectionTimeoutCb 3) 15000 false)].
Proof. vm_compute. repeat split. Qed.

(** *** Close events of a superseded socket *)

(** C5, as stated: a close event from a socket that is no longer the
    tracked one changes neither the counter, nor the connected flag, nor
    the timers, nor polling.  It fails after a manual reconnect() on an
    open socket: the old socket's close event (code 1005) arrives while
    socket 2 is the tracked one, and is handled like any other. *)
Lemma stale_close_is_handled :
  ~ (forall (tr : list Event) (ws : nat) (code : Z) (random : Q),
       let s := run "BTC-USD" initial tr in
       let s' := step "BTC-USD" s (SocketCloses ws code random) in
       closable s ws = true -> wsRef s <> Some ws ->
       reconnectAttemptsRef s' = reconnectAttemptsRef s
       /\ isConnected s' = isConnected s
       /\ nextTimer s' = nextTimer s
       /\ fallbackIntervalRef s' = fallbackIntervalRef s).
Proof.
  intros H.
  specialize (H [EffectRuns; TimerFires 2 false; SocketOpens 1 false; ReconnectCalled false]
                1%nat 1005 (1 # 2)).
  cbv zeta in H.
  assert (F : 1 = 0); [|discriminate F].
  etransitivity; [symmetry|]; [|apply H].
  all: vm_compute; congruence.
Qed.

(** C5, amended.  The close handler does not consult which socket is
    tracked: run with any other tracked socket it does the same.  For
    every close event it sets the connected flag to false and clears the
    in-flight guard; with code 1000 it does nothing else to the counter,
    the timer handles or polling; with any other code it adds one to the
    counter and schedules one timer, the polling interval when the
    counter has reached 2 and a reconnect otherwise. *)
Theorem close_handler_ignores_tracked_socket
    (s : State) (ws : nat) (code : Z) (random : Q) (tracked : option nat) :
  let s' := execState (onclose ws code random) s in
  execState (onclose ws code random) (execState (set_wsRef tracked) s)
  = execState (set_wsRef tracked) s'
  /\ isConnected s' = false
  /\ isConnectingRef s' = false
  /\ if code =? 1000 then
       reconnectAttemptsRef s' = reconnectAttemptsRef s
       /\ nextTimer s' = nextTimer s
       /\ reconnectTimeoutRef s' = reconnectTimeoutRef s
       /\ fallbackIntervalRef s' = fallbackIntervalRef s
     else
       reconnectAttemptsRef s' = reconnectAttemptsRef s + 1
       /\ nextTimer s' = S (nextTimer s)
       /\ if 2 <=? reconnectAttemptsRef s + 1
          then fallbackIntervalRef s' = Some (nextTimer s)
               /\ reconnectTimeoutRef s' = reconnectTimeoutRef s
          else reconnectTimeoutRef s' = Some (nextTimer s)
               /\ fallbackIntervalRef s' = fallbackIntervalRef s.
Proof.
  cbv zeta. open_state s. unfold onclose.
  destruct (code =? 1000); cbn [negb]; compute_state.
  - match goal with
    | |- context [find ws ?l] => destruct (find ws l) as [[r [t|] sn]|]
    end; repeat split.
  - match goal with
    | |- context [find ws ?l] => destruct (find ws l) as [[r [t|] sn]|]
    end;
    match goal with
    | |- context [2 <=? ?n] => destruct (2 <=? n)
    end; repeat split.
Qed.

(** *** Teardown *)

(** The cleanup cancels the three handles the hook keeps. *)
Lemma cleanup_timers (s : State) :
  timers (execState cleanup s)
  = cancelOpt (fallbackIntervalRef s)
      (cancelOpt (reconnectTimeoutRef s) (cancelOpt (wsTimeout s) (timers s))).
Proof.
  unfold cleanup, cancelOpt. cases; reflexivity.
Qed.

(** C6 at its failing input.  The effect runs, the settle delay elapses
    and [connect()] creates socket 1, the watchdog fires while it is
    still connecting and schedules its retry (timer 4), then the cleanup
    runs.  The retry is still pending after the cleanup; when it fires,
    [connect()] runs and creates socket 2 with a new watchdog.  The same
    happens to the retry of the exception path (timer 3 of the second
    run). *)
Lemma teardown_leaves_retry_timers :
  let torn := run "BTC-USD" initial
                [EffectRuns; TimerFires 2 false; TimerFires 3 false; CleanupRuns] in
  let later := step "BTC-USD" torn (TimerFires 4 false) in
  let torn' := run "BTC-USD" initial [EffectRuns; TimerFires 2 true; CleanupRuns] in
  let later' := step "BTC-USD" torn' (TimerFires 3 false) in
  timers torn = [(4%nat, mkTimer TimeoutRetryCb 3000%Q false)]
  /\ nextSocket torn = 2%nat
  /\ nextSocket later = 3%nat
  /\ wsRef later = Some 2%nat
  /\ timers later = [(5%nat, mkTimer (ConnectionTimeoutCb 2) 15000%Q false)]
  /\ timers torn' = [(3%nat, mkTimer CreationRetryCb 5000%Q false)]
  /\ nextSocket torn' = 1%nat
  /\ nextSocket later' = 2%nat
  /\ timers later' = [(4%nat, mkTimer (ConnectionTimeoutCb 1) 15000%Q false)].
Proof. vm_compute. repeat split. Qed.

(** *** The polling fetcher *)

(** What the fetcher does with a response it can read: the test of
    line 71 decides alone. *)
Lemma fetch_readable
    (productId : string) (s : State) (tickerResponse statsResponse : Response)
    (body statsData : value) (now : float) :
  status tickerResponse <> 429 ->
  ok tickerResponse = true ->
  json tickerResponse = Some body ->
  (if ok statsResponse then json statsResponse else Some VNull) = Some statsData ->
  execState (fetchPriceData_settled productId (Some (tickerResponse, statsResponse)) now) s
  = match parseFloatV (prop body "price") with
    | Some currentPrice =>
        if truthyNum currentPrice && negb (is_nan currentPrice)
        then mkState (mkView (Some currentPrice)
                        (Some (realTickerData productId body statsData now)) true None)
               s s
        else mkState (mkView (price s) (tickerData s) (isConnected s)
                        (Some (Text "Unable to fetch price data")))
               s s
    | None => mkState (mkView (price s) (tickerData s) (isConnected s)
                         (Some (Text "Unable to fetch price data")))
                s s
    end.
Proof.
  intros H429 Hok Hbody Hstats.
  apply Z.eqb_neq in H429.
  unfold fetchPriceData_settled. rewrite H429, Hok, Hbody, Hstats. cbn [negb].
  destruct (nullish body) eqn:Hn.
  - destruct body; try discriminate Hn;
      change (parseFloatV (prop _ "price")) with (Some nan);
      change (truthyNum nan && negb (is_nan nan)) with false;
      msimpl; reflexivity.
  - destruct (parseFloatV (prop body "price")) as [p|];
      [destruct (truthyNum p && negb (is_nan p))|]; msimpl; reflexivity.
Qed.

(** C9, as stated: a quote is emitted whenever the price parses to a
    finite number.  The price "0" parses to the finite number 0 and is
    rejected by the test of line 71; so is a good price whose stats
    response succeeds with a body that is not JSON. *)
Lemma finite_price_without_quote :
  let body0 := VObj [("price", VStr "0")] in
  let body := VObj [("price", VStr "50000.00")] in
  let zero :=
    execState (fetchPriceData_settled "BTC-USD"
                 (Some (mkResponse 200 (Some body0), mkResponse 200 (Some (VObj []))))
                 0%float) initial in
  let unreadable :=
    execState (fetchPriceData_settled "BTC-USD"
                 (Some (mkResponse 200 (Some body), mkResponse 200 None))
                 0%float) initial in
  option_map is_finite (parseFloatV (prop body0 "price")) = Some true
  /\ price zero = None /\ tickerData zero = None
  /\ error zero = Some (Text "Unable to fetch price data")
  /\ option_map is_finite (parseFloatV (prop body "price")) = Some true
  /\ price unreadable = None /\ tickerData unreadable = None
  /\ error unreadable = Some (Text "Unable to fetch price data").
Proof. vm_compute. repeat split. Qed.

(** C9, amended.  For a polling fetch whose quote response succeeds and
    can be read, and whose stats response, if it succeeds, can be read
    too: when the price field parses to a finite number other than zero,
    the quote built from the response becomes the visible one; when it
    parses to NaN (so also when it is missing) or to zero, the fetch
    fails, price, quote and connected flag stay as they were, the error
    "Unable to fetch price data" is shown, and the refs and the timers,
    the polling interval among them, are untouched.  (A price field that
    [parseFloat] cannot even convert to text makes it throw, and the
    fetch fails in the same way.) *)
Theorem polling_fetch_payload
    (productId : string) (s : State) (tickerResponse statsResponse : Response)
    (body statsData : value) (now : float) :
  status tickerResponse <> 429 ->
  ok tickerResponse = true ->
  json tickerResponse = Some body ->
  (if ok statsResponse then json statsResponse else Some VNull) = Some statsData ->
  let s' :=
    execState (fetchPriceData_settled productId (Some (tickerResponse, statsResponse)) now) s in
  let failed :=
    price s' = price s
    /\ tickerData s' = tickerData s
    /\ isConnected s' = isConnected s
    /\ error s' = Some (Text "Unable to fetch price data")
    /\ refs s' = refs s
    /\ runtime s' = runtime s in
  match parseFloatV (prop body "price") with
  | Some currentPrice =>
      (is_finite currentPrice = true -> is_zero currentPrice = false ->
         price s' = Some currentPrice
         /\ tickerData s' = Some (realTickerData productId body statsData now)
         /\ error s' = None)
      /\ (is_nan currentPrice = true \/ is_zero currentPrice = true -> failed)
  | None => failed
  end.
Proof.
  intros H429 Hok Hbody Hstats s' failed. subst failed s'.
  rewrite (fetch_readable productId s tickerResponse statsResponse body statsData now)
    by assumption.
  destruct (parseFloatV (prop body "price")) as [currentPrice|]; [|repeat split].
  unfold truthyNum, is_finite. split.
  - intros Hfin Hzero. rewrite Hzero.
    destruct (is_nan currentPrice); [discriminate|]. repeat split.
  - intros [Hnan|Hzero].
    + rewrite Hnan, andb_false_r. repeat split.
    + rewrite Hzero. repeat split.
Qed.

Lemma polling_fetch_payload_witness :
  let body := VObj [("price", VStr "50000.00")] in
  let body0 := VObj [("price", VStr "0")] in
  let good :=
    execState (fetchPriceData_settled "BTC-USD"
                 (Some (mkResponse 200 (Some body), mkResponse 500 None)) 17%float)
      initial in
  let bad :=
    execState (fetchPriceData_settled "BTC-USD"
                 (Some (mkResponse 200 (Some body0), mkResponse 500 None)) 17%float)
      good in
  (price good = Some 50000%float
   /\ tickerData good = Some (realTickerData "BTC-USD" body VNull 17%float)
   /\ error good = None)
  /\ (price bad = price good
      /\ tickerData bad = tickerData good
      /\ isConnected bad = isConnected good
      /\ error bad = Some (Text "Unable to fetch price data")
      /\ refs bad = refs good
      /\ runtime bad = runtime good).
Proof.
  cbv zeta. split.
  - pose proof (polling_fetch_payload "BTC-USD" initial
                  (mkResponse 200 (Some (VObj [("price", VStr "50000.00")])))
                  (mkResponse 500 None)
                  (VObj [("price", VStr "50000.00")]) VNull 17%float) as H.
    cbv zeta in H.
    change (parseFloatV (prop (VObj [("price", VStr "50000.00")]) "price"))
      with (Some 50000%float) in H.
    apply H.
    + discriminate.
    + reflexivity.
    + reflexivity.
    + reflexivity.
    + vm_compute. reflexivity.
    + vm_compute. reflexivity.
  - pose proof (polling_fetch_payload "BTC-USD"
                  (execState (fetchPriceData_settled "BTC-USD"
                     (Some (mkResponse 200 (Some (VObj [("price", VStr "50000.00")])),
                            mkResponse 500 None)) 17%float) initial)
                  (mkResponse 200 (Some (VObj [("price", VStr "0")])))
                  (mkResponse 500 None)
                  (VObj [("price", VStr "0")]) VNull 17%float) as H.
    cbv zeta in H.
    change (parseFloatV (prop (VObj [("price", VStr "0")]) "price"))
      with (Some 0%float) in H.
    apply H.
    + discriminate.
    + reflexivity.
    + reflexivity.
    + reflexivity.
    + right. vm_compute. reflexivity.
Defined.

(** *** Inbound streaming messages *)

(** A frame that cannot be parsed, whose [type] cannot be read, that is
    not a ticker, or that is a ticker for another instrument leaves
    price, quote, connected flag, refs, sockets and timers as they
    were. *)
Lemma other_messages_keep_quote
    (productId : string) (s : State) (ws : nat) (data : option value) :
  match data with
  | Some d => isTickerFor productId d = false
  | None => True
  end ->
  let s' := execState (onmessage productId ws data) s in
  price s' = price s
  /\ tickerData s' = tickerData s
  /\ isConnected s' = isConnected s
  /\ refs s' = refs s
  /\ runtime s' = runtime s.
Proof.
  unfold onmessage, isTickerFor. cbv zeta.
  destruct data as [d|]; [|intros _; msimpl; repeat split].
  destruct (nullish d); [intros _; msimpl; repeat split|].
  cbn [negb andb]. intros ->.
  destruct (strictEqStr (prop d "type") "subscriptions"); [msimpl; repeat split|].
  destruct (strictEqStr (prop d "type") "error");
    [destruct (toStringThrows (orElse (prop d "message") (VStr "Unknown error")))|];
    msimpl; repeat split.
Qed.

(** C2 at its failing input.  Socket 1 is open and has delivered the
    price 51000; the next frame is a ticker for the subscribed
    instrument whose price field is "oops".  The handler stores the NaN
    that [parseFloat] returns as the visible price and the frame as the
    visible quote. *)
Lemma unparsable_price_overwrites_quote :
  let ticker p :=
    Some (VObj [("type", VStr "ticker"); ("product_id", VStr "BTC-USD"); ("price", VStr p)]) in
  let s := run "BTC-USD" initial
             [EffectRuns; TimerFires 2 false; SocketOpens 1 false;
              SocketMessage 1 (ticker "51000.00")] in
  let s' := step "BTC-USD" s (SocketMessage 1 (ticker "oops")) in
  price s = Some 51000%float
  /\ tickerData s = ticker "51000.00"
  /\ price s' = Some nan
  /\ tickerData s' = ticker "oops"
  /\ isConnected s' = isConnected s
  /\ reconnectAttemptsRef s' = 0.
Proof. vm_compute. repeat split. Qed.

(** *** When polling is active *)

Ltac pres_poll :=
  pres_with ltac:(intros; unfold polling, pollingActive in *; proj;
                  first [assumption | reflexivity]).

Lemma startFallback_polling : preserves polling startFallback.
Proof. unfold startFallback. pres_poll. Qed.

#[local] Hint Resolve startFallback_polling : frame.

Lemma effect_polling : preserves polling effect.
Proof. unfold effect. pres_poll. Qed.

Lemma onopen_polling (productId : string) (ws : nat) (sendThrows : bool) :
  preserves polling (onopen productId ws sendThrows).
Proof. unfold onopen. pres_poll. Qed.

Lemma onerror_polling (ws : nat) : preserves polling (onerror ws).
Proof. unfold onerror. pres_poll. Qed.

Lemma onclose_polling (ws : nat) (code : Z) (random : Q) :
  preserves polling (onclose ws code random).
Proof. unfold onclose. pres_poll. Qed.

Lemma onConnectionTimeout_polling (ws : nat) : preserves polling (onConnectionTimeout ws).
Proof. unfold onConnectionTimeout. pres_poll. Qed.

Lemma fetchPriceData_settled_polling
    (productId : string) (outcome : FetchOutcome) (now : float) :
  preserves polling (fetchPriceData_settled productId outcome now).
Proof. unfold fetchPriceData_settled. pres_poll. Qed.

Lemma onmessage_polling (productId : string) (ws : nat) (data : option value) :
  match data with
  | Some d => isTickerFor productId d = false
  | None => True
  end ->
  preserves polling (onmessage productId ws data).
Proof.
  unfold onmessage, isTickerFor. destruct data as [d|]; [|intros _; pres_poll].
  destruct (nullish d); [intros _; pres_poll|].
  cbn [negb andb]. intros ->. pres_poll.
Qed.

#[local] Hint Resolve effect_polling onopen_polling onerror_polling onclose_polling
  onConnectionTimeout_polling fetchPriceData_settled_polling : frame.

(** [connect()] while a connect is in flight does nothing. *)
Lemma connect_busy (throws : bool) (s : State) :
  isConnectingRef s = true -> execState (connect throws) s = s.
Proof. intros H. unfold connect. mrun. rewrite H. reflexivity. Qed.

(** [connect()] that passes the guard and creates its socket cancels
    the polling interval, arms the watchdog of 15 seconds and tracks
    the new socket. *)
Lemma connect_creates_socket (s : State) :
  isConnectingRef s = false ->
  let s' := execState (connect false) s in
  fallbackIntervalRef s' = None
  /\ timers s'
     = cancelOpt (fallbackIntervalRef s) (timers s)
       ++ [(nextTimer s, mkTimer (ConnectionTimeoutCb (nextSocket s)) 15000%Q false)]
  /\ wsRef s' = Some (nextSocket s)
  /\ nextSocket s' = S (nextSocket s).
Proof.
  intros H. cbv zeta. unfold connect, cancelOpt. msimpl. rewrite H.
  cases.
  all: repeat split.
Qed.

(** The effect starts polling: one fetch leaves, the interval of 5
    seconds is armed and its handle kept, and the settle delay starts. *)
Lemma effect_starts_polling (productId : string) (s : State) :
  let s' := step productId s EffectRuns in
  fallbackIntervalRef s' = Some (nextTimer s)
  /\ timers s'
     = timers s
       ++ [(nextTimer s, mkTimer FetchPriceDataCb 5000%Q true)]
       ++ [(S (nextTimer s), mkTimer WsTimeoutCb 1000%Q false)]
  /\ fetchesInFlight s' = S (fetchesInFlight s).
Proof.
  cbv zeta. open_state s. unfold step. cbn [dispatch]. unfold effect.
  compute_state. rewrite <- app_assoc. repeat split.
Qed.

(** C1, as stated: as long as no streaming message has been delivered
    (and the cleanup has not run), polling is active.  It fails as soon as
    the settle delay elapses: [connect()] stops polling before the socket
    has even opened. *)
Lemma connect_stops_polling_before_any_message :
  ~ (forall tr : list Event,
       forallb beforeAnyMessage tr = true ->
       pollingActive (run "BTC-USD" initial (EffectRuns :: tr)) = true).
Proof.
  intros H. specialize (H [TimerFires 2 false] eq_refl).
  vm_compute in H. discriminate H.
Qed.

Lemma polling_kept {B : Type} (m : M B) (s : State) :
  preserves polling m ->
  pollingActive s = true -> pollingActive (execState m s) = false -> False.
Proof. intros Hm Hp Hq. apply Hm in Hp. unfold polling in Hp. congruence. Qed.

(** A timer whose callback calls [connect()] while a connect is in
    flight leaves polling as it is. *)
Lemma busy_timer_polling (id : nat) (t : Timer) (throws : bool) (s : State) :
  callsConnect (callback t) = true ->
  isConnectingRef s = true ->
  pollingActive
    (execState (runCallback (callback t) throws)
       (execState (if repeats t then ret tt else set_timers (cancel id (timers s))) s))
  = pollingActive s.
Proof.
  intros Hc Hb.
  assert (Hb' : forall n,
             isConnectingRef
               (execState (set_reconnectAttemptsRef n)
                  (execState (if repeats t then ret tt else set_timers (cancel id (timers s))) s))
             = true)
    by (intros; destruct (repeats t); msimpl; exact Hb).
  assert (Hb'' : isConnectingRef
                   (execState (if repeats t then ret tt else set_timers (cancel id (timers s))) s)
                 = true)
    by (destruct (repeats t); msimpl; exact Hb).
  destruct (callback t); cbn [callsConnect] in Hc; try discriminate; cbn [runCallback].
  1-3: rewrite connect_busy by exact Hb''; destruct (repeats t); msimpl; reflexivity.
  mrun. rewrite connect_busy by apply Hb'.
  destruct (repeats t); unfold pollingActive; msimpl; reflexivity.
Qed.

(** A polling interval that is pending after [connect()] has created its
    socket was pending before, and is not the one whose handle was
    held. *)
Lemma connect_spares_only_orphans (s : State) (i : nat) (t : Timer) :
  isConnectingRef s = false ->
  find i (timers (execState (connect false) s)) = Some t ->
  callback t = FetchPriceDataCb ->
  find i (timers s) = Some t /\ fallbackIntervalRef s <> Some i.
Proof.
  intros Hc. destruct (connect_creates_socket s Hc) as (_ & Ht & _).
  cbv zeta in Ht. rewrite Ht, find_app. clear Ht.
  destruct (find i (cancelOpt (fallbackIntervalRef s) (timers s))) as [u|] eqn:E.
  - intros Hu Hcb. injection Hu as ->. revert E. unfold cancelOpt.
    destruct (fallbackIntervalRef s) as [j|]; [|intros E; split; [exact E|discriminate]].
    rewrite find_cancel. destruct (Nat.eqb_spec j i) as [->|Hji]; [discriminate|].
    intros E. split; [exact E|congruence].
  - cbn [find]. destruct (Nat.eqb (nextTimer s) i); [|discriminate].
    intros Hu Hcb. injection Hu as <-. discriminate Hcb.
Qed.

(** C1, amended.  Running the effect starts polling: the interval is
    armed and its handle held.  A [connect()] that passes the in-flight
    guard and creates its socket cancels the interval whose handle is
    held and clears the handle at once, whether or not any streaming
    message has arrived; a polling interval that is still pending then
    was pending before and was not the one held.  A task that finds a
    polling handle held and leaves none held is the cleanup, a task that
    runs [connect()] while no connect is in flight, or a ticker message
    for the subscribed instrument. *)
Theorem polling_deactivation (productId : string) (s : State) (e : Event) :
  (let s' := step productId s EffectRuns in
   fallbackIntervalRef s' = Some (nextTimer s)
   /\ timers s'
      = timers s
        ++ [(nextTimer s, mkTimer FetchPriceDataCb 5000%Q true)]
        ++ [(S (nextTimer s), mkTimer WsTimeoutCb 1000%Q false)])
  /\ (isConnectingRef s = false ->
      let s' := execState (connect false) s in
      fallbackIntervalRef s' = None
      /\ timers s'
         = cancelOpt (fallbackIntervalRef s) (timers s)
           ++ [(nextTimer s, mkTimer (ConnectionTimeoutCb (nextSocket s)) 15000%Q false)]
      /\ forall i t,
           find i (timers s') = Some t -> callback t = FetchPriceDataCb ->
           find i (timers s) = Some t /\ fallbackIntervalRef s <> Some i)
  /\ (fallbackIntervalRef s <> None -> fallbackIntervalRef (step productId s e) = None ->
        e = CleanupRuns
        \/ (runsConnect s e = true /\ isConnectingRef s = false)
        \/ (exists ws data,
              e = SocketMessage ws (Some data) /\ isTickerFor productId data = true)).
Proof.
  split; [|split].
  - destruct (effect_starts_polling productId s) as (Hf & Ht & _).
    cbv zeta. split; [exact Hf | exact Ht].
  - intros Hc. destruct (connect_creates_socket s Hc) as (Hf & Ht & _).
    cbv zeta. split; [exact Hf|]. split; [exact Ht|].
    intros i t. apply connect_spares_only_orphans, Hc.
  - intros Hp' Hq'.
    assert (Hp : pollingActive s = true)
      by (unfold pollingActive; destruct (fallbackIntervalRef s); congruence).
    assert (Hq : pollingActive (step productId s e) = false)
      by (unfold pollingActive; rewrite Hq'; reflexivity).
    clear Hp' Hq'.
    unfold step in Hq. destruct e; cbn [dispatch] in Hq.
    + exfalso. apply (polling_kept _ _ effect_polling Hp Hq).
    + left. reflexivity.
    + right; left. split; [reflexivity|].
      destruct (isConnectingRef s) eqn:Hb; [exfalso|reflexivity].
      revert Hq. unfold reconnect, pollingActive. mrun.
      rewrite connect_busy by (destruct (reconnectTimeoutRef s); msimpl; exact Hb).
      unfold pollingActive in Hp. destruct (reconnectTimeoutRef s); msimpl;
        destruct (fallbackIntervalRef s); congruence.
    + revert Hq. mrun. unfold runsConnect.
      destruct (find id (timers s)) as [t|] eqn:Ht; [|mrun; congruence].
      mrun. intros Hq.
      destruct (callsConnect (callback t)) eqn:Hcb.
      * right; left. split; [reflexivity|].
        destruct (isConnectingRef s) eqn:Hb; [exfalso|reflexivity].
        rewrite (busy_timer_polling id t throws s Hcb Hb) in Hq. congruence.
      * exfalso. revert Hq.
        assert (Hp' : polling
                        (execState
                           (if repeats t then ret tt else set_timers (cancel id (timers s))) s))
          by (destruct (repeats t); unfold polling, pollingActive in *; msimpl; exact Hp).
        intros Hq. refine (polling_kept _ _ _ Hp' Hq).
        destruct (callback t); cbn [callsConnect] in Hcb; try discriminate;
          cbn [runCallback]; pres_poll.
    + exfalso. refine (polling_kept _ _ _ Hp Hq). pres_poll.
    + exfalso. refine (polling_kept _ _ _ Hp Hq). pres_poll.
    + destruct data as [d|].
      * destruct (isTickerFor productId d) eqn:Hd.
        -- right; right. exists ws, d. split; reflexivity || exact Hd.
        -- exfalso. refine (polling_kept _ _ _ Hp Hq).
           pose proof (onmessage_polling productId ws (Some d) Hd). pres_poll.
      * exfalso. refine (polling_kept _ _ _ Hp Hq).
        pose proof (onmessage_polling productId ws None I). pres_poll.
    + exfalso. refine (polling_kept _ _ _ Hp Hq). pres_poll.
    + exfalso. refine (polling_kept _ _ _ Hp Hq). pres_poll.
Qed.

Lemma polling_deactivation_witness :
  let s := run "BTC-USD" initial [EffectRuns] in
  let e := TimerFires 2 false in
  isConnectingRef s = false
  /\ fallbackIntervalRef (execState (connect false) s) = None
  /\ timers (execState (connect false) s)
     = [(2%nat, mkTimer WsTimeoutCb 1000%Q false);
        (3%nat, mkTimer (ConnectionTimeoutCb 1) 15000%Q false)]
  /\ fallbackIntervalRef s <> None
  /\ fallbackIntervalRef (step "BTC-USD" s e) = None
  /\ (e = CleanupRuns
      \/ (runsConnect s e = true /\ isConnectingRef s = false)
      \/ (exists ws data,
            e = SocketMessage ws (Some data) /\ isTickerFor "BTC-USD" data = true)).
Proof.
  cbv zeta.
  destruct (polling_deactivation "BTC-USD" (run "BTC-USD" initial [EffectRuns])
              (TimerFires 2 false))
    as (_ & Hconnect & Honly).
  split; [reflexivity|].
  destruct (Hconnect eq_refl) as (Hoff & Htimers & _).
  split; [exact Hoff|].
  split; [exact Htimers|].
  split; [discriminate|].
  split; [reflexivity|].
  apply Honly; [discriminate | reflexivity].
Defined.

(** *** Handles and pending timers *)

Ltac wf_norm :=
  repeat first
    [ rewrite find_app in *
    | rewrite find_cancel in *
    | rewrite find_replace_any in *
    | progress cbn [find] in * ].

Ltac wf_case :=
  repeat match goal with
  | H : Some _ = Some _ |- _ => injection H as H; subst
  | H : None = Some _ |- _ => discriminate H
  | H : Some _ = None |- _ => discriminate H
  | H : context [Nat.eqb ?a ?b] |- _ => destruct (Nat.eqb_spec a b); subst
  | |- context [Nat.eqb ?a ?b] => destruct (Nat.eqb_spec a b); subst
  | H : context [match find ?i ?l with _ => _ end] |- _ => destruct (find i l) eqn:?
  | |- context [match find ?i ?l with _ => _ end] => destruct (find i l) eqn:?
  end.

Ltac learn H :=
  let T := type of H in
  lazymatch goal with
  | _ : T |- _ => fail
  | _ => pose proof H
  end.

(** What the invariant says of the entries found so far. *)
Ltac wf_sat1 :=
  repeat match goal with
  | H : forall i t, find i ?l = Some t -> _, E : find ?j ?l = Some ?u |- _ =>
      learn (H j u E)
  end.

Ltac wf_sat2 :=
  repeat match goal with
  | H : _ /\ _ |- _ => destruct H
  | H : forall i, Some ?n = Some i -> _ |- _ => specialize (H n eq_refl)
  | H : forall i, None = Some i -> _ |- _ => clear H
  | H : forall i, ?r = Some i -> _, E : ?r = Some ?j |- _ => specialize (H j E)
  end.

Ltac wf_sat3 :=
  repeat match goal with
  | H : forall t, find ?i ?l = Some t -> _, E : find ?i ?l = Some ?u |- _ =>
      learn (H u E)
  end.

Ltac wf_cbn := cbn [readyState connectionTimeout sent callback delay repeats] in *.

Ltac wf_solve :=
  repeat split; intros;
  repeat match goal with
  | k : Socket |- _ => destruct k
  end;
  wf_cbn; wf_norm; wf_case; subst; wf_cbn;
  wf_sat1; wf_cbn; wf_sat2; wf_cbn; wf_sat3; wf_cbn;
  solve [lia | congruence | assumption | reflexivity].

(** Opens the state and the invariant, runs the handler on every branch
    and checks the invariant at each end. *)
Ltac wf_handler s :=
  unfold wellFormed, handleIs; open_state s;
  intros (H1 & H2 & H3 & H4 & H5);
  cases_open;
  try (cbn [negb ReadyState_eqb] in *; discriminate);
  wf_solve.

Lemma initial_wellFormed : wellFormed initial.
Proof.
  unfold wellFormed, handleIs, initial. cbn. repeat split; intros; discriminate.
Qed.

(** [connect()] in three parts: what it does before it creates the
    socket, the creation, and the [catch] block. *)
Lemma connect_parts (throws : bool) (s : State) :
  execState (connect throws) s
  = if isConnectingRef s then s
    else
      execState
        (if throws then
           set_isConnectingRef false ;;
           setError (Some (Text "Failed to connect to price feed")) ;;
           n <- gets (fun s : State => reconnectAttemptsRef s) ;;
           if 2 <=? n then startFallback
           else setTimeout CreationRetryCb 5000%Q ;; ret tt
         else
           ws <- newWebSocket ;;
           set_wsRef (Some ws) ;;
           t <- setTimeout (ConnectionTimeoutCb ws) 15000%Q ;;
           updateSocket ws (fun k => mkSocket (readyState k) (Some t) (sent k)))
        (execState
           (set_isConnectingRef true ;;
            setError None ;;
            stopFallback ;;
            set_fallbackStoppedRef false ;;
            closeTracked)
           s).
Proof.
  unfold connect. mrun. destruct (isConnectingRef s); [reflexivity|].
  mrun. destruct throws; mrun; reflexivity.
Qed.

Lemma connect_wellFormed (throws : bool) (s : State) :
  wellFormed s -> wellFormed (execState (connect throws) s).
Proof.
  intros H. rewrite connect_parts. destruct (isConnectingRef s); [exact H|].
  assert (H' : wellFormed
                 (execState
                    (set_isConnectingRef true ;;
                     setError None ;;
                     stopFallback ;;
                     set_fallbackStoppedRef false ;;
                     closeTracked)
                    s))
    by (revert H; wf_handler s).
  revert H'. generalize (execState
                    (set_isConnectingRef true ;;
                     setError None ;;
                     stopFallback ;;
                     set_fallbackStoppedRef false ;;
                     closeTracked)
                    s).
  clear s H. intros s. destruct throws; wf_handler s.
Qed.

Lemma effect_wellFormed (s : State) :
  wellFormed s -> wellFormed (execState effect s).
Proof. unfold effect. wf_handler s. Qed.

Lemma cleanup_wellFormed (s : State) :
  wellFormed s -> wellFormed (execState cleanup s).
Proof. unfold cleanup. wf_handler s. Qed.

Lemma reconnect_wellFormed (throws : bool) (s : State) :
  wellFormed s -> wellFormed (execState (reconnect throws) s).
Proof.
  intros H. unfold reconnect. mrun. apply connect_wellFormed.
  revert H. wf_handler s.
Qed.

Lemma onConnectionTimeout_wellFormed (ws : nat) (s : State) :
  wellFormed s -> wellFormed (execState (onConnectionTimeout ws) s).
Proof. unfold onConnectionTimeout. wf_handler s. Qed.

Lemma onopen_wellFormed (productId : string) (ws : nat) (sendThrows : bool) (s : State) :
  wellFormed s -> wellFormed (execState (onopen productId ws sendThrows) s).
Proof. unfold onopen. wf_handler s. Qed.

Lemma onmessage_wellFormed (productId : string) (ws : nat) (data : option value) (s : State) :
  wellFormed s -> wellFormed (execState (onmessage productId ws data) s).
Proof. unfold onmessage. wf_handler s. Qed.

Lemma onerror_wellFormed (ws : nat) (s : State) :
  wellFormed s -> wellFormed (execState (onerror ws) s).
Proof. unfold onerror. wf_handler s. Qed.

Lemma onclose_wellFormed (ws : nat) (code : Z) (random : Q) (s : State) :
  wellFormed s -> wellFormed (execState (onclose ws code random) s).
Proof. unfold onclose. wf_handler s. Qed.

Lemma fetchPriceData_wellFormed (s : State) :
  wellFormed s -> wellFormed (execState fetchPriceData s).
Proof. wf_handler s. Qed.

Lemma fetchPriceData_settled_wellFormed
    (productId : string) (outcome : FetchOutcome) (now : float) (s : State) :
  wellFormed s -> wellFormed (execState (fetchPriceData_settled productId outcome now) s).
Proof. unfold fetchPriceData_settled. wf_handler s. Qed.

Lemma setReadyState_wellFormed (ws : nat) (r : ReadyState) (s : State) :
  wellFormed s -> wellFormed (execState (setReadyState ws r) s).
Proof. wf_handler s. Qed.

Lemma runCallback_wellFormed (cb : Callback) (throws : bool) (s : State) :
  wellFormed s -> wellFormed (execState (runCallback cb throws) s).
Proof.
  intros H. destruct cb; cbn [runCallback];
    auto using connect_wellFormed, onConnectionTimeout_wellFormed,
               fetchPriceData_wellFormed.
  mrun. apply connect_wellFormed. revert H. wf_handler s.
Qed.

(** A timer that fires leaves the table unless it is an interval. *)
Lemma fired_wellFormed (id : nat) (t : Timer) (s : State) :
  find id (timers s) = Some t ->
  wellFormed s ->
  wellFormed (execState (if repeats t then ret tt else set_timers (cancel id (timers s))) s).
Proof.
  intros Ht. destruct t as [cb d [|]]; cbn [repeats]; [intros H; exact H|].
  revert Ht. unfold wellFormed, handleIs. open_state s.
  intros Ht (H1 & H2 & H3 & H4 & H5). compute_state. wf_solve.
Qed.

Lemma step_wellFormed (productId : string) (s : State) (e : Event) :
  wellFormed s -> wellFormed (step productId s e).
Proof.
  intros H. unfold step. destruct e; cbn [dispatch].
  - apply effect_wellFormed, H.
  - apply cleanup_wellFormed, H.
  - apply reconnect_wellFormed, H.
  - mrun. destruct (find id (timers s)) as [t|] eqn:Ht; [|exact H].
    mrun. apply runCallback_wellFormed, fired_wellFormed; assumption.
  - mrun. destruct (fetchesInFlight s) as [|n] eqn:Hn; [exact H|].
    mrun. apply fetchPriceData_settled_wellFormed.
    revert H. clear Hn. wf_handler s.
  - unfold socket. mrun.
    destruct (find ws (sockets s)) as [[[] [t|] sn]|]; try exact H.
    mrun. apply onopen_wellFormed, setReadyState_wellFormed, H.
  - unfold socket. mrun.
    destruct (find ws (sockets s)) as [[[] c sn]|]; try exact H.
    apply onmessage_wellFormed, H.
  - unfold socket. mrun.
    destruct (find ws (sockets s)) as [[[] c sn]|]; try exact H.
    all: apply onerror_wellFormed, H.
  - unfold socket. mrun.
    destruct (find ws (sockets s)) as [[[] c sn]|]; try exact H.
    all: mrun; apply onclose_wellFormed, setReadyState_wellFormed, H.
Qed.

(** Along every run from the first render the handles the hook keeps
    are sound. *)
Lemma run_wellFormed (productId : string) (es : list Event) (s : State) :
  wellFormed s -> wellFormed (run productId s es).
Proof.
  revert s. induction es as [|e es IH]; intros s H; cbn [run fold_left]; [exact H|].
  apply IH, step_wellFormed, H.
Qed.

(** Whenever the hook holds a polling handle, the interval it names is
    pending: polling, in the sense of [pollingActive], is really on. *)
Lemma polling_handle_is_pending (productId : string) (es : list Event) (i : nat) :
  fallbackIntervalRef (run productId initial es) = Some i ->
  find i (timers (run productId initial es)) = Some (mkTimer FetchPriceDataCb 5000%Q true).
Proof.
  intros H.
  destruct (run_wellFormed productId es initial initial_wellFormed) as (_ & H2 & _).
  apply H2, H.
Qed.

(** *** The model at work *)

Example parseFloat_price : parseFloat "50000.00" = 50000%float.
Proof. vm_compute. reflexivity. Qed.

Example parseFloat_prefix : parseFloat "  -1.5e3xyz" = (-1500)%float.
Proof. vm_compute. reflexivity. Qed.

Example parseFloat_rounds_to_nearest : parseFloat "0.1" = 0x1.999999999999ap-4%float.
Proof. vm_compute. reflexivity. Qed.

Example parseFloat_ties_to_even : parseFloat "9007199254740993" = 9007199254740992%float.
Proof. vm_compute. reflexivity. Qed.

Example parseFloat_subnormal : parseFloat "5e-324" = 0x1p-1074%float.
Proof. vm_compute. reflexivity. Qed.

Example parseFloat_overflow : parseFloat "1e400" = infinity.
Proof. vm_compute. reflexivity. Qed.

Example parseFloat_skips_white_space :
  parseFloat (String (ascii_of_nat 194) (String (ascii_of_nat 160) " 7.5")) = 7.5%float
  /\ parseFloat (String (ascii_of_nat 226) (String (ascii_of_nat 128)
                   (String (ascii_of_nat 175) "7.5"))) = 7.5%float
  /\ is_nan (parseFloat (String (ascii_of_nat 226) (String (ascii_of_nat 128)
                           (String (ascii_of_nat 148) "7.5")))) = true.
Proof. vm_compute. repeat split. Qed.

(** [parseFloat] of a value: an object with an own "toString" makes it
    throw, also inside an array; any other object reads as NaN. *)
Example parseFloat_of_values :
  parseFloatV (VObj [("toString", VNum 1)]) = None
  /\ parseFloatV (VArr [VStr "5"; VObj [("toString", VNull)]]) = None
  /\ option_map is_nan (parseFloatV (VObj [("price", VStr "5")])) = Some true
  /\ parseFloatV (VArr [VStr "5"; VNull]) = Some 5%float
  /\ parseFloatV (VNum 7.5) = Some 7.5%float.
Proof. vm_compute. repeat split. Qed.

Example parseFloat_no_number :
  is_nan (parseFloat "oops") = true /\ is_nan (parseFloat "") = true
  /\ is_nan (parseFloat ".") = true /\ is_nan (parseFloat "e5") = true.
Proof. vm_compute. repeat split. Qed.

Example getErrorMessage_other : getErrorMessage 4000 = "Connection error (4000)"%string.
Proof. reflexivity. Qed.

(** Scenario A: the effect issues a fetch in the same task; a response
    with price "50000.00" makes 50000 the visible price. *)
Example scenario_A :
  let outcome :=
    Some (mkResponse 200 (Some (VObj [("price", VStr "50000.00")])),
          mkResponse 200 (Some (VObj [("high", VStr "51000")]))) in
  let s := run "BTC-USD" initial [EffectRuns] in
  let s' := step "BTC-USD" s (FetchSettles outcome 0%float) in
  fetchesInFlight s = 1%nat
  /\ price s' = Some 50000%float
  /\ isConnected s' = true.
Proof. vm_compute. repeat split. Qed.

(** Scenario B: the socket opens and delivers a ticker. *)
Example scenario_B :
  let ticker :=
    VObj [("type", VStr "ticker"); ("product_id", VStr "BTC-USD");
          ("price", VStr "51000.00")] in
  let s := run "BTC-USD" initial
             [EffectRuns; TimerFires 2 false; SocketOpens 1 false;
              SocketMessage 1 (Some ticker)] in
  price s = Some 51000%float
  /\ tickerData s = Some ticker
  /\ isConnected s = true
  /\ pollingActive s = false
  /\ timers s = []
  /\ reconnectAttemptsRef s = 0.
Proof. vm_compute. repeat split. Qed.

(** The first [connect()] has already stopped polling: before the socket
    opens the watchdog is the only pending timer. *)
Example connect_cancels_polling_interval :
  let s := run "BTC-USD" initial [EffectRuns; TimerFires 2 false] in
  timers s = [(3%nat, mkTimer (ConnectionTimeoutCb 1) 15000%Q false)]
  /\ fallbackIntervalRef s = None
  /\ price s = None.
Proof. vm_compute. repeat split. Qed.

(** Scenario D: the second abnormal close. *)
Example scenario_D :
  let s := run "BTC-USD" initial
             [EffectRuns; TimerFires 2 false; SocketOpens 1 false;
              SocketCloses 1 1006 (1 # 2); TimerFires 4 false;
              SocketCloses 2 1006 (1 # 2)] in
  error s = Some (Text "Abnormal closure - using REST API fallback")
  /\ reconnectAttemptsRef s = 2
  /\ timers s = [(6%nat, mkTimer FetchPriceDataCb 5000%Q true)]
  /\ atRest s = true.
Proof. vm_compute. repeat split. Qed.

(** Scenario E: reconnect() during the backoff. *)
Example scenario_E :
  let s := run "BTC-USD" initial
             [EffectRuns; TimerFires 2 false; SocketOpens 1 false;
              SocketCloses 1 1006 (1 # 2)] in
  let s' := step "BTC-USD" s (ReconnectCalled false) in
  reconnectTimeoutRef s = Some 4%nat
  /\ find 4 (timers s) <> None
  /\ find 4 (timers s') = None
  /\ reconnectAttemptsRef s' = 0
  /\ wsRef s' = Some 2%nat
  /\ timers s' = [(5%nat, mkTimer (ConnectionTimeoutCb 2) 15000%Q false)].
Proof. vm_compute. repeat split. discriminate. Qed.

(** Two tickers in a row: the second one finds polling already stopped. *)
Example two_tickers :
  let ticker p :=
    Some (VObj [("type", VStr "ticker"); ("product_id", VStr "BTC-USD"); ("price", VStr p)]) in
  let s := run "BTC-USD" initial
             [EffectRuns; TimerFires 2 false; SocketOpens 1 false;
              SocketMessage 1 (ticker "51000.00")] in
  let s' := step "BTC-USD" s (SocketMessage 1 (ticker "51001.50")) in
  fallbackStoppedRef s = true
  /\ price s' = Some 51001.5%float
  /\ refs s' = refs s
  /\ runtime s' = runtime s.
Proof. vm_compute. repeat split. Qed.

(** After the counter has reached 2 on the run of C4, the pending
    backoff retry connects (socket 3) and, when that socket hangs, its
    watchdog (timer 8) schedules one more retry (timer 9). *)
Example retries_after_giving_up :
  let s := run "BTC-USD" initial
             [EffectRuns; TimerFires 2 false; TimerFires 3 false;
              SocketCloses 1 1006 (1 # 2); TimerFires 4 false;
              SocketCloses 2 1006 (1 # 2)] in
  let s' := run "BTC-USD" s [TimerFires 5 false; TimerFires 8 false] in
  reconnectAttemptsRef s = 2
  /\ find 5 (timers s) = Some (mkTimer ReconnectCb 21000 false)
  /\ nextSocket s = 3%nat
  /\ nextSocket s' = 4%nat
  /\ timers s' = [(9%nat, mkTimer TimeoutRetryCb 3000%Q false)].
Proof. vm_compute. repeat split. Qed.

(** ** Further properties of the manager *)

(** *** What a fetch can do *)

(** The two ways in which [fetchPriceData] can end. *)
Lemma fetchPriceData_settled_cases
    (productId : string) (outcome : FetchOutcome) (now : float) (s : State) :
  let s' := execState (fetchPriceData_settled productId outcome now) s in
  refs s' = refs s /\ runtime s' = runtime s
  /\ ((exists p q, price s' = Some p /\ is_nan p = false /\ is_zero p = false
          /\ tickerData s' = Some q
          /\ prop q "product_id" = VStr productId
          /\ parseFloatV (prop q "price") = Some p
          /\ isConnected s' = true /\ error s' = None)
      \/ (price s' = price s /\ tickerData s' = tickerData s
          /\ isConnected s' = isConnected s
          /\ error s' = Some (Text
               match outcome with
               | Some (tickerResponse, _) =>
                   if status tickerResponse =? 429
                   then "Rate limited - reducing update frequency"
                   else "Unable to fetch price data"
               | None => "Unable to fetch price data"
               end))).
Proof.
  cbv zeta. unfold fetchPriceData_settled. open_state s.
  destruct outcome as [[t st]|]; [|compute_state; auto 10].
  destruct (status t =? 429); [compute_state; auto 10|].
  destruct (ok t); cbn [negb]; [|compute_state; auto 10].
  destruct (json t) as [body|]; [|compute_state; auto 10].
  destruct (if ok st then json st else Some VNull) as [stats|]; [|compute_state; auto 10].
  destruct (nullish body); [compute_state; auto 10|].
  destruct (parseFloatV (prop body "price")) as [currentPrice|] eqn:P;
    [|compute_state; auto 10].
  destruct (truthyNum currentPrice && negb (is_nan currentPrice)) eqn:E;
    [|compute_state; auto 10].
  compute_state. repeat split. left.
  unfold truthyNum in E. apply andb_true_iff in E. destruct E as [E1 E2].
  apply andb_true_iff in E1. destruct E1 as [Ez _].
  apply negb_true_iff in Ez, E2.
  eexists. eexists. repeat split; try eassumption.
Qed.

(** X1. When a polling fetch in flight settles, however its two requests
    end, the refs, the timers and the sockets are left alone, and the
    view changes in one of two ways.  Either a quote is emitted: the
    price is a number that is neither NaN nor zero, the quote names the
    subscribed instrument and carries that price, the connected flag is
    set and the error is cleared.  Or price, quote and connected flag
    stay as they were and an error text is set: the rate-limit text when
    the quote response has status 429 (the polling interval keeps its
    period all the same), the generic text otherwise. *)
Theorem fetch_settles_as_quote_or_error
    (productId : string) (outcome : FetchOutcome) (now : float) (s : State) (n : nat) :
  fetchesInFlight s = S n ->
  let s' := step productId s (FetchSettles outcome now) in
  refs s' = refs s /\ timers s' = timers s /\ sockets s' = sockets s
  /\ fetchesInFlight s' = n
  /\ ((exists p q, price s' = Some p /\ is_nan p = false /\ is_zero p = false
          /\ tickerData s' = Some q
          /\ prop q "product_id" = VStr productId
          /\ parseFloatV (prop q "price") = Some p
          /\ isConnected s' = true /\ error s' = None)
      \/ (price s' = price s /\ tickerData s' = tickerData s
          /\ isConnected s' = isConnected s
          /\ error s' = Some (Text
               match outcome with
               | Some (tickerResponse, _) =>
                   if status tickerResponse =? 429
                   then "Rate limited - reducing update frequency"
                   else "Unable to fetch price data"
               | None => "Unable to fetch price data"
               end))).
Proof.
  cbv zeta. intros Hn. unfold step. cbn [dispatch]. mrun. rewrite Hn. mrun.
  pose proof (fetchPriceData_settled_cases productId outcome now
                (execState (set_fetchesInFlight n) s)) as H.
  cbv zeta in H. destruct H as (Hr & Hu & H).
  assert (E : refs (execState (set_fetchesInFlight n) s) = refs s
              /\ timers (execState (set_fetchesInFlight n) s) = timers s
              /\ sockets (execState (set_fetchesInFlight n) s) = sockets s
              /\ fetchesInFlight (execState (set_fetchesInFlight n) s) = n
              /\ view (execState (set_fetchesInFlight n) s) = view s).
  { clear. open_state s. compute_state. repeat split. }
  destruct E as (E1 & E2 & E3 & E4 & E5).
  rewrite Hr, Hu, E1, E2, E3, E4.
  repeat (split; [reflexivity|]).
  destruct H as [H|H]; [left; exact H|right].
  rewrite E5 in H. exact H.
Qed.

Lemma fetch_settles_as_quote_or_error_witness :
  let s := run "BTC-USD" initial [EffectRuns] in
  let s' := step "BTC-USD" s (FetchSettles None 0%float) in
  fetchesInFlight s = 1%nat
  /\ refs s' = refs s /\ timers s' = timers s /\ sockets s' = sockets s
  /\ fetchesInFlight s' = 0%nat
  /\ ((exists p q, price s' = Some p /\ is_nan p = false /\ is_zero p = false
          /\ tickerData s' = Some q
          /\ prop q "product_id" = VStr "BTC-USD"
          /\ parseFloatV (prop q "price") = Some p
          /\ isConnected s' = true /\ error s' = None)
      \/ (price s' = price s /\ tickerData s' = tickerData s
          /\ isConnected s' = isConnected s
          /\ error s' = Some (Text "Unable to fetch price data"))).
Proof.
  cbv zeta. split; [vm_compute; reflexivity|].
  apply (fetch_settles_as_quote_or_error "BTC-USD" None 0%float
           (run "BTC-USD" initial [EffectRuns]) 0).
  vm_compute; reflexivity.
Defined.

(** *** Price and quote *)

Ltac pres_quote := pres_with ltac:(intros; unfold quoteIs in *; proj; assumption).

Lemma keeps_quote {B : Type} (m : M B) (s : State) :
  (forall p q, preserves (quoteIs p q) m) ->
  price (execState m s) = price s /\ tickerData (execState m s) = tickerData s.
Proof. intros H. apply (H (price s) (tickerData s) s). split; reflexivity. Qed.

Section QuoteFrame.
Variables (p : option float) (q : option value).

Lemma stopFallback_quote : preserves (quoteIs p q) stopFallback.
Proof. unfold stopFallback. pres_quote. Qed.

Lemma startFallback_quote : preserves (quoteIs p q) startFallback.
Proof. unfold startFallback. pres_quote. Qed.

Lemma closeTracked_quote : preserves (quoteIs p q) closeTracked.
Proof. unfold closeTracked. pres_quote. Qed.

#[local] Hint Resolve stopFallback_quote startFallback_quote closeTracked_quote : frame.

Lemma connect_quote (throws : bool) : preserves (quoteIs p q) (connect throws).
Proof. unfold connect. pres_quote. Qed.

Lemma cleanup_quote : preserves (quoteIs p q) cleanup.
Proof. unfold cleanup. pres_quote. Qed.

Lemma onopen_quote (productId : string) (ws : nat) (sendThrows : bool) :
  preserves (quoteIs p q) (onopen productId ws sendThrows).
Proof. unfold onopen. pres_quote. Qed.

Lemma onerror_quote (ws : nat) : preserves (quoteIs p q) (onerror ws).
Proof. unfold onerror. pres_quote. Qed.

Lemma onclose_quote (ws : nat) (code : Z) (random : Q) :
  preserves (quoteIs p q) (onclose ws code random).
Proof. unfold onclose. pres_quote. Qed.

Lemma onConnectionTimeout_quote (ws : nat) : preserves (quoteIs p q) (onConnectionTimeout ws).
Proof. unfold onConnectionTimeout. pres_quote. Qed.

#[local] Hint Resolve connect_quote onConnectionTimeout_quote : frame.

Lemma reconnect_quote (throws : bool) : preserves (quoteIs p q) (reconnect throws).
Proof. unfold reconnect. pres_quote. Qed.

Lemma runCallback_quote (cb : Callback) (throws : bool) :
  preserves (quoteIs p q) (runCallback cb throws).
Proof. unfold runCallback. pres_quote. Qed.

End QuoteFrame.

(** One task leaves price and quote as they are, clears both, or sets
    both from one source: a ticker frame for the subscribed instrument or
    a fetch, whose price is then not NaN. *)
Lemma step_quote (productId : string) (s : State) (e : Event) :
  let s' := step productId s e in
  (price s' = price s /\ tickerData s' = tickerData s)
  \/ (price s' = None /\ tickerData s' = None)
  \/ (exists ws d p, e = SocketMessage ws (Some d) /\ isTickerFor productId d = true
        /\ quotedPrice d = Some p /\ price s' = Some p /\ tickerData s' = Some d)
  \/ (exists outcome now q p, e = FetchSettles outcome now
        /\ quotedPrice q = Some p /\ price s' = Some p /\ tickerData s' = Some q
        /\ is_nan p = false).
Proof.
  cbv zeta. unfold step. destruct e; cbn [dispatch].
  - right; left. unfold effect. open_state s. compute_state. split; reflexivity.
  - left. apply keeps_quote. intros; apply cleanup_quote.
  - left. apply keeps_quote. intros; apply reconnect_quote.
  - left. apply keeps_quote. intros p q. pose proof (runCallback_quote p q).
    pres_quote.
  - mrun. destruct (fetchesInFlight s) as [|n]; [left; split; reflexivity|].
    mrun.
    pose proof (fetchPriceData_settled_cases productId outcome now
                  (execState (set_fetchesInFlight n) s)) as H.
    cbv zeta in H. destruct H as (_ & _ & [H|H]).
    + right; right; right. destruct H as (p & q & Hp & Hn & _ & Hq & _ & Hpq & _).
      exists outcome, now, q, p. unfold quotedPrice. auto.
    + left. destruct H as (Hp & Hq & _). rewrite Hp, Hq.
      open_state s. compute_state. split; reflexivity.
  - left. apply keeps_quote. intros p q.
    pose proof (onopen_quote p q productId).
    pres_quote.
  - unfold socket. mrun.
    destruct (find ws (sockets s)) as [[[] ? ?]|]; try (left; split; reflexivity).
    destruct data as [d|]; [|left; split; reflexivity].
    destruct (isTickerFor productId d) eqn:Ht.
    + unfold onmessage. pose proof Ht as Ht'. unfold isTickerFor in Ht'.
      destruct (nullish d); [discriminate|]. cbn [negb andb] in Ht'. rewrite Ht'.
      destruct (parseFloatV (prop d "price")) as [x|] eqn:P; [|left; split; reflexivity].
      right; right; left. exists ws, d, x.
      split; [reflexivity|]. split; [exact Ht|]. split; [exact P|].
      open_state s. cases_open; split; reflexivity.
    + left. unfold onmessage, isTickerFor in *.
      destruct (nullish d); [split; reflexivity|]. cbn [negb andb] in Ht. rewrite Ht.
      open_state s. cases_open; split; reflexivity.
  - left. apply keeps_quote. intros p q.
    pose proof (onerror_quote p q).
    pres_quote.
  - left. apply keeps_quote. intros p q.
    pose proof (onclose_quote p q).
    pres_quote.
Qed.

(** Price and quote agree: both are null, or the price is what
    [parseFloat] reads in the quote. *)
Lemma step_agrees (productId : string) (s : State) (e : Event) :
  quoteAgrees s -> quoteAgrees (step productId s e).
Proof.
  unfold quoteAgrees. intros Hs.
  destruct (step_quote productId s e)
    as [[Hp Hq]|[[Hp Hq]|[(ws & d & p & _ & _ & Hd & Hp & Hq)
                         |(o & n & q & p & _ & Hd & Hp & Hq & _)]]];
    rewrite Hp, Hq; try reflexivity; try exact Hs.
  all: exists p; split; [exact Hd | reflexivity].
Qed.

(** X2. Along every run from the first render the visible price is the
    price that the visible quote carries: both are null, or the price is
    [parseFloat] of the quote's [price] field. *)
Theorem price_matches_quote (productId : string) (es : list Event) :
  let s := run productId initial es in
  match tickerData s with
  | Some q => exists p, parseFloatV (prop q "price") = Some p /\ price s = Some p
  | None => price s = None
  end.
Proof.
  cbv zeta.
  assert (H : forall s : State, quoteAgrees s -> quoteAgrees (run productId s es)).
  { induction es as [|e es IH]; intros s Hs; cbn [run fold_left]; [exact Hs|].
    apply IH, step_agrees, Hs. }
  apply (H initial). reflexivity.
Qed.

(** X3. A visible price that is NaN was put there by a ticker frame whose
    price does not parse, accepted by a handler as a ticker for its
    instrument: some such frame has been delivered on the run, also when
    the instrument changes along the run.  A fetch never shows NaN. *)
Theorem nan_price_comes_from_a_ticker_frame (es : list (string * Event)) (p : float) :
  price (runAcross initial es) = Some p ->
  is_nan p = true ->
  exists productId ws d,
    In (productId, SocketMessage ws (Some d)) es
    /\ isTickerFor productId d = true
    /\ option_map is_nan (parseFloatV (prop d "price")) = Some true.
Proof.
  assert (H : forall (s : State) (p : float),
             price (runAcross s es) = Some p -> is_nan p = true ->
             (price s = Some p)
             \/ exists productId ws d,
                  In (productId, SocketMessage ws (Some d)) es
                  /\ isTickerFor productId d = true
                  /\ option_map is_nan (parseFloatV (prop d "price")) = Some true).
  { induction es as [|[i e] es IH]; intros s x Hx Hn; cbn [runAcross fold_left fst snd] in Hx;
      [left; exact Hx|].
    destruct (IH _ _ Hx Hn) as [Hs|(i' & ws & d & Hin & Ht & Hd)].
    - destruct (step_quote i s e)
        as [[Hp Hq]|[[Hp Hq]|[(ws & d & y & He & Ht & Hd & Hp & Hq)
                             |(o & n & q & y & _ & _ & Hp & Hq & Hq')]]].
      + left. congruence.
      + congruence.
      + right. exists i, ws, d. split; [left; rewrite He; reflexivity|]. split; [exact Ht|].
        rewrite Hp in Hs. injection Hs as Hs. unfold quotedPrice in Hd.
        rewrite Hd. cbn [option_map]. congruence.
      + rewrite Hp in Hs. injection Hs as Hs. congruence.
    - right. exists i', ws, d. split; [right; exact Hin|]. split; assumption. }
  intros Hp Hn. destruct (H initial p Hp Hn) as [Hi|Hex]; [discriminate Hi | exact Hex].
Qed.

Lemma nan_price_comes_from_a_ticker_frame_witness :
  let frame := VObj [("type", VStr "ticker"); ("product_id", VStr "BTC-USD");
                     ("price", VStr "oops")] in
  let es := [("BTC-USD", EffectRuns); ("BTC-USD", TimerFires 2 false);
             ("BTC-USD", TimerFires 3 false); ("BTC-USD", CleanupRuns);
             ("ETH-USD", EffectRuns); ("BTC-USD", TimerFires 4 false);
             ("BTC-USD", SocketOpens 2 false);
             ("BTC-USD", SocketMessage 2 (Some frame))] in
  price (runAcross initial es) = Some nan
  /\ exists productId ws d,
       In (productId, SocketMessage ws (Some d)) es
       /\ isTickerFor productId d = true
       /\ option_map is_nan (parseFloatV (prop d "price")) = Some true.
Proof.
  cbv zeta. split; [vm_compute; reflexivity|].
  apply (nan_price_comes_from_a_ticker_frame
           [("BTC-USD", EffectRuns); ("BTC-USD", TimerFires 2 false);
            ("BTC-USD", TimerFires 3 false); ("BTC-USD", CleanupRuns);
            ("ETH-USD", EffectRuns); ("BTC-USD", TimerFires 4 false);
            ("BTC-USD", SocketOpens 2 false);
            ("BTC-USD", SocketMessage 2
               (Some (VObj [("type", VStr "ticker"); ("product_id", VStr "BTC-USD");
                            ("price", VStr "oops")])))]
           nan); vm_compute; reflexivity.
Defined.

(** *** The error text *)

Ltac pres_shown :=
  pres_with ltac:(intros; unfold shown, errorShown in *; proj;
                  first [assumption | reflexivity]).

Lemma stopFallback_shown : preserves shown stopFallback.
Proof. unfold stopFallback. pres_shown. Qed.

Lemma startFallback_shown : preserves shown startFallback.
Proof. unfold startFallback. pres_shown. Qed.

Lemma closeTracked_shown : preserves shown closeTracked.
Proof. unfold closeTracked. pres_shown. Qed.

#[local] Hint Resolve stopFallback_shown startFallback_shown closeTracked_shown : frame.

Lemma cleanup_shown : preserves shown cleanup.
Proof. unfold cleanup. pres_shown. Qed.

Lemma onopen_shown (productId : string) (ws : nat) (sendThrows : bool) :
  preserves shown (onopen productId ws sendThrows).
Proof. unfold onopen. pres_shown. Qed.

Lemma onmessage_shown (productId : string) (ws : nat) (data : option value) :
  preserves shown (onmessage productId ws data).
Proof. unfold onmessage. pres_shown. Qed.

Lemma onerror_shown (ws : nat) : preserves shown (onerror ws).
Proof. unfold onerror. pres_shown. Qed.

Lemma onclose_shown (ws : nat) (code : Z) (random : Q) :
  preserves shown (onclose ws code random).
Proof. unfold onclose. pres_shown. Qed.

Lemma onConnectionTimeout_shown (ws : nat) : preserves shown (onConnectionTimeout ws).
Proof. unfold onConnectionTimeout. pres_shown. Qed.

#[local] Hint Resolve cleanup_shown onopen_shown onmessage_shown onerror_shown
  onclose_shown onConnectionTimeout_shown : frame.

Lemma shown_kept {B : Type} (m : M B) (s : State) :
  preserves shown m ->
  errorShown s = true -> errorShown (execState m s) = false -> False.
Proof. intros Hm Hp Hq. apply Hm in Hp. unfold shown in Hp. congruence. Qed.

(** [connect()] whose [new WebSocket] throws ends with an error set. *)
Lemma connect_throws_shown (s : State) :
  errorShown s = true -> errorShown (execState (connect true) s) = true.
Proof.
  unfold errorShown, connect. open_state s. intros H.
  cases_open; first [reflexivity | assumption].
Qed.

Lemma connect_shown (throws : bool) (s : State) :
  errorShown s = true -> errorShown (execState (connect throws) s) = false ->
  isConnectingRef s = false /\ throws = false.
Proof.
  intros Hp Hq. split.
  - destruct (isConnectingRef s) eqn:Hb; [|reflexivity].
    rewrite connect_busy in Hq by exact Hb. congruence.
  - destruct throws; [|reflexivity].
    rewrite connect_throws_shown in Hq by exact Hp. discriminate.
Qed.

Lemma runCallback_shown (cb : Callback) (throws : bool) (s : State) :
  errorShown s = true -> errorShown (execState (runCallback cb throws) s) = false ->
  callsConnect cb = true /\ isConnectingRef s = false /\ throws = false.
Proof.
  intros Hp Hq. destruct cb; cbn [runCallback callsConnect] in *.
  1, 3, 4: split; [reflexivity | exact (connect_shown throws s Hp Hq)].
  - exfalso. refine (shown_kept _ _ _ Hp Hq). pres_shown.
  - split; [reflexivity|]. revert Hq. mrun. intros Hq.
    apply connect_shown in Hq; [exact Hq|].
    revert Hp. unfold errorShown. open_state s. compute_state. auto.
  - exfalso. refine (shown_kept _ _ _ Hp Hq). pres_shown.
Qed.

(** X4. An error text, once set, is cleared by three kinds of task only:
    a new run of the effect, a task that runs [connect()] while no
    connect is in flight and whose socket is created, and a fetch that
    emits a quote (which sets the connected flag as well).  No event of a
    socket clears it: not its opening, and no ticker frame however many
    arrive. *)
Theorem error_is_cleared_only_by
    (productId : string) (s : State) (e : Event) :
  errorShown s = true -> errorShown (step productId s e) = false ->
  e = EffectRuns
  \/ (runsConnect s e = true /\ isConnectingRef s = false /\ creationThrows e = false)
  \/ (exists outcome now,
        e = FetchSettles outcome now /\ isConnected (step productId s e) = true).
Proof.
  intros Hp Hq. unfold step in *. destruct e; cbn [dispatch runsConnect creationThrows] in *.
  - left. reflexivity.
  - exfalso. refine (shown_kept _ _ _ Hp Hq). pres_shown.
  - right; left. split; [reflexivity|].
    revert Hq. unfold reconnect. mrun. intros Hq.
    apply connect_shown in Hq.
    + revert Hq. open_state s. destruct reconnectTimeoutRef0; compute_state; auto.
    + revert Hp. unfold errorShown. open_state s.
      destruct reconnectTimeoutRef0; compute_state; auto.
  - right; left. revert Hq. mrun.
    destruct (find id (timers s)) as [t|] eqn:Ht; [|mrun; congruence].
    mrun. intros Hq. apply runCallback_shown in Hq.
    + revert Hq. open_state s. destruct (repeats t); compute_state; auto.
    + revert Hp. unfold errorShown. open_state s. destruct (repeats t); compute_state; auto.
  - right; right. exists outcome, now. split; [reflexivity|].
    revert Hq. mrun. destruct (fetchesInFlight s) as [|n]; [mrun; congruence|].
    mrun. intros Hq.
    pose proof (fetchPriceData_settled_cases productId outcome now
                  (execState (set_fetchesInFlight n) s)) as H.
    cbv zeta in H. destruct H as (_ & _ & [H|H]).
    + destruct H as (p & q & H). tauto.
    + exfalso. destruct H as (_ & _ & _ & He). unfold errorShown in Hq.
      rewrite He in Hq. discriminate.
  - exfalso. refine (shown_kept _ _ _ Hp Hq). pres_shown.
  - exfalso. refine (shown_kept _ _ _ Hp Hq). pres_shown.
  - exfalso. refine (shown_kept _ _ _ Hp Hq). pres_shown.
  - exfalso. refine (shown_kept _ _ _ Hp Hq). pres_shown.
Qed.

Lemma error_is_cleared_only_by_witness :
  let s := run "BTC-USD" initial
             [EffectRuns; TimerFires 2 false; TimerFires 3 false;
              SocketCloses 1 1006 (1 # 2)] in
  let e := TimerFires 4 false in
  error s = Some (Text "Abnormal closure. Reconnecting... (1/2)")
  /\ error (step "BTC-USD" s e) = None
  /\ (e = EffectRuns
      \/ (runsConnect s e = true /\ isConnectingRef s = false /\ creationThrows e = false)
      \/ (exists outcome now,
            e = FetchSettles outcome now /\ isConnected (step "BTC-USD" s e) = true)).
Proof.
  cbv zeta. split; [reflexivity|]. split; [reflexivity|].
  apply (error_is_cleared_only_by "BTC-USD"
           (run "BTC-USD" initial
              [EffectRuns; TimerFires 2 false; TimerFires 3 false;
               SocketCloses 1 1006 (1 # 2)])
           (TimerFires 4 false)); reflexivity.
Defined.

(** *** The connected flag *)

Ltac pres_conn := pres_with ltac:(intros; unfold connectedIs in *; proj; assumption).

Section ConnectedFrame.
Variable b : bool.

Lemma stopFallback_conn : preserves (connectedIs b) stopFallback.
Proof. unfold stopFallback. pres_conn. Qed.

Lemma startFallback_conn : preserves (connectedIs b) startFallback.
Proof. unfold startFallback. pres_conn. Qed.

Lemma closeTracked_conn : preserves (connectedIs b) closeTracked.
Proof. unfold closeTracked. pres_conn. Qed.

#[local] Hint Resolve stopFallback_conn startFallback_conn closeTracked_conn : frame.

Lemma connect_conn (throws : bool) : preserves (connectedIs b) (connect throws).
Proof. unfold connect. pres_conn. Qed.

#[local] Hint Resolve connect_conn : frame.

(** Every task but the opening of a socket, its close event and the
    settling of a fetch keeps the flag. *)
Lemma dispatch_conn (productId : string) (e : Event) :
  match e with
  | SocketOpens _ _ | FetchSettles _ _ | SocketCloses _ _ _ => False
  | _ => True
  end ->
  preserves (connectedIs b) (dispatch productId e).
Proof.
  destruct e; cbn [dispatch]; intros H; try contradiction;
    unfold effect, cleanup, reconnect, runCallback, onConnectionTimeout, onmessage,
      onerror; pres_conn.
Qed.

End ConnectedFrame.

(** A task that raises the connected flag is the opening of a socket or
    the settling of a fetch that emits a quote. *)
Lemma flag_raised (productId : string) (s : State) (e : Event) :
  isConnected s = false -> isConnected (step productId s e) = true ->
  (exists ws sendThrows, e = SocketOpens ws sendThrows)
  \/ (exists outcome now p,
        e = FetchSettles outcome now /\ price (step productId s e) = Some p).
Proof.
  intros H0 H1.
  assert (Hk : match e with
               | SocketOpens _ _ | FetchSettles _ _ | SocketCloses _ _ _ => False
               | _ => True
               end -> False).
  { intros He. pose proof (dispatch_conn false productId e He s H0) as H.
    unfold connectedIs in H. fold (step productId s e) in H. congruence. }
  destruct e; try (exfalso; apply Hk; exact I).
  - right. exists outcome, now.
    revert H1. unfold step. cbn [dispatch]. mrun.
    destruct (fetchesInFlight s) as [|n]; [mrun; congruence|]. mrun.
    pose proof (fetchPriceData_settled_cases productId outcome now
                  (execState (set_fetchesInFlight n) s)) as F.
    cbv zeta in F. destruct F as (_ & _ & [F|F]).
    + destruct F as (p & q & F & _). intros _. exists p. split; [reflexivity | exact F].
    + destruct F as (_ & _ & F & _). rewrite F. intros H. exfalso. revert H.
      open_state s. compute_state. congruence.
  - left. eauto.
  - exfalso. revert H1. unfold step. cbn [dispatch]. unfold socket. mrun.
    destruct (find ws (sockets s)) as [[[] c sn]|] eqn:Hk'; mrun; try congruence.
    all: unfold onclose; open_state s; cases_open; discriminate.
Qed.

Lemma split_last {A : Type} (l l1 l2 : list A) (x : A) :
  l ++ [x] = l1 ++ l2 ->
  (l2 = [] /\ l1 = l ++ [x]) \/ exists l2', l2 = l2' ++ [x] /\ l = l1 ++ l2'.
Proof.
  induction l2 as [|y l2' _] using rev_ind; intros H.
  - left. rewrite app_nil_r in H. split; [reflexivity | symmetry; exact H].
  - right. rewrite app_assoc in H. apply app_inj_tail in H. destruct H as [-> ->].
    exists l2'. split; reflexivity.
Qed.

Lemma runAcross_app (s : State) (l1 l2 : list (string * Event)) :
  runAcross s (l1 ++ l2) = runAcross (runAcross s l1) l2.
Proof. unfold runAcross. apply fold_left_app. Qed.

(** Why the connected flag is set: at some point of the run a socket
    opened or a fetch emitted a quote, and the flag has been set ever
    since. *)
Lemma flag_history (es : list (string * Event)) :
  isConnected (runAcross initial es) = true ->
  exists pre productId e post,
    es = pre ++ (productId, e) :: post
    /\ ((exists ws sendThrows, e = SocketOpens ws sendThrows)
        \/ (exists outcome now p,
              e = FetchSettles outcome now
              /\ price (runAcross initial (pre ++ [(productId, e)])) = Some p))
    /\ isConnected (runAcross initial pre) = false
    /\ forall post1 post2,
         post = post1 ++ post2 ->
         isConnected (runAcross initial (pre ++ (productId, e) :: post1)) = true.
Proof.
  induction es as [|[i x] es IH] using rev_ind; [discriminate|].
  intros H. destruct (isConnected (runAcross initial es)) eqn:E.
  - destruct (IH eq_refl) as (pre & p & e & post & -> & He & Hpre & Hpost).
    exists pre, p, e, (post ++ [(i, x)]).
    split; [rewrite <- app_assoc; reflexivity|]. split; [exact He|]. split; [exact Hpre|].
    intros post1 post2 Hs. destruct (split_last _ _ _ _ Hs) as [[-> ->]|(l & -> & ->)].
    + rewrite <- H. f_equal. rewrite <- app_assoc. reflexivity.
    + apply (Hpost post1 l). reflexivity.
  - exists es, i, x, []. rewrite runAcross_app in H. cbn [runAcross fold_left fst snd] in H.
    split; [reflexivity|]. split.
    + rewrite runAcross_app. cbn [runAcross fold_left fst snd].
      apply flag_raised; assumption.
    + split; [exact E|]. intros post1 post2 Hs.
      symmetry in Hs. apply app_eq_nil in Hs. destruct Hs as [-> _].
      rewrite runAcross_app. exact H.
Qed.
(** C10, as stated: the connected flag, when set, tells that the source
    in charge delivered data.  It fails as soon as the first socket
    opens: [onopen] sets the flag on line 157, before any frame has
    arrived and with the first fetch still in flight; no price has been
    delivered by either source. *)
Lemma connected_before_any_data :
  ~ (forall tr : list Event,
       isConnected (run "BTC-USD" initial tr) = true ->
       price (run "BTC-USD" initial tr) <> None).
Proof.
  intros H.
  apply (H [EffectRuns; TimerFires 2 false; SocketOpens 1 false]); vm_compute; reflexivity.
Qed.

(** C10, amended.  A polling fetch that succeeds (its response is read
    and passes the test of line 71) sets the connected flag and clears
    the error, and touches neither the refs nor the sockets; in the run
    that starts the effect and lets the first fetch succeed, the flag is
    true while no socket has been created at all.  So the flag does not
    tell that a socket is connected; what it tells is that, at some point
    of the run, a socket opened or a fetch emitted a quote, and that the
    flag has been set ever since (only a close event clears it).  This
    holds also when the instrument changes along the run. *)
Theorem polling_success_sets_connected (productId : string) :
  (forall (s : State) (tickerResponse statsResponse : Response)
          (body statsData : value) (now p : float),
      status tickerResponse <> 429 ->
      ok tickerResponse = true ->
      json tickerResponse = Some body ->
      (if ok statsResponse then json statsResponse else Some VNull) = Some statsData ->
      parseFloatV (prop body "price") = Some p ->
      truthyNum p && negb (is_nan p) = true ->
      let s' :=
        execState
          (fetchPriceData_settled productId (Some (tickerResponse, statsResponse)) now) s in
      (isConnected s' = true /\ error s' = None /\ refs s' = refs s /\ runtime s' = runtime s)
      /\ (let t := run productId initial
                     [EffectRuns; FetchSettles (Some (tickerResponse, statsResponse)) now] in
          isConnected t = true /\ sockets t = [] /\ wsRef t = None))
  /\ (forall es : list (string * Event),
        isConnected (runAcross initial es) = true ->
        exists pre instrument e post,
          es = pre ++ (instrument, e) :: post
          /\ ((exists ws sendThrows, e = SocketOpens ws sendThrows)
              \/ (exists outcome now p,
                    e = FetchSettles outcome now
                    /\ price (runAcross initial (pre ++ [(instrument, e)])) = Some p))
          /\ isConnected (runAcross initial pre) = false
          /\ forall post1 post2,
               post = post1 ++ post2 ->
               isConnected (runAcross initial (pre ++ (instrument, e) :: post1)) = true)
  /\ (forall (s : State) (e : Event),
        isConnected s = true -> isConnected (step productId s e) = false ->
        exists ws code random, e = SocketCloses ws code random /\ closable s ws = true).
Proof.
  split; [|split].
  - intros s tickerResponse statsResponse body statsData now p
      H429 Hok Hbody Hstats Hparse Hprice s'. subst s'. split.
    + rewrite (fetch_readable productId s tickerResponse statsResponse body statsData now)
        by assumption.
      rewrite Hparse, Hprice. repeat split.
    + cbv zeta. cbn [run fold_left].
      set (s0 := step productId initial EffectRuns).
      assert (E : fetchesInFlight s0 = 1%nat) by reflexivity.
      assert (Hs : sockets s0 = []) by reflexivity.
      assert (Hw : wsRef s0 = None) by reflexivity.
      assert (Et : step productId s0 (FetchSettles (Some (tickerResponse, statsResponse)) now)
                   = mkState
                       (mkView (Some p)
                          (Some (realTickerData productId body statsData now)) true None)
                       s0
                       (mkRuntime (sockets s0) (timers s0) (nextSocket s0) (nextTimer s0)
                          (wsTimeout s0) 0)).
      { unfold step. cbn [dispatch]. mrun. rewrite E. unfold set_fetchesInFlight. mrun.
        rewrite (fetch_readable productId _ tickerResponse statsResponse body statsData now)
          by assumption.
        rewrite Hparse, Hprice. proj. reflexivity. }
      rewrite Et. proj. auto.
  - apply flag_history.
  - intros s e H1 H0.
    assert (Hk : match e with
                 | SocketOpens _ _ | FetchSettles _ _ | SocketCloses _ _ _ => False
                 | _ => True
                 end -> False).
    { intros He. pose proof (dispatch_conn true productId e He s H1) as H.
      unfold connectedIs in H. fold (step productId s e) in H. congruence. }
    destruct e; try (exfalso; apply Hk; exact I).
    + exfalso. revert H0. unfold step. cbn [dispatch]. mrun.
      destruct (fetchesInFlight s) as [|n]; [mrun; congruence|]. mrun.
      pose proof (fetchPriceData_settled_cases productId outcome now
                    (execState (set_fetchesInFlight n) s)) as F.
      cbv zeta in F. destruct F as (_ & _ & [F|F]).
      * destruct F as (p & q & F). intros H. destruct F as (_ & _ & _ & _ & _ & _ & F & _).
        congruence.
      * destruct F as (_ & _ & F & _). rewrite F. revert H1.
        open_state s. compute_state. congruence.
    + exfalso. revert H0. unfold step. cbn [dispatch]. unfold socket. mrun.
      destruct (find ws (sockets s)) as [[[] [t|] sn]|] eqn:Hk'; mrun; try congruence.
      unfold onopen. open_state s. cases_open; discriminate.
    + exists ws, code, random. split; [reflexivity|].
      unfold closable. revert H0. unfold step. cbn [dispatch]. unfold socket. mrun.
      destruct (find ws (sockets s)) as [[[] c sn]|] eqn:Hk'; mrun;
        try congruence; reflexivity.
Qed.

Lemma polling_success_sets_connected_witness :
  let body := VObj [("price", VStr "50000.00")] in
  let outcome := Some (mkResponse 200 (Some body), mkResponse 500 None) in
  let s := run "BTC-USD" initial [EffectRuns] in
  let s' := execState (fetchPriceData_settled "BTC-USD" outcome 17%float) s in
  let es := [("BTC-USD", EffectRuns); ("BTC-USD", TimerFires 2 false);
             ("BTC-USD", SocketOpens 1 false); ("BTC-USD", FetchSettles None 0%float)] in
  (isConnected s' = true /\ error s' = None /\ refs s' = refs s /\ runtime s' = runtime s)
  /\ (let t := run "BTC-USD" initial [EffectRuns; FetchSettles outcome 17%float] in
      isConnected t = true /\ sockets t = [] /\ wsRef t = None)
  /\ price (runAcross initial es) = None
  /\ exists pre instrument e post,
       es = pre ++ (instrument, e) :: post
       /\ ((exists ws sendThrows, e = SocketOpens ws sendThrows)
           \/ (exists outcome now p,
                 e = FetchSettles outcome now
                 /\ price (runAcross initial (pre ++ [(instrument, e)])) = Some p))
       /\ isConnected (runAcross initial pre) = false
       /\ forall post1 post2,
            post = post1 ++ post2 ->
            isConnected (runAcross initial (pre ++ (instrument, e) :: post1)) = true.
Proof.
  cbv zeta.
  destruct (polling_success_sets_connected "BTC-USD") as (Hfetch & Hflag & _).
  destruct (Hfetch (run "BTC-USD" initial [EffectRuns])
              (mkResponse 200 (Some (VObj [("price", VStr "50000.00")])))
              (mkResponse 500 None)
              (VObj [("price", VStr "50000.00")]) VNull 17%float 50000%float)
    as (H1 & H2).
  - discriminate.
  - reflexivity.
  - reflexivity.
  - reflexivity.
  - vm_compute. reflexivity.
  - vm_compute. reflexivity.
  - split; [exact H1|]. split; [exact H2|]. split; [vm_compute; reflexivity|].
    apply Hflag. vm_compute. reflexivity.
Defined.

(** X5. The connected flag changes in three kinds of task only.  It
    becomes true when a socket opens or when a fetch settles; it becomes
    false when a socket's close event is handled.  Nothing else touches
    it: not the error event of a socket, not the watchdog, not a
    [connect()], and neither the cleanup nor a new run of the effect. *)
Theorem connected_flag_changes_only_on
    (productId : string) (s : State) (e : Event) :
  isConnected (step productId s e) <> isConnected s ->
  (isConnected (step productId s e) = true
   /\ ((exists ws sendThrows, e = SocketOpens ws sendThrows)
       \/ (exists outcome now, e = FetchSettles outcome now)))
  \/ (isConnected (step productId s e) = false
      /\ exists ws code random, e = SocketCloses ws code random).
Proof.
  intros H.
  assert (Hk : match e with
               | SocketOpens _ _ | FetchSettles _ _ | SocketCloses _ _ _ => False
               | _ => True
               end -> False).
  { intros He. apply H. apply (dispatch_conn (isConnected s) productId e He s). reflexivity. }
  destruct e; try (exfalso; apply Hk; exact I).
  - left. split.
    + revert H. unfold step. cbn [dispatch]. mrun.
      destruct (fetchesInFlight s) as [|n]; [mrun; congruence|]. mrun.
      pose proof (fetchPriceData_settled_cases productId outcome now
                    (execState (set_fetchesInFlight n) s)) as F.
      cbv zeta in F. destruct F as (_ & _ & [F|F]).
      * destruct F as (p & q & F). intros _. tauto.
      * destruct F as (_ & _ & F & _). rewrite F. intros H. exfalso. apply H.
        open_state s. compute_state. reflexivity.
    + right. eauto.
  - left. split; [|left; eauto].
    revert H. unfold step. cbn [dispatch]. unfold socket. mrun.
    destruct (find ws (sockets s)) as [[[] [t|] sn]|] eqn:Hk'; mrun; try congruence.
    intros _. unfold onopen. open_state s. cases_open; reflexivity.
  - right. split; [|eauto].
    revert H. unfold step. cbn [dispatch]. unfold socket. mrun.
    destruct (find ws (sockets s)) as [[[] c sn]|] eqn:Hk'; mrun; try congruence.
    all: intros _; unfold onclose; open_state s; cases_open; reflexivity.
Qed.

Lemma connected_flag_changes_only_on_witness :
  let s := run "BTC-USD" initial [EffectRuns; TimerFires 2 false; SocketOpens 1 false] in
  let e := SocketCloses 1 1000 0 in
  isConnected s = true
  /\ ((isConnected (step "BTC-USD" s e) = true
       /\ ((exists ws sendThrows, e = SocketOpens ws sendThrows)
           \/ (exists outcome now, e = FetchSettles outcome now)))
      \/ (isConnected (step "BTC-USD" s e) = false
          /\ exists ws code random, e = SocketCloses ws code random)).
Proof.
  cbv zeta. split; [reflexivity|].
  apply (connected_flag_changes_only_on "BTC-USD"
           (run "BTC-USD" initial [EffectRuns; TimerFires 2 false; SocketOpens 1 false])
           (SocketCloses 1 1000 0)).
  discriminate.
Defined.

(** *** The sockets of a run *)

Ltac sk_finish :=
  first
    [ lia | congruence | assumption | reflexivity | discriminate
    | left; first [assumption | reflexivity | congruence]
    | right; split; first [assumption | reflexivity | congruence | discriminate]
    | right; split; [discriminate | eexists; split; [eassumption | reflexivity]]
    | exfalso; lia
    | exfalso; congruence ].

(** Checks [socketsSound] of a table of sockets that a handler has left,
    entry by entry. *)
Ltac sk_solve :=
  intros;
  repeat match goal with
  | k : Socket |- _ => destruct k
  end;
  wf_cbn; wf_norm; wf_case; subst; wf_cbn;
  wf_sat1; wf_cbn;
  repeat match goal with
  | H : _ /\ _ |- _ => destruct H
  end;
  unfold live in *; wf_cbn;
  repeat match goal with
  | r : ReadyState |- _ => destruct r
  end;
  repeat match goal with
  | H : true = true -> _ |- _ => specialize (H eq_refl)
  | H : false = true -> _ |- _ => clear H
  | H : _ \/ _ |- _ => destruct H as [H|[? H]]
  end;
  repeat split; intros;
  try solve [sk_finish].

Ltac sk_handler s :=
  unfold socketsSound; open_state s;
  intros H1;
  cases_open;
  try (cbn [negb ReadyState_eqb] in *; discriminate);
  sk_solve.

Section SocketsSound.
Variable productId : string.
Variable known : string -> Prop.
Hypothesis known_productId : known productId.

Ltac pres_sockets :=
  pres_with ltac:(intros; unfold socketsSound in *; proj; assumption).

Lemma initial_known : socketsSound known initial.
Proof. unfold socketsSound, initial. cbn. intros; discriminate. Qed.

Lemma closeTracked_sockets : preserves (socketsSound known) closeTracked.
Proof. intros s. sk_handler s. Qed.

Lemma close_sockets (ws : nat) : preserves (socketsSound known) (close ws).
Proof. intros s. sk_handler s. Qed.

Lemma closed_sockets (ws : nat) : preserves (socketsSound known) (setReadyState ws CLOSED).
Proof. intros s. sk_handler s. Qed.

(** Before [connect()] creates its socket, no socket is live: the
    tracked one has been closed. *)
Lemma connect_sockets (throws : bool) : preserves (socketsSound known) (connect throws).
Proof.
  intros s H. rewrite connect_parts. destruct (isConnectingRef s); [exact H|].
  assert (H' : socketsSound known
                 (execState
                    (set_isConnectingRef true ;;
                     setError None ;;
                     stopFallback ;;
                     set_fallbackStoppedRef false ;;
                     closeTracked)
                    s)
               /\ forall ws k, find ws (sockets (execState
                    (set_isConnectingRef true ;;
                     setError None ;;
                     stopFallback ;;
                     set_fallbackStoppedRef false ;;
                     closeTracked)
                    s)) = Some k -> live k = false).
  { revert H. unfold socketsSound. open_state s. intros H1. cases_open.
    all: try (cbn [negb ReadyState_eqb] in *; discriminate).
    all: split; sk_solve. }
  revert H'. generalize (execState
                    (set_isConnectingRef true ;;
                     setError None ;;
                     stopFallback ;;
                     set_fallbackStoppedRef false ;;
                     closeTracked)
                    s).
  clear s H. intros s [H1 H2]. revert H1 H2. unfold socketsSound. open_state s.
  intros H1 H2. destruct throws; cases_open; sk_solve.
Qed.

Lemma clearTimeout_sockets (id : nat) : preserves (socketsSound known) (clearTimeout id).
Proof. unfold clearTimeout. pres_sockets. Qed.

Lemma schedule_sockets (t : Timer) : preserves (socketsSound known) (schedule t).
Proof. unfold schedule. pres_sockets. Qed.

#[local] Hint Resolve close_sockets closed_sockets closeTracked_sockets connect_sockets
  clearTimeout_sockets schedule_sockets : frame.

Lemma stopFallback_sockets : preserves (socketsSound known) stopFallback.
Proof. unfold stopFallback, clearInterval. pres_sockets. Qed.

Lemma startFallback_sockets : preserves (socketsSound known) startFallback.
Proof. unfold startFallback, setInterval. pres_sockets. Qed.

Lemma clearConnectionTimeout_sockets (ws : nat) :
  preserves (socketsSound known) (clearConnectionTimeout ws).
Proof. unfold clearConnectionTimeout. pres_sockets. Qed.

#[local] Hint Resolve stopFallback_sockets startFallback_sockets
  clearConnectionTimeout_sockets : frame.

Lemma cleanup_sockets : preserves (socketsSound known) cleanup.
Proof. unfold cleanup. pres_sockets. Qed.

Lemma effect_sockets : preserves (socketsSound known) effect.
Proof. unfold effect, setTimeout. pres_sockets. Qed.

Lemma reconnect_sockets (throws : bool) : preserves (socketsSound known) (reconnect throws).
Proof. unfold reconnect. pres_sockets. Qed.

Lemma onConnectionTimeout_sockets (ws : nat) :
  preserves (socketsSound known) (onConnectionTimeout ws).
Proof. unfold onConnectionTimeout, setTimeout. pres_sockets. Qed.

Lemma onmessage_sockets (ws : nat) (data : option value) :
  preserves (socketsSound known) (onmessage productId ws data).
Proof. unfold onmessage. pres_sockets. Qed.

Lemma onerror_sockets (ws : nat) : preserves (socketsSound known) (onerror ws).
Proof. unfold onerror. pres_sockets. Qed.

Lemma onclose_sockets (ws : nat) (code : Z) (random : Q) :
  preserves (socketsSound known) (onclose ws code random).
Proof. unfold onclose, setTimeout. pres_sockets. Qed.

Lemma fetchPriceData_settled_sockets (outcome : FetchOutcome) (now : float) :
  preserves (socketsSound known) (fetchPriceData_settled productId outcome now).
Proof. unfold fetchPriceData_settled. pres_sockets. Qed.

#[local] Hint Resolve cleanup_sockets effect_sockets reconnect_sockets
  onConnectionTimeout_sockets onmessage_sockets onerror_sockets onclose_sockets
  fetchPriceData_settled_sockets : frame.

Lemma runCallback_sockets (cb : Callback) (throws : bool) :
  preserves (socketsSound known) (runCallback cb throws).
Proof. unfold runCallback. pres_sockets. Qed.

#[local] Hint Resolve runCallback_sockets : frame.

(** The open event: the socket was connecting, so it has sent nothing
    yet; the subscription is its first frame. *)
Lemma opened_sockets (ws : nat) (sendThrows : bool) (c : option nat) (s : State) :
  find ws (sockets s) = Some (mkSocket CONNECTING c []) ->
  socketsSound known s ->
  socketsSound known
    (execState (setReadyState ws OPEN ;; onopen productId ws sendThrows) s).
Proof.
  intros Hk H.
  assert (H' : socketsSound known (execState (setReadyState ws OPEN) s)
               /\ find ws (sockets (execState (setReadyState ws OPEN) s))
                  = Some (mkSocket OPEN c [])).
  { revert Hk H. unfold socketsSound. open_state s. intros Hk H1.
    compute_state. rewrite Hk. compute_state.
    split; [sk_solve|]. wf_norm. rewrite Nat.eqb_refl, Hk. reflexivity. }
  rewrite exec_bind. revert H'.
  generalize (execState (setReadyState ws OPEN) s). clear s Hk H.
  intros s [H Hk]. unfold onopen.
  assert (Hm : forall m : M unit,
             preserves (fun s => socketsSound known s
                                 /\ find ws (sockets s) = Some (mkSocket OPEN c [])) m ->
             socketsSound known
               (execState (m ;; if sendThrows
                                then setError (Some (Text "Failed to subscribe to price feed"))
                                else send ws (subscribeMessage productId)) s)).
  { intros m Hm. rewrite exec_bind.
    destruct (Hm s (conj H Hk)) as [H' Hk'].
    revert H' Hk'. generalize (execState m s). clear - known_productId. intros s.
    unfold socketsSound. open_state s. intros H1 Hk.
    destruct sendThrows; compute_state; [exact H1|].
    rewrite Hk. compute_state. sk_solve. }
  mrun.
  specialize (Hm (set_isConnectingRef false ;; clearConnectionTimeout ws ;; setIsConnected true)).
  revert Hm. mrun. intros Hm. apply Hm.
  unfold clearConnectionTimeout.
  pres_with ltac:(intros ? [? ?]; unfold socketsSound in *; proj; split; assumption).
Qed.

Lemma step_known (s : State) (e : Event) :
  socketsSound known s -> socketsSound known (step productId s e).
Proof.
  unfold step. revert s. change (preserves (socketsSound known) (dispatch productId e)).
  destruct e; cbn [dispatch]; try solve [unfold socket; pres_sockets].
  intros s H. unfold socket. mrun.
  destruct (find ws (sockets s)) as [[[] [t|] sn]|] eqn:Hk; try exact H.
  pose proof (H _ _ Hk) as (_ & _ & Hs).
  destruct Hs as [Hs|[Hs _]]; [|cbn in Hs; congruence]. cbn in Hs. subst sn.
  apply (opened_sockets ws sendThrows (Some t) s Hk H).
Qed.

End SocketsSound.

Lemma weaken_sockets (known known' : string -> Prop) (s : State) :
  (forall p, known p -> known' p) -> socketsSound known s -> socketsSound known' s.
Proof.
  intros Hk H ws k Hf. destruct (H ws k Hf) as (H1 & H2 & H3).
  split; [exact H1|]. split; [exact H2|].
  destruct H3 as [H3|(H3 & p & Hp & H4)]; [left; exact H3|right].
  split; [exact H3|]. exists p. split; [apply Hk, Hp | exact H4].
Qed.

Lemma initial_sockets (productId : string) : socketsSound (eq productId) initial.
Proof. apply initial_known. Qed.

Lemma step_sockets (productId : string) (s : State) (e : Event) :
  socketsSound (eq productId) s -> socketsSound (eq productId) (step productId s e).
Proof. apply step_known. reflexivity. Qed.

Lemma run_sockets (productId : string) (es : list Event) (s : State) :
  socketsSound (eq productId) s -> socketsSound (eq productId) (run productId s es).
Proof.
  revert s. induction es as [|e es IH]; intros s H; cbn [run fold_left]; [exact H|].
  apply IH, step_sockets, H.
Qed.

(** Across renders the subscriptions are for instruments of the run. *)
Lemma runAcross_sockets (es : list (string * Event)) :
  forall (known : string -> Prop) (s : State),
    socketsSound known s ->
    socketsSound (fun p => known p \/ In p (map fst es)) (runAcross s es).
Proof.
  induction es as [|[i e] es IH]; intros known s H; cbn [runAcross fold_left map fst snd].
  - apply (weaken_sockets known); [auto | exact H].
  - apply (weaken_sockets (fun p => (known p \/ p = i) \/ In p (map fst es))).
    + intros p [[Hp|Hp]|Hp]; cbn [In]; auto.
    + apply IH. apply step_known; [right; reflexivity|].
      apply (weaken_sockets known); [auto | exact H].
Qed.

(** X6. Along every run from the first render, a socket that is
    connecting or open is the tracked one; so at most one socket is live
    at any time: [connect()] and the cleanup have closed the socket they
    replace or abandon. *)
Theorem live_socket_is_the_tracked_one
    (productId : string) (es : list Event) (ws : nat) (k : Socket) :
  let s := run productId initial es in
  find ws (sockets s) = Some k -> live k = true ->
  wsRef s = Some ws
  /\ forall ws' k', find ws' (sockets s) = Some k' -> live k' = true -> ws' = ws.
Proof.
  cbv zeta. intros Hk Hl.
  pose proof (run_sockets productId es initial (initial_sockets productId)) as H.
  destruct (H _ _ Hk) as (_ & Hw & _). specialize (Hw Hl).
  split; [exact Hw|]. intros ws' k' Hk' Hl'.
  destruct (H _ _ Hk') as (_ & Hw' & _). specialize (Hw' Hl'). congruence.
Qed.

Lemma live_socket_is_the_tracked_one_witness :
  let s := run "BTC-USD" initial
             [EffectRuns; TimerFires 2 false; SocketOpens 1 false; ReconnectCalled false] in
  find 1 (sockets s)
  = Some (mkSocket CLOSING (Some 3%nat) [subscribeMessage "BTC-USD"])
  /\ find 2 (sockets s) = Some (mkSocket CONNECTING (Some 4%nat) [])
  /\ wsRef s = Some 2%nat
  /\ forall ws' k', find ws' (sockets s) = Some k' -> live k' = true -> ws' = 2%nat.
Proof.
  cbv zeta. split; [reflexivity|]. split; [reflexivity|].
  apply (live_socket_is_the_tracked_one "BTC-USD"
           [EffectRuns; TimerFires 2 false; SocketOpens 1 false; ReconnectCalled false]
           2 (mkSocket CONNECTING (Some 4%nat) [])); reflexivity.
Defined.

(** X7. Along every run from the first render, also when the instrument
    changes along the run, a socket has been sent nothing, or exactly one
    frame: a subscription to the ticker channel of one instrument, which
    is an instrument of a task of the run, and that only once the socket
    has opened. *)
Theorem only_the_subscription_is_sent
    (es : list (string * Event)) (ws : nat) (k : Socket) :
  find ws (sockets (runAcross initial es)) = Some k ->
  sent k = []
  \/ (readyState k <> CONNECTING
      /\ exists productId,
           In productId (map fst es)
           /\ sent k = [VObj [ ("type", VStr "subscribe");
                               ("product_ids", VArr [VStr productId]);
                               ("channels", VArr [VStr "ticker"]) ]]).
Proof.
  intros Hk.
  pose proof (runAcross_sockets es (fun _ => False) initial (initial_known _)) as H.
  destruct (H _ _ Hk) as (_ & _ & [Hs|(Hr & p & [[]|Hp] & Hs)]); [left; exact Hs|right].
  split; [exact Hr|]. exists p. split; [exact Hp | exact Hs].
Qed.

Lemma only_the_subscription_is_sent_witness :
  let es := [("BTC-USD", EffectRuns); ("BTC-USD", TimerFires 2 false);
             ("BTC-USD", TimerFires 3 false); ("BTC-USD", CleanupRuns);
             ("ETH-USD", EffectRuns); ("BTC-USD", TimerFires 4 false);
             ("BTC-USD", SocketOpens 2 false)] in
  let k := mkSocket OPEN (Some 7%nat) [subscribeMessage "BTC-USD"] in
  find 2 (sockets (runAcross initial es)) = Some k
  /\ (sent k = []
      \/ (readyState k <> CONNECTING
          /\ exists productId,
               In productId (map fst es)
               /\ sent k = [VObj [ ("type", VStr "subscribe");
                                   ("product_ids", VArr [VStr productId]);
                                   ("channels", VArr [VStr "ticker"]) ]])).
Proof.
  cbv zeta. split; [vm_compute; reflexivity|].
  apply (only_the_subscription_is_sent
           [("BTC-USD", EffectRuns); ("BTC-USD", TimerFires 2 false);
            ("BTC-USD", TimerFires 3 false); ("BTC-USD", CleanupRuns);
            ("ETH-USD", EffectRuns); ("BTC-USD", TimerFires 4 false);
            ("BTC-USD", SocketOpens 2 false)]
           2 (mkSocket OPEN (Some 7%nat) [subscribeMessage "BTC-USD"])).
  vm_compute; reflexivity.
Defined.

(** *** The in-flight guard *)

Ltac gd_ids :=
  intros; wf_cbn; wf_norm; wf_case; subst; wf_cbn; wf_sat1;
  solve [lia | congruence | assumption].

Ltac gd_vars :=
  repeat match goal with
  | H : context [match ?x with _ => _ end] |- _ => is_var x; destruct x
  | |- context [match ?x with _ => _ end] => is_var x; destruct x
  end.

(** The guard is left as it was, is cleared, or is set with the tracked
    socket still pending. *)
Ltac gd_guard :=
  first
    [ assumption
    | let Hg := fresh "Hg" in
      intros Hg;
      first
        [ discriminate Hg
        | cbv beta iota delta [trackedPending pending wsRef sockets refs runtime] in *;
          repeat match goal with
          | H : ?x = true -> _ |- _ => specialize (H Hg)
          | H : true = true -> _ |- _ => specialize (H eq_refl)
          end;
          gd_vars; wf_cbn; wf_norm; wf_case; subst; wf_cbn; gd_vars; wf_cbn;
          repeat match goal with
          | H : Some _ = Some _ |- _ => injection H as H; subst
          end;
          wf_sat1;
          solve [reflexivity | assumption | congruence | discriminate | lia | exfalso; lia] ] ].

Ltac gd_split := split; [gd_ids | gd_guard].

Ltac gd_handler s :=
  unfold guardSound; open_state s;
  intros [H1 H2];
  cases_open;
  try (cbn [negb ReadyState_eqb] in *; discriminate);
  gd_split.

Lemma initial_guard : guardSound initial.
Proof. unfold guardSound, initial. cbn. split; intros; discriminate. Qed.

Lemma connect_guard (throws : bool) (s : State) :
  guardSound s -> guardSound (execState (connect throws) s).
Proof.
  intros H. rewrite connect_parts. destruct (isConnectingRef s) eqn:Hb; [exact H|].
  assert (H' : forall ws k,
             find ws (sockets (execState
                    (set_isConnectingRef true ;;
                     setError None ;;
                     stopFallback ;;
                     set_fallbackStoppedRef false ;;
                     closeTracked)
                    s)) = Some k ->
             (ws < nextSocket (execState
                    (set_isConnectingRef true ;;
                     setError None ;;
                     stopFallback ;;
                     set_fallbackStoppedRef false ;;
                     closeTracked)
                    s))%nat).
  { destruct H as [H _]. revert H. clear. open_state s. intros H1. cases_open.
    all: gd_ids. }
  revert H'. generalize (execState
                    (set_isConnectingRef true ;;
                     setError None ;;
                     stopFallback ;;
                     set_fallbackStoppedRef false ;;
                     closeTracked)
                    s).
  clear. intros s. unfold guardSound. open_state s. intros H1.
  destruct throws; cases_open.
  all: gd_split.
Qed.

Lemma cleanup_guard (s : State) : guardSound s -> guardSound (execState cleanup s).
Proof. unfold cleanup. gd_handler s. Qed.

Lemma effect_guard (s : State) : guardSound s -> guardSound (execState effect s).
Proof. unfold effect. gd_handler s. Qed.

Lemma reconnect_guard (throws : bool) (s : State) :
  guardSound s -> guardSound (execState (reconnect throws) s).
Proof.
  intros H. unfold reconnect. mrun. apply connect_guard.
  revert H. gd_handler s.
Qed.

Lemma onConnectionTimeout_guard (ws : nat) (s : State) :
  guardSound s -> guardSound (execState (onConnectionTimeout ws) s).
Proof. unfold onConnectionTimeout. gd_handler s. Qed.

Lemma onmessage_guard (productId : string) (ws : nat) (data : option value) (s : State) :
  guardSound s -> guardSound (execState (onmessage productId ws data) s).
Proof. unfold onmessage. gd_handler s. Qed.

Lemma onerror_guard (ws : nat) (s : State) :
  guardSound s -> guardSound (execState (onerror ws) s).
Proof. unfold onerror. gd_handler s. Qed.

Lemma fetchPriceData_settled_guard
    (productId : string) (outcome : FetchOutcome) (now : float) (s : State) :
  guardSound s -> guardSound (execState (fetchPriceData_settled productId outcome now) s).
Proof. unfold fetchPriceData_settled. gd_handler s. Qed.

Lemma runCallback_guard (cb : Callback) (throws : bool) (s : State) :
  guardSound s -> guardSound (execState (runCallback cb throws) s).
Proof.
  intros H. destruct cb; cbn [runCallback];
    auto using connect_guard, onConnectionTimeout_guard.
  all: try (mrun; apply connect_guard).
  all: revert H; gd_handler s.
Qed.

Lemma step_guard (productId : string) (s : State) (e : Event) :
  guardSound s -> guardSound (step productId s e).
Proof.
  intros H. unfold step. destruct e; cbn [dispatch].
  - apply effect_guard, H.
  - apply cleanup_guard, H.
  - apply reconnect_guard, H.
  - mrun. destruct (find id (timers s)) as [t|] eqn:Ht; [|exact H].
    mrun. apply runCallback_guard.
    revert H. clear Ht. destruct (repeats t); gd_handler s.
  - mrun. destruct (fetchesInFlight s) as [|n] eqn:Hn; [exact H|].
    mrun. apply fetchPriceData_settled_guard.
    revert H. clear Hn. gd_handler s.
  - unfold socket. mrun.
    destruct (find ws (sockets s)) as [[[] [t|] sn]|] eqn:Hk; try exact H.
    revert H. clear Hk. unfold onopen. gd_handler s.
  - unfold socket. mrun.
    destruct (find ws (sockets s)) as [[[] c sn]|]; try exact H.
    apply onmessage_guard, H.
  - unfold socket. mrun.
    destruct (find ws (sockets s)) as [[[] c sn]|]; try exact H.
    all: apply onerror_guard, H.
  - unfold socket. mrun.
    destruct (find ws (sockets s)) as [[[] c sn]|]; try exact H.
    all: revert H; unfold onclose; gd_handler s.
Qed.

Lemma run_guard (productId : string) (es : list Event) (s : State) :
  guardSound s -> guardSound (run productId s es).
Proof.
  revert s. induction es as [|e es IH]; intros s H; cbn [run fold_left]; [exact H|].
  apply IH, step_guard, H.
Qed.

(** X8. The in-flight guard never blocks [connect()] for good.  Along
    every run from the first render, while the guard is set a socket is
    tracked that has neither opened nor closed: the browser still owes it
    a close event, and handling that event, whatever its code, releases
    the guard. *)
Theorem guard_is_released_by_the_tracked_socket
    (productId : string) (es : list Event) :
  let s := run productId initial es in
  isConnectingRef s = true ->
  exists ws,
    wsRef s = Some ws
    /\ closable s ws = true
    /\ forall code random,
         isConnectingRef (step productId s (SocketCloses ws code random)) = false.
Proof.
  cbv zeta. intros Hg.
  destruct (run_guard productId es initial initial_guard) as [_ H].
  specialize (H Hg). revert H. generalize (run productId initial es). clear. intros s.
  unfold trackedPending, pending, closable.
  destruct (wsRef s) as [ws|] eqn:Hw; [|discriminate].
  destruct (find ws (sockets s)) as [[r c sn]|] eqn:Hk; [|discriminate].
  cbn [readyState]. intros Hr. exists ws. split; [reflexivity|].
  split; [rewrite Hk; destruct r; try discriminate; reflexivity|].
  intros code random. unfold step. cbn [dispatch]. unfold socket. mrun. rewrite Hk.
  destruct r; try discriminate.
  all: unfold onclose; open_state s; cases_open; reflexivity.
Qed.

Lemma guard_is_released_by_the_tracked_socket_witness :
  let s := run "BTC-USD" initial [EffectRuns; TimerFires 2 false; TimerFires 3 false] in
  isConnectingRef s = true
  /\ find 1 (sockets s) = Some (mkSocket CLOSING (Some 3%nat) [])
  /\ exists ws,
       wsRef s = Some ws
       /\ closable s ws = true
       /\ forall code random,
            isConnectingRef (step "BTC-USD" s (SocketCloses ws code random)) = false.
Proof.
  cbv zeta. split; [reflexivity|]. split; [reflexivity|].
  apply (guard_is_released_by_the_tracked_socket "BTC-USD"
           [EffectRuns; TimerFires 2 false; TimerFires 3 false]).
  reflexivity.
Defined.

(** X9. A manual [reconnect()] while a connect is in flight creates no
    socket and closes none: it cancels the pending backoff retry and sets
    the counter to zero, and that is all; the view, the error text
    included, stays as it was. *)
Theorem reconnect_while_connecting
    (productId : string) (s : State) (throws : bool) :
  isConnectingRef s = true ->
  let s' := step productId s (ReconnectCalled throws) in
  view s' = view s
  /\ sockets s' = sockets s /\ nextSocket s' = nextSocket s
  /\ wsRef s' = wsRef s
  /\ fallbackIntervalRef s' = fallbackIntervalRef s
  /\ timers s' = cancelOpt (reconnectTimeoutRef s) (timers s)
  /\ reconnectAttemptsRef s' = 0.
Proof.
  intros Hb. cbv zeta. unfold step. cbn [dispatch]. unfold reconnect, connect, cancelOpt.
  open_state s. subst. destruct reconnectTimeoutRef0; compute_state; repeat split.
Qed.

Lemma reconnect_while_connecting_witness :
  let s := run "BTC-USD" initial [EffectRuns; TimerFires 2 false; TimerFires 3 false] in
  let s' := step "BTC-USD" s (ReconnectCalled false) in
  error s = Some (Text "Connection timeout - retrying...")
  /\ isConnectingRef s = true
  /\ view s' = view s
  /\ sockets s' = sockets s /\ nextSocket s' = nextSocket s
  /\ wsRef s' = wsRef s
  /\ fallbackIntervalRef s' = fallbackIntervalRef s
  /\ timers s' = cancelOpt (reconnectTimeoutRef s) (timers s)
  /\ reconnectAttemptsRef s' = 0.
Proof.
  cbv zeta. split; [reflexivity|]. split; [reflexivity|].
  apply (reconnect_while_connecting "BTC-USD"
           (run "BTC-USD" initial [EffectRuns; TimerFires 2 false; TimerFires 3 false])
           false).
  reflexivity.
Defined.

(** *** The delays of the timers *)

Lemma cancel_sound (id : nat) (l : list (nat * Timer)) :
  Forall (fun p => timerSound (snd p)) l ->
  Forall (fun p => timerSound (snd p)) (cancel id l).
Proof.
  unfold cancel. rewrite !Forall_forall. intros H p Hp.
  apply filter_In in Hp. apply H, Hp.
Qed.

Lemma added_sound (id : nat) (t : Timer) (l : list (nat * Timer)) :
  timerSound t ->
  Forall (fun p => timerSound (snd p)) l ->
  Forall (fun p => timerSound (snd p)) (l ++ [(id, t)]).
Proof.
  intros Ht H. apply Forall_app. split; [exact H|].
  constructor; [exact Ht | constructor].
Qed.

Ltac pres_timers :=
  pres_with ltac:(intros; unfold timersSound in *; proj; assumption).

Lemma schedule_sound (t : Timer) : timerSound t -> preserves timersSound (schedule t).
Proof.
  intros Ht s. unfold timersSound. open_state s. compute_state.
  apply added_sound, Ht.
Qed.

Lemma clearTimeout_sound (id : nat) : preserves timersSound (clearTimeout id).
Proof. intros s. unfold timersSound. open_state s. compute_state. apply cancel_sound. Qed.

Lemma setTimeout_sound (cb : Callback) (d : Q) :
  timerSound (mkTimer cb d false) -> preserves timersSound (setTimeout cb d).
Proof. apply schedule_sound. Qed.

Lemma setInterval_sound (cb : Callback) (d : Q) :
  timerSound (mkTimer cb d true) -> preserves timersSound (setInterval cb d).
Proof. apply schedule_sound. Qed.

#[local] Hint Resolve clearTimeout_sound setTimeout_sound setInterval_sound : frame.
#[local] Hint Extern 1 (timerSound _) =>
  (unfold timerSound; cbn [callback delay repeats]; repeat split; reflexivity) : frame.

Lemma clearInterval_sound (id : nat) : preserves timersSound (clearInterval id).
Proof. apply clearTimeout_sound. Qed.

Lemma clearConnectionTimeout_sound (ws : nat) :
  preserves timersSound (clearConnectionTimeout ws).
Proof. unfold clearConnectionTimeout. pres_timers. Qed.

#[local] Hint Resolve clearInterval_sound clearConnectionTimeout_sound : frame.

Lemma stopFallback_sound : preserves timersSound stopFallback.
Proof. unfold stopFallback. pres_timers. Qed.

Lemma startFallback_sound : preserves timersSound startFallback.
Proof. unfold startFallback. pres_timers. Qed.

Lemma closeTracked_sound : preserves timersSound closeTracked.
Proof. unfold closeTracked. pres_timers. Qed.

#[local] Hint Resolve stopFallback_sound startFallback_sound closeTracked_sound : frame.

Lemma connect_sound (throws : bool) : preserves timersSound (connect throws).
Proof. unfold connect. pres_timers. Qed.

Lemma effect_sound : preserves timersSound effect.
Proof. unfold effect. pres_timers. Qed.

Lemma cleanup_sound : preserves timersSound cleanup.
Proof. unfold cleanup. pres_timers. Qed.

#[local] Hint Resolve connect_sound effect_sound cleanup_sound : frame.

Lemma reconnect_sound (throws : bool) : preserves timersSound (reconnect throws).
Proof. unfold reconnect. pres_timers. Qed.

Lemma onConnectionTimeout_sound (ws : nat) : preserves timersSound (onConnectionTimeout ws).
Proof. unfold onConnectionTimeout. pres_timers. Qed.

Lemma onopen_sound (productId : string) (ws : nat) (sendThrows : bool) :
  preserves timersSound (onopen productId ws sendThrows).
Proof. unfold onopen. pres_timers. Qed.

Lemma onmessage_sound (productId : string) (ws : nat) (data : option value) :
  preserves timersSound (onmessage productId ws data).
Proof. unfold onmessage. pres_timers. Qed.

Lemma onerror_sound (ws : nat) : preserves timersSound (onerror ws).
Proof. unfold onerror. pres_timers. Qed.

Lemma fetchPriceData_settled_sound (productId : string) (outcome : FetchOutcome) (now : float) :
  preserves timersSound (fetchPriceData_settled productId outcome now).
Proof. unfold fetchPriceData_settled. pres_timers. Qed.

#[local] Hint Resolve reconnect_sound onConnectionTimeout_sound onopen_sound
  onmessage_sound onerror_sound fetchPriceData_settled_sound : frame.

Lemma runCallback_sound (cb : Callback) (throws : bool) :
  preserves timersSound (runCallback cb throws).
Proof. unfold runCallback. pres_timers. Qed.

(** The backoff: with a counter that is never negative, the handler
    reaches the reconnect branch only with the counter at 1, where the
    delay is 20 seconds plus the jitter. *)
Lemma onclose_sound (ws : nat) (code : Z) (random : Q) (s : State) :
  0 <= reconnectAttemptsRef s ->
  (0 <= random)%Q -> (random < 1)%Q ->
  timersSound s -> timersSound (execState (onclose ws code random) s).
Proof.
  intros Hn H0 H1. revert Hn. unfold onclose, timersSound. open_state s.
  intros Hn H. cases_open.
  all: repeat first [ assumption | apply cancel_sound | apply added_sound ].
  all: unfold timerSound; cbn [callback delay repeats]; try (repeat split; reflexivity).
  all: match goal with
       | E : (2 <=? ?n + 1) = false |- _ =>
           apply Z.leb_gt in E; replace (n + 1) with 1 by lia
       end.
  all: destruct (retryDelay_first random H0 H1) as (_ & L & U); repeat split; assumption.
Qed.

Lemma step_sound (productId : string) (s : State) (e : Event) :
  fairRandom e -> 0 <= reconnectAttemptsRef s ->
  timersSound s -> timersSound (step productId s e).
Proof.
  intros Hf Hn H. unfold step.
  assert (Hd : (forall ws code random, e <> SocketCloses ws code random) ->
               (forall id throws, e <> TimerFires id throws) ->
               preserves timersSound (dispatch productId e)).
  { intros Hc Ht. destruct e; cbn [dispatch]; try solve [unfold socket; pres_timers].
    - exfalso. eapply Ht. reflexivity.
    - exfalso. eapply Hc. reflexivity. }
  destruct e; try (apply Hd; [discriminate | discriminate | exact H]); clear Hd;
    cbn [dispatch fairRandom] in *.
  - mrun. destruct (find id (timers s)) as [t|]; [|exact H].
    mrun. apply runCallback_sound.
    destruct (repeats t); [exact H|].
    revert H. unfold timersSound. open_state s. compute_state. apply cancel_sound.
  - unfold socket. mrun. destruct Hf as [H0 H1].
    destruct (find ws (sockets s)) as [[[] c sn]|]; try exact H.
    all: mrun; apply onclose_sound; try assumption.
    all: revert Hn H; unfold timersSound; open_state s; compute_state;
      repeat split_match; compute_state; auto.
Qed.

Lemma run_sound (productId : string) (es : list Event) (s : State) :
  Forall fairRandom es -> 0 <= reconnectAttemptsRef s ->
  timersSound s -> timersSound (run productId s es).
Proof.
  revert s. induction es as [|e es IH]; intros s Hf Hn H; cbn [run fold_left]; [exact H|].
  inversion Hf; subst.
  apply IH; [assumption | apply step_counter_nonneg, Hn | apply step_sound; assumption].
Qed.

(** X10. Along every run from the first render (with [Math.random()]
    in [0, 1)), every pending timer has the delay of its kind: 1 s for the
    settle delay, 15 s for a watchdog, 3 s for the watchdog's retry, 5 s
    for the retry of the exception path and for the polling interval, and
    for the backoff retry a delay between 20 s and 22 s.  The backoff
    never doubles and never reaches its cap of 30 s, because a retry is
    scheduled only with the counter at 1; only the polling timer
    repeats. *)
Theorem every_timer_has_the_delay_of_its_kind
    (productId : string) (es : list Event) (id : nat) (t : Timer) :
  Forall fairRandom es ->
  In (id, t) (timers (run productId initial es)) ->
  match callback t with
  | WsTimeoutCb => delay t = 1000%Q /\ repeats t = false
  | ConnectionTimeoutCb _ => delay t = 15000%Q /\ repeats t = false
  | TimeoutRetryCb => delay t = 3000%Q /\ repeats t = false
  | ReconnectCb => (20000 <= delay t)%Q /\ (delay t <= 22000)%Q /\ repeats t = false
  | CreationRetryCb => delay t = 5000%Q /\ repeats t = false
  | FetchPriceDataCb => delay t = 5000%Q /\ repeats t = true
  end.
Proof.
  intros Hf Hin.
  assert (H : timersSound (run productId initial es)).
  { apply run_sound; [exact Hf | cbn; lia | constructor]. }
  unfold timersSound in H. rewrite Forall_forall in H. apply (H _ Hin).
Qed.

Lemma every_timer_has_the_delay_of_its_kind_witness :
  let es := [EffectRuns; TimerFires 2 false; SocketOpens 1 false;
             SocketCloses 1 1006 (1 # 2)] in
  timers (run "BTC-USD" initial es) = [(4%nat, mkTimer ReconnectCb 21000 false)]
  /\ (20000 <= 21000)%Q /\ (21000 <= 22000)%Q.
Proof.
  cbv zeta. split; [vm_compute; reflexivity|].
  assert (Hf : Forall fairRandom
                 [EffectRuns; TimerFires 2 false; SocketOpens 1 false;
                  SocketCloses 1 1006 (1 # 2)])
    by (repeat constructor; discriminate).
  assert (Hin : In (4%nat, mkTimer ReconnectCb 21000 false)
                  (timers (run "BTC-USD" initial
                             [EffectRuns; TimerFires 2 false; SocketOpens 1 false;
                              SocketCloses 1 1006 (1 # 2)])))
    by (vm_compute; left; reflexivity).
  destruct (every_timer_has_the_delay_of_its_kind "BTC-USD" _ _ _ Hf Hin) as (L & U & _).
  split; assumption.
Defined.

(** X11. The close code decides the wording of the error and nothing
    else: two abnormal closes of the same socket in the same state that
    differ in their codes leave the same refs, timers and sockets, so the
    same retry with the same delay or the same return to polling.  The
    longer wait that lines 253-254 prepare for the codes 1008, 1013 and
    1014 is never applied. *)
Theorem close_code_changes_only_the_text
    (s : State) (ws : nat) (code1 code2 : Z) (random : Q) :
  code1 <> 1000 -> code2 <> 1000 ->
  let s1 := execState (onclose ws code1 random) s in
  let s2 := execState (onclose ws code2 random) s in
  refs s1 = refs s2 /\ runtime s1 = runtime s2
  /\ price s1 = price s2 /\ tickerData s1 = tickerData s2
  /\ isConnected s1 = isConnected s2.
Proof.
  intros H1 H2. apply Z.eqb_neq in H1, H2. cbv zeta.
  unfold onclose. rewrite H1, H2. cbn [negb]. open_state s.
  cases_open; repeat split.
Qed.

Lemma close_code_changes_only_the_text_witness :
  let s := run "BTC-USD" initial [EffectRuns; TimerFires 2 false; SocketOpens 1 false] in
  let s1 := execState (onclose 1 1006 (1 # 2)) s in
  let s2 := execState (onclose 1 1013 (1 # 2)) s in
  error s1 = Some (Text "Abnormal closure. Reconnecting... (1/2)")
  /\ error s2 = Some (Text "Try again later. Reconnecting... (1/2)")
  /\ refs s1 = refs s2 /\ runtime s1 = runtime s2
  /\ price s1 = price s2 /\ tickerData s1 = tickerData s2
  /\ isConnected s1 = isConnected s2.
Proof.
  cbv zeta. split; [reflexivity|]. split; [reflexivity|].
  apply (close_code_changes_only_the_text
           (run "BTC-USD" initial [EffectRuns; TimerFires 2 false; SocketOpens 1 false])
           1 1006 1013 (1 # 2)); discriminate.
Defined.

(** *** Polling intervals and their handle *)

(** Cancelling a handle that has not been handed out yet finds
    nothing. *)
Lemma cancel_fresh (n m : nat) (l : list (nat * Timer)) :
  (forall i t, find i l = Some t -> (i < n)%nat) -> (n <= m)%nat -> cancel m l = l.
Proof.
  intros H Hm. unfold cancel. induction l as [|[k x] l IH]; cbn [filter fst]; [reflexivity|].
  assert (Hk : (k < n)%nat) by (apply (H k x); cbn [find]; rewrite Nat.eqb_refl; reflexivity).
  destruct (Nat.eqb_spec k m) as [->|_]; [lia|]. cbn [negb]. f_equal. apply IH.
  intros i t Hi. destruct (Nat.eqb_spec k i) as [<-|Hki]; [exact Hk|].
  apply (H i t). cbn [find]. apply Nat.eqb_neq in Hki. rewrite Hki. exact Hi.
Qed.

Lemma cancel_app (m : nat) (l1 l2 : list (nat * Timer)) :
  cancel m (l1 ++ l2) = cancel m l1 ++ cancel m l2.
Proof. unfold cancel. apply filter_app. Qed.

Lemma cancel_cancel (a b : nat) (l : list (nat * Timer)) :
  cancel a (cancel b l) = cancel b (cancel a l).
Proof.
  unfold cancel. induction l as [|[k x] l IH]; cbn [filter fst]; [reflexivity|].
  destruct (Nat.eqb k a) eqn:Ea, (Nat.eqb k b) eqn:Eb; cbn [negb filter fst];
    rewrite ?Ea, ?Eb; cbn [negb]; rewrite IH; reflexivity.
Qed.

(** The cleanup cancels through the handles it holds: a pending polling
    interval whose handle is no longer held stays pending. *)
Lemma cleanup_spares_untracked (s : State) (h : nat) :
  wellFormed s ->
  find h (timers s) = Some (mkTimer FetchPriceDataCb 5000%Q true) ->
  fallbackIntervalRef s <> Some h ->
  find h (timers (execState cleanup s)) = Some (mkTimer FetchPriceDataCb 5000%Q true).
Proof.
  intros (H1 & H2 & H3 & H4 & H5) Hh Hf. rewrite cleanup_timers.
  unfold handleIs, cancelOpt in *.
  destruct (fallbackIntervalRef s) as [a|], (reconnectTimeoutRef s) as [b|],
    (wsTimeout s) as [c|].
  all: wf_norm; wf_case; subst; wf_sat2; wf_sat3; wf_cbn;
    solve [congruence | assumption].
Qed.

Lemma cleanup_stops_polling (s : State) :
  fallbackIntervalRef (execState cleanup s) = None.
Proof. unfold cleanup. open_state s. cases_open; reflexivity. Qed.

(** X12. [startFallback] does not look at the handle it overwrites.
    When the close handler returns to polling while a polling interval is
    already running, that interval is neither cancelled nor remembered: it
    stays pending beside the new one, only the new one is held, and the
    cleanup, which cancels through the handle it holds, leaves the old
    interval pending. *)
Theorem second_give_up_orphans_polling
    (productId : string) (s : State) (ws : nat) (code : Z) (random : Q) (h : nat) :
  wellFormed s ->
  closable s ws = true ->
  code <> 1000 ->
  2 <= reconnectAttemptsRef s + 1 ->
  fallbackIntervalRef s = Some h ->
  let s1 := step productId s (SocketCloses ws code random) in
  let s2 := step productId s1 CleanupRuns in
  fallbackIntervalRef s1 = Some (nextTimer s)
  /\ nextTimer s <> h
  /\ find h (timers s1) = Some (mkTimer FetchPriceDataCb 5000%Q true)
  /\ find (nextTimer s) (timers s1) = Some (mkTimer FetchPriceDataCb 5000%Q true)
  /\ fallbackIntervalRef s2 = None
  /\ find h (timers s2) = Some (mkTimer FetchPriceDataCb 5000%Q true).
Proof.
  intros Hwf Hc Hcode Hn Hf. cbv zeta.
  pose proof (step_wellFormed productId s (SocketCloses ws code random) Hwf) as Hwf1.
  assert (A : fallbackIntervalRef (step productId s (SocketCloses ws code random))
              = Some (nextTimer s)
              /\ nextTimer s <> h
              /\ find h (timers (step productId s (SocketCloses ws code random)))
                 = Some (mkTimer FetchPriceDataCb 5000%Q true)
              /\ find (nextTimer s) (timers (step productId s (SocketCloses ws code random)))
                 = Some (mkTimer FetchPriceDataCb 5000%Q true)).
  { clear Hwf1. rewrite (step_close productId s ws code random Hc).
    apply Z.eqb_neq in Hcode. apply Z.leb_le in Hn.
    unfold onclose. rewrite Hcode. cbn [negb].
    clear Hc. revert Hwf Hn Hf. unfold wellFormed, handleIs. open_state s.
    intros (H1 & H2 & H3 & H4 & H5) Hn Hf. subst.
    pose proof (H2 h eq_refl) as Hh. pose proof (H1 _ _ Hh) as Hlt.
    cases_open.
    all: try congruence.
    all: wf_solve. }
  destruct A as (A1 & A2 & A3 & A4).
  repeat split; try assumption.
  - apply cleanup_stops_polling.
  - unfold step at 1. cbn [dispatch]. apply cleanup_spares_untracked; try assumption.
    rewrite A1. congruence.
Qed.

Lemma second_give_up_orphans_polling_witness :
  let s := run "BTC-USD" initial
             [EffectRuns; TimerFires 2 false; TimerFires 3 false;
              SocketCloses 1 1006 (1 # 2); TimerFires 4 false; SocketOpens 2 false;
              TimerFires 5 false; SocketCloses 2 1005 (1 # 2)] in
  let s1 := step "BTC-USD" s (SocketCloses 3 1006 (1 # 2)) in
  let s2 := step "BTC-USD" s1 CleanupRuns in
  (fallbackIntervalRef s = Some 8%nat /\ reconnectAttemptsRef s = 2 /\ nextTimer s = 9%nat)
  /\ fallbackIntervalRef s1 = Some (nextTimer s)
  /\ nextTimer s <> 8%nat
  /\ find 8 (timers s1) = Some (mkTimer FetchPriceDataCb 5000%Q true)
  /\ find (nextTimer s) (timers s1) = Some (mkTimer FetchPriceDataCb 5000%Q true)
  /\ fallbackIntervalRef s2 = None
  /\ find 8 (timers s2) = Some (mkTimer FetchPriceDataCb 5000%Q true).
Proof.
  cbv zeta. split; [vm_compute; repeat split|].
  apply (second_give_up_orphans_polling "BTC-USD"
           (run "BTC-USD" initial
              [EffectRuns; TimerFires 2 false; TimerFires 3 false;
               SocketCloses 1 1006 (1 # 2); TimerFires 4 false; SocketOpens 2 false;
               TimerFires 5 false; SocketCloses 2 1005 (1 # 2)])
           3 1006 (1 # 2) 8).
  - apply run_wellFormed, initial_wellFormed.
  - vm_compute. reflexivity.
  - discriminate.
  - vm_compute. discriminate.
  - vm_compute. reflexivity.
Defined.

(** X13. A run of the effect followed at once by its cleanup, as for a
    component mounted and unmounted again, leaves no timer of its own:
    the timers are those of before without the backoff retry that the
    hook held.  What it leaves is the fetch it sent, still in flight, and
    the view it reset; the connected flag is not reset. *)
Theorem mount_then_unmount (productId : string) (s : State) :
  wellFormed s ->
  let s' := run productId s [EffectRuns; CleanupRuns] in
  timers s' = cancelOpt (reconnectTimeoutRef s) (timers s)
  /\ fallbackIntervalRef s' = None
  /\ reconnectTimeoutRef s' = None
  /\ fetchesInFlight s' = S (fetchesInFlight s)
  /\ nextSocket s' = nextSocket s
  /\ price s' = None /\ tickerData s' = None /\ error s' = None
  /\ isConnected s' = isConnected s.
Proof.
  intros (H1 & _). cbv zeta. cbn [run fold_left]. unfold step. cbn [dispatch].
  repeat split.
  - rewrite cleanup_timers.
    destruct (effect_starts_polling productId s) as (Hf & Ht & _).
    unfold step in Hf, Ht. cbn [dispatch] in Hf, Ht. rewrite Hf, Ht.
    assert (Hr : reconnectTimeoutRef (execState effect s) = reconnectTimeoutRef s
                 /\ wsTimeout (execState effect s) = Some (S (nextTimer s)))
      by (unfold effect; open_state s; compute_state; split; reflexivity).
    destruct Hr as [-> ->]. unfold cancelOpt.
    assert (E : forall m, (nextTimer s <= m)%nat -> cancel m (timers s) = timers s)
      by (intros m Hm; apply (cancel_fresh (nextTimer s)); assumption).
    assert (E' : cancel (nextTimer s)
                   (cancel (S (nextTimer s))
                      (timers s ++
                       [(nextTimer s, mkTimer FetchPriceDataCb 5000%Q true)] ++
                       [(S (nextTimer s), mkTimer WsTimeoutCb 1000%Q false)]))
                 = timers s).
    { rewrite !cancel_app, !E by lia. unfold cancel. cbn [filter fst].
      rewrite !Nat.eqb_refl.
      replace (Nat.eqb (nextTimer s) (S (nextTimer s))) with false
        by (symmetry; apply Nat.eqb_neq; lia).
      cbn [negb filter fst app]. rewrite Nat.eqb_refl. cbn [negb]. apply app_nil_r. }
    destruct (reconnectTimeoutRef s) as [r|].
    + rewrite (cancel_cancel (nextTimer s) r), E'. reflexivity.
    + exact E'.
  - apply cleanup_stops_polling.
  - unfold cleanup, effect. open_state s. cases_open; reflexivity.
  - unfold cleanup, effect. open_state s. cases_open; reflexivity.
  - unfold cleanup, effect. open_state s. cases_open; reflexivity.
  - unfold cleanup, effect. open_state s. cases_open; reflexivity.
  - unfold cleanup, effect. open_state s. cases_open; reflexivity.
  - unfold cleanup, effect. open_state s. cases_open; reflexivity.
  - unfold cleanup, effect. open_state s. cases_open; reflexivity.
Qed.

Lemma mount_then_unmount_witness :
  let s' := run "BTC-USD" initial [EffectRuns; CleanupRuns] in
  timers s' = []
  /\ fallbackIntervalRef s' = None
  /\ reconnectTimeoutRef s' = None
  /\ fetchesInFlight s' = 1%nat
  /\ nextSocket s' = 1%nat
  /\ price s' = None /\ tickerData s' = None /\ error s' = None
  /\ isConnected s' = false.
Proof.
  exact (mount_then_unmount "BTC-USD" initial initial_wellFormed).
Defined.

(** *** When the socket cannot be created *)








(** *** Frames that are not tickers *)

(** X15. A frame that the handler does not take as a ticker for the
    subscribed instrument (one that is not JSON, [null], a frame of
    another type or for another instrument, or a ticker whose price
    [parseFloat] cannot convert to text, so that it throws) changes
    nothing at all, with one exception: a frame of type "error" sets the
    error text to the frame's message, or to "Unknown error" when the
    message is missing or empty; and not even that when the message
    cannot be converted to text, since the template literal throws then.
    Such a frame does not close the socket, count as a failed attempt or
    schedule anything. *)
Theorem frames_that_are_not_tickers
    (productId : string) (s : State) (ws : nat) (data : option value) :
  match data with
  | Some d => isTickerFor productId d = false \/ parseFloatV (prop d "price") = None
  | None => True
  end ->
  execState (onmessage productId ws data) s
  = match data with
    | Some d =>
        if strictEqStr (prop d "type") "error"
        then
          let message :=
            if truthy (prop d "message") then prop d "message" else VStr "Unknown error" in
          if toStringThrows message then s
          else mkState
                 (mkView (price s) (tickerData s) (isConnected s)
                    (Some (FeedErrorText message)))
                 (refs s) (runtime s)
        else s
    | None => s
    end.
Proof.
  destruct data as [d|]; [|reflexivity].
  unfold onmessage. intros Ht.
  destruct (nullish d) eqn:Hn.
  - destruct d; try discriminate Hn; reflexivity.
  - destruct (strictEqStr (prop d "type") "ticker"
              && strictEqStr (prop d "product_id") productId) eqn:Hk.
    + destruct Ht as [Ht|Ht].
      * unfold isTickerFor in Ht. rewrite Hn in Ht. cbn [negb andb] in Ht.
        rewrite Hk in Ht. discriminate Ht.
      * rewrite Ht. apply andb_true_iff in Hk. destruct Hk as [Hk _].
        destruct (prop d "type") as [| | | |t| |]; try discriminate Hk.
        cbn [strictEqStr] in *. apply String.eqb_eq in Hk. subst t.
        change (String.eqb "ticker" "error") with false. cbv iota.
        open_state s. reflexivity.
    + clear Ht. destruct (strictEqStr (prop d "type") "error") eqn:He.
      * destruct (prop d "type") as [| | | |t| |]; try discriminate He.
        cbn [strictEqStr] in *. apply String.eqb_eq in He. subst t.
        change (String.eqb "error" "subscriptions") with false.
        cbv iota zeta. unfold orElse.
        destruct (toStringThrows
                    (if truthy (prop d "message") then prop d "message"
                     else VStr "Unknown error"));
          open_state s; compute_state; reflexivity.
      * destruct (strictEqStr (prop d "type") "subscriptions");
          open_state s; compute_state; reflexivity.
Qed.

Lemma frames_that_are_not_tickers_witness :
  let s := run "BTC-USD" initial [EffectRuns; TimerFires 2 false; SocketOpens 1 false] in
  let other := VObj [("type", VStr "ticker"); ("product_id", VStr "ETH-USD");
                     ("price", VStr "3000.00")] in
  let failure := VObj [("type", VStr "error"); ("message", VStr "")] in
  let opaque := VObj [("type", VStr "ticker"); ("product_id", VStr "BTC-USD");
                      ("price", VObj [("toString", VNum 1)])] in
  execState (onmessage "BTC-USD" 1 (Some other)) s = s
  /\ execState (onmessage "BTC-USD" 1 (Some failure)) s
     = mkState
         (mkView (price s) (tickerData s) (isConnected s)
            (Some (FeedErrorText (VStr "Unknown error"))))
         (refs s) (runtime s)
  /\ execState (onmessage "BTC-USD" 1 (Some opaque)) s = s.
Proof.
  cbv zeta. split; [|split].
  - etransitivity.
    + apply (frames_that_are_not_tickers "BTC-USD"). left. vm_compute. reflexivity.
    + vm_compute. reflexivity.
  - etransitivity.
    + apply (frames_that_are_not_tickers "BTC-USD"). left. vm_compute. reflexivity.
    + vm_compute. reflexivity.
  - etransitivity.
    + apply (frames_that_are_not_tickers "BTC-USD"). right. vm_compute. reflexivity.
    + vm_compute. reflexivity.
Defined.

(** *** The polling flag, the cleanup and the manual reconnect *)

Ltac fl_handler s :=
  unfold flagSound; open_state s;
  let H := fresh "H" in
  intros H; cases_open;
  first [ assumption | reflexivity
        | let G := fresh "G" in intros G; first [discriminate G | reflexivity | exact (H G)] ].

Lemma connect_flag (throws : bool) (s : State) :
  flagSound s -> flagSound (execState (connect throws) s).
Proof. unfold connect. fl_handler s. Qed.

Lemma runCallback_flag (cb : Callback) (throws : bool) (s : State) :
  flagSound s -> flagSound (execState (runCallback cb throws) s).
Proof.
  destruct cb; cbn [runCallback]; try apply connect_flag.
  - unfold onConnectionTimeout. fl_handler s.
  - intros H. mrun. apply connect_flag. revert H. fl_handler s.
  - fl_handler s.
Qed.

Lemma step_flag (productId : string) (s : State) (e : Event) :
  flagSound s -> flagSound (step productId s e).
Proof.
  unfold step. destruct e; cbn [dispatch].
  - unfold effect. fl_handler s.
  - unfold cleanup. fl_handler s.
  - intros H. unfold reconnect. mrun. apply connect_flag. revert H. fl_handler s.
  - intros H. mrun. destruct (find id (timers s)) as [t|]; [|exact H].
    mrun. apply runCallback_flag. revert H. destruct (repeats t); fl_handler s.
  - unfold fetchPriceData_settled. fl_handler s.
  - unfold socket, onopen. fl_handler s.
  - unfold socket, onmessage. fl_handler s.
  - unfold socket, onerror. fl_handler s.
  - unfold socket, onclose. fl_handler s.
Qed.

Lemma run_flag (productId : string) (es : list Event) (s : State) :
  flagSound s -> flagSound (run productId s es).
Proof.
  revert s. induction es as [|e es IH]; intros s H; cbn [run fold_left]; [exact H|].
  apply IH, step_flag, H.
Qed.

Lemma runAcross_flag (es : list (string * Event)) (s : State) :
  flagSound s -> flagSound (runAcross s es).
Proof.
  revert s. induction es as [|e es IH]; intros s H; cbn [runAcross fold_left]; [exact H|].
  apply IH, step_flag, H.
Qed.

(** X16. Along every run from the first render, also when the instrument
    changes along the run, a frame that an open socket delivers, that the
    handler takes as a ticker for its instrument and whose price
    [parseFloat] can convert, leaves no polling interval held: the handle
    is cleared and the interval it names is cancelled, whether or not the
    "only once" flag of the handler was already set, because the flag is
    never set while a handle is held.  The other timers stay as they
    are, an interval whose handle was overwritten earlier among them. *)
Theorem ticker_frame_always_stops_polling
    (es : list (string * Event)) (productId : string) (ws : nat) (k : Socket)
    (d : value) (p : float) :
  let s := runAcross initial es in
  find ws (sockets s) = Some k -> readyState k = OPEN ->
  isTickerFor productId d = true ->
  parseFloatV (prop d "price") = Some p ->
  let s' := step productId s (SocketMessage ws (Some d)) in
  fallbackIntervalRef s' = None
  /\ timers s' = cancelOpt (fallbackIntervalRef s) (timers s)
  /\ fallbackStoppedRef s' = true.
Proof.
  cbv zeta. intros Hk Hr Ht Hp.
  assert (Hf : flagSound (runAcross initial es))
    by (apply runAcross_flag; unfold flagSound, initial; cbn; discriminate).
  revert Hk Hf. generalize (runAcross initial es). intros s Hk Hf.
  unfold step. cbn [dispatch]. unfold socket. mrun. rewrite Hk.
  destruct k as [r c sn]. cbn [readyState] in *. subst r.
  unfold isTickerFor in Ht. unfold onmessage.
  destruct (nullish d); [discriminate|]. cbn [negb andb] in Ht. rewrite Ht, Hp.
  revert Hf. unfold flagSound, cancelOpt. open_state s. intros Hf.
  destruct fallbackStoppedRef0.
  - rewrite (Hf eq_refl). compute_state. repeat split.
  - cases_open; try (cbn [negb] in *; discriminate); repeat split.
Qed.

Lemma ticker_frame_always_stops_polling_witness :
  let es := map (pair "BTC-USD")
              [EffectRuns; TimerFires 2 false; TimerFires 3 false;
               SocketCloses 1 1006 (1 # 2); TimerFires 4 false; SocketOpens 2 false;
               TimerFires 5 false; SocketCloses 2 1005 (1 # 2); SocketOpens 3 false] in
  let d := VObj [("type", VStr "ticker"); ("product_id", VStr "BTC-USD");
                 ("price", VStr "42000.5")] in
  let s := runAcross initial es in
  let s' := step "BTC-USD" s (SocketMessage 3 (Some d)) in
  fallbackIntervalRef s = Some 8%nat
  /\ fallbackIntervalRef s' = None
  /\ timers s' = cancelOpt (fallbackIntervalRef s) (timers s)
  /\ fallbackStoppedRef s' = true.
Proof.
  cbv zeta. split; [vm_compute; reflexivity|].
  apply (ticker_frame_always_stops_polling
           (map (pair "BTC-USD")
              [EffectRuns; TimerFires 2 false; TimerFires 3 false;
               SocketCloses 1 1006 (1 # 2); TimerFires 4 false; SocketOpens 2 false;
               TimerFires 5 false; SocketCloses 2 1005 (1 # 2); SocketOpens 3 false])
           "BTC-USD" 3 (mkSocket OPEN (Some 7%nat) [subscribeMessage "BTC-USD"])
           (VObj [("type", VStr "ticker"); ("product_id", VStr "BTC-USD");
                  ("price", VStr "42000.5")])
           42000.5%float).
  - vm_compute; reflexivity.
  - reflexivity.
  - vm_compute; reflexivity.
  - vm_compute; reflexivity.
Defined.

(** X17. Right after a cleanup of the effect no socket is connecting or
    open, the in-flight guard is released and neither a polling handle
    nor a backoff handle is held, whatever happened before. *)
Theorem cleanup_leaves_no_live_socket (productId : string) (es : list Event) :
  let s := run productId initial (es ++ [CleanupRuns]) in
  (forall ws k, find ws (sockets s) = Some k -> live k = false)
  /\ isConnectingRef s = false
  /\ fallbackIntervalRef s = None
  /\ reconnectTimeoutRef s = None.
Proof.
  cbv zeta. unfold run. rewrite fold_left_app. cbn [fold_left].
  fold (run productId initial es).
  pose proof (run_sockets productId es initial (initial_sockets productId)) as H.
  revert H. generalize (run productId initial es). intros s H.
  assert (Hc : (match wsRef (step productId s CleanupRuns) with
                | Some w =>
                    match find w (sockets (step productId s CleanupRuns)) with
                    | Some k => live k = false
                    | None => True
                    end
                | None => True
                end)
               /\ isConnectingRef (step productId s CleanupRuns) = false
               /\ fallbackIntervalRef (step productId s CleanupRuns) = None
               /\ reconnectTimeoutRef (step productId s CleanupRuns) = None).
  { clear. unfold step. cbn [dispatch]. unfold cleanup, live. open_state s.
    cases_open; try (cbn [negb ReadyState_eqb] in *; discriminate).
    all: repeat split.
    all: repeat match goal with
         | |- context [match find ?i ?l with _ => _ end] =>
             destruct (find i l) as [[[] ? ?]|] eqn:?
         end; cbn [readyState] in *; try exact I; try reflexivity.
    all: try congruence.
    all: cbn [negb ReadyState_eqb] in *; try discriminate. }
  destruct Hc as (Hc & Hb & Hf & Hr). split; [|repeat split; assumption].
  intros ws k Hk.
  pose proof (step_sockets productId s CleanupRuns H _ _ Hk) as (_ & Hl & _).
  destruct (live k) eqn:E; [|reflexivity].
  rewrite (Hl eq_refl) in Hc. rewrite Hk in Hc. congruence.
Qed.

(** X18. A manual [reconnect()] outside a connect in flight starts
    afresh: it creates one socket, in state CONNECTING with a watchdog of
    15 s, and tracks it; no other socket is connecting or open afterwards;
    the pending backoff retry and the polling interval are cancelled, the
    retry counter is 0, the error is cleared and the guard is taken. *)
Theorem reconnect_starts_afresh (productId : string) (es : list Event) :
  let s := run productId initial es in
  isConnectingRef s = false ->
  let s' := step productId s (ReconnectCalled false) in
  wsRef s' = Some (nextSocket s)
  /\ find (nextSocket s) (sockets s')
     = Some (mkSocket CONNECTING (Some (nextTimer s)) [])
  /\ (forall ws k, find ws (sockets s') = Some k -> live k = true -> ws = nextSocket s)
  /\ timers s'
     = cancelOpt (fallbackIntervalRef s) (cancelOpt (reconnectTimeoutRef s) (timers s))
       ++ [(nextTimer s, mkTimer (ConnectionTimeoutCb (nextSocket s)) 15000%Q false)]
  /\ reconnectAttemptsRef s' = 0
  /\ error s' = None
  /\ fallbackIntervalRef s' = None
  /\ isConnectingRef s' = true.
Proof.
  cbv zeta. intros Hb.
  pose proof (run_sockets productId es initial (initial_sockets productId)) as H.
  revert Hb H. generalize (run productId initial es). intros s Hb H.
  pose proof (step_sockets productId s (ReconnectCalled false) H) as H'.
  assert (A : wsRef (step productId s (ReconnectCalled false)) = Some (nextSocket s)
              /\ find (nextSocket s) (sockets (step productId s (ReconnectCalled false)))
                 = Some (mkSocket CONNECTING (Some (nextTimer s)) [])
              /\ timers (step productId s (ReconnectCalled false))
                 = cancelOpt (fallbackIntervalRef s)
                     (cancelOpt (reconnectTimeoutRef s) (timers s))
                   ++ [(nextTimer s,
                        mkTimer (ConnectionTimeoutCb (nextSocket s)) 15000%Q false)]
              /\ reconnectAttemptsRef (step productId s (ReconnectCalled false)) = 0
              /\ error (step productId s (ReconnectCalled false)) = None
              /\ fallbackIntervalRef (step productId s (ReconnectCalled false)) = None
              /\ isConnectingRef (step productId s (ReconnectCalled false)) = true).
  { clear H'. revert Hb H. unfold step. cbn [dispatch].
    unfold reconnect, connect, socketsSound, cancelOpt. open_state s. intros Hb H1. subst.
    cases_open.
    all: try (cbn [negb ReadyState_eqb] in *; discriminate).
    all: repeat split.
    all: wf_norm; wf_case; subst; wf_cbn; wf_sat1;
      repeat match goal with
      | H : _ /\ _ |- _ => destruct H
      end;
      try solve [reflexivity | lia | congruence | exfalso; lia]. }
  destruct A as (A1 & A2 & A3 & A4 & A5 & A6 & A7).
  repeat split; try assumption.
  intros ws k Hk Hl. destruct (H' _ _ Hk) as (_ & Hw & _). specialize (Hw Hl). congruence.
Qed.

Lemma reconnect_starts_afresh_witness :
  let es := [EffectRuns; TimerFires 2 false; TimerFires 3 false;
             SocketCloses 1 1006 (1 # 2); TimerFires 4 false; SocketOpens 2 false;
             TimerFires 5 false; SocketCloses 2 1005 (1 # 2); SocketOpens 3 false] in
  let s := run "BTC-USD" initial es in
  let s' := step "BTC-USD" s (ReconnectCalled false) in
  fallbackIntervalRef s = Some 8%nat
  /\ wsRef s' = Some (nextSocket s)
  /\ find (nextSocket s) (sockets s')
     = Some (mkSocket CONNECTING (Some (nextTimer s)) [])
  /\ (forall ws k, find ws (sockets s') = Some k -> live k = true -> ws = nextSocket s)
  /\ timers s'
     = cancelOpt (fallbackIntervalRef s) (cancelOpt (reconnectTimeoutRef s) (timers s))
       ++ [(nextTimer s, mkTimer (ConnectionTimeoutCb (nextSocket s)) 15000%Q false)]
  /\ reconnectAttemptsRef s' = 0
  /\ error s' = None
  /\ fallbackIntervalRef s' = None
  /\ isConnectingRef s' = true.
Proof.
  cbv zeta. split; [vm_compute; reflexivity|].
  apply (reconnect_starts_afresh "BTC-USD"
           [EffectRuns; TimerFires 2 false; TimerFires 3 false;
            SocketCloses 1 1006 (1 # 2); TimerFires 4 false; SocketOpens 2 false;
            TimerFires 5 false; SocketCloses 2 1005 (1 # 2); SocketOpens 3 false]).
  vm_compute; reflexivity.
Defined.

(** ** Properties of the component *)

Import PriceTicker.

(** *** Reports of the price *)

Lemma distinctNeighbours_app (l : list float) (p : float) :
  distinctNeighbours (l ++ [p])
  = distinctNeighbours l && strictNotEqual p (newest l).
Proof.
  unfold newest. induction l as [|a l IH]; [reflexivity|].
  destruct l as [|b l].
  - cbn. rewrite andb_true_r. reflexivity.
  - change ((a :: b :: l) ++ [p]) with (a :: b :: (l ++ [p])).
    change (distinctNeighbours (a :: b :: l ++ [p]))
      with (negb (b =? a)%float && distinctNeighbours ((b :: l) ++ [p])).
    rewrite IH.
    change (distinctNeighbours (a :: b :: l))
      with (negb (b =? a)%float && distinctNeighbours (b :: l)).
    rewrite andb_assoc. f_equal.
    cbn [rev]. destruct (rev l ++ [b]) eqn:E.
    + destruct (rev l); discriminate E.
    + reflexivity.
Qed.

Lemma priceEffect_tidy (price : option float) (d : Display) :
  tidy d -> tidy (priceEffect price d).
Proof.
  intros (Hp & Hl & Hd & Hn). unfold priceEffect.
  destruct price as [p|]; [|repeat split; assumption].
  destruct (strictNotEqual p (lastReportedPrice d)) eqn:E; [|repeat split; assumption].
  unfold tidy. cbn [previousPrice lastReportedPrice priceDirection reported].
  unfold newest, lastMove in *. rewrite rev_unit.
  repeat split.
  - rewrite Hp, Hd. destruct (rev (reported d)) as [|b [|a r]]; reflexivity.
  - rewrite distinctNeighbours_app, Hn. rewrite Hl in E. exact E.
Qed.

Lemma renders_tidy (prices : list (option float)) (d : Display) :
  tidy d -> tidy (fold_left (fun d price => priceEffect price d) prices d).
Proof.
  revert d. induction prices as [|p prices IH]; intros d H; cbn [fold_left]; [exact H|].
  apply IH, priceEffect_tidy, H.
Qed.

Lemma mounted_tidy : tidy mounted.
Proof. repeat split. Qed.

(** X19. Whatever prices the hook returns from render to render, the
    component calls [onPriceChange] only when the price has changed: no
    report is [===] to the report before it, and the ref holds the last
    price reported. *)
Theorem price_is_reported_only_when_it_changes (prices : list (option float)) :
  distinctNeighbours (reported (renders prices)) = true
  /\ lastReportedPrice (renders prices) = newest (reported (renders prices)).
Proof.
  destruct (renders_tidy prices mounted mounted_tidy) as (_ & Hl & _ & Hn).
  split; assumption.
Qed.

(** X20. The direction shown is the move between the last two prices
    reported: up when the last one is greater, down when it is less, and
    neutral as long as fewer than two prices have been reported; the
    state cell [previousPrice] holds the last price reported. *)
Theorem direction_follows_the_last_two_reports (prices : list (option float)) :
  priceDirection (renders prices) = lastMove (reported (renders prices))
  /\ previousPrice (renders prices) = newest (reported (renders prices)).
Proof.
  destruct (renders_tidy prices mounted mounted_tidy) as (Hp & _ & Hd & _).
  split; assumption.
Qed.

(** *** Comparisons of doubles *)

Lemma SFcompare_antisym (x y : spec_float) :
  SFcompare y x = option_map CompOpp (SFcompare x y).
Proof.
  destruct x as [sx|sx| |sx mx ex], y as [sy|sy| |sy my ey]; cbn [SFcompare option_map];
    try reflexivity;
    try (destruct sx; reflexivity); try (destruct sy; reflexivity);
    try (destruct sx, sy; reflexivity).
  destruct sx, sy; try reflexivity.
  all: rewrite (Z.compare_antisym ex ey); destruct (ex ?= ey)%Z; cbn [CompOpp]; try reflexivity.
  all: pose proof (Pos.compare_cont_antisym mx my Eq) as P; cbn [CompOpp] in P;
    rewrite <- P; reflexivity.
Qed.

Lemma not_nan_spec (x : float) : is_nan x = false -> Prim2SF x <> S754_nan.
Proof.
  unfold is_nan. rewrite FloatAxioms.eqb_spec. intros H E. rewrite E in H. discriminate H.
Qed.

(** Two numbers that are not [===] are ordered one way or the other. *)
Lemma float_trichotomy (a b : float) :
  is_nan a = false -> is_nan b = false -> (b =? a)%float = false ->
  (a <? b)%float = true \/ (b <? a)%float = true.
Proof.
  intros Ha Hb. apply not_nan_spec in Ha, Hb.
  rewrite FloatAxioms.eqb_spec, !FloatAxioms.ltb_spec. unfold SFeqb, SFltb.
  rewrite (SFcompare_antisym (Prim2SF a) (Prim2SF b)).
  destruct (SFcompare (Prim2SF a) (Prim2SF b)) as [[]|] eqn:E; cbn [option_map CompOpp];
    auto; try discriminate.
  exfalso. destruct (Prim2SF a), (Prim2SF b); cbn in E; congruence.
Qed.

Lemma last_two_differ (l r : list float) (a b : float) :
  distinctNeighbours l = true -> rev l = b :: a :: r -> (b =? a)%float = false.
Proof.
  intros Hd Hr. apply (f_equal (@rev float)) in Hr. rewrite rev_involutive in Hr.
  subst l. cbn [rev] in Hd. rewrite distinctNeighbours_app in Hd.
  apply andb_true_iff in Hd. destruct Hd as [_ Hd].
  unfold newest in Hd. rewrite rev_unit in Hd. cbn in Hd.
  apply negb_true_iff in Hd. exact Hd.
Qed.

Lemma reported_from_input (prices : list (option float)) (d : Display) (x : float) :
  In x (reported (fold_left (fun d price => priceEffect price d) prices d)) ->
  In x (reported d) \/ In (Some x) prices.
Proof.
  revert d. induction prices as [|p prices IH]; intros d H; cbn [fold_left] in H; [left; exact H|].
  apply IH in H. destruct H as [H|H]; [|right; right; exact H].
  unfold priceEffect in H. destruct p as [p|]; [|left; exact H].
  destruct (strictNotEqual p (lastReportedPrice d)); [|left; exact H].
  cbn [reported] in H. apply in_app_or in H. destruct H as [H|[H|[]]]; [left; exact H|].
  subst x. right; left; reflexivity.
Qed.

(** X21. As long as the hook returns no NaN, the direction leaves
    neutral with the second price reported and never returns to it: two
    consecutive reports differ, so the last move is up or down.  The
    neutral branch of line 27 is reached only with a NaN. *)
Theorem direction_never_returns_to_neutral (prices : list (option float)) :
  (forall p, In (Some p) prices -> is_nan p = false) ->
  (2 <= List.length (reported (renders prices)))%nat ->
  priceDirection (renders prices) <> neutral.
Proof.
  intros Hnan Hlen.
  destruct (renders_tidy prices mounted mounted_tidy) as (_ & _ & Hd & Hn).
  fold (renders prices) in Hd, Hn. rewrite Hd. unfold lastMove.
  destruct (rev (reported (renders prices))) as [|b [|a r]] eqn:Hr.
  - apply (f_equal (@List.length float)) in Hr. rewrite length_rev in Hr. cbn in Hr. lia.
  - apply (f_equal (@List.length float)) in Hr. rewrite length_rev in Hr. cbn in Hr. lia.
  - pose proof (last_two_differ _ _ _ _ Hn Hr) as Hab.
    assert (Hin : forall x, In x [b; a] -> is_nan x = false).
    { intros x Hx. apply Hnan.
      assert (Hx' : In x (reported (renders prices))).
      { apply in_rev. rewrite Hr. destruct Hx as [<-|[<-|[]]]; cbn; auto. }
      apply reported_from_input in Hx'. destruct Hx' as [[]|Hx']. exact Hx'. }
    destruct (float_trichotomy a b) as [H|H]; try (apply Hin; cbn; auto); try exact Hab.
    + unfold directionOf. rewrite H. discriminate.
    + unfold directionOf. rewrite H. destruct (a <? b)%float; discriminate.
Qed.

Lemma direction_never_returns_to_neutral_witness :
  let prices := [None; Some 50000%float; Some 50000%float; Some 50010.5%float;
                 Some 50010.5%float; Some 49990%float] in
  reported (renders prices) = [50000%float; 50010.5%float; 49990%float]
  /\ priceDirection (renders prices) = down
  /\ priceDirection (renders prices) <> neutral.
Proof.
  cbv zeta. split; [vm_compute; reflexivity|]. split; [vm_compute; reflexivity|].
  apply (direction_never_returns_to_neutral
           [None; Some 50000%float; Some 50000%float; Some 50010.5%float;
            Some 50010.5%float; Some 49990%float]).
  - intros p Hp. cbn [In] in Hp.
    repeat match goal with
    | H : _ \/ _ |- _ => destruct H as [H|H]
    end; try discriminate; try contradiction.
    all: injection Hp as <-; vm_compute; reflexivity.
  - vm_compute. repeat constructor.
Defined.

(** *** The 24h change of a quote without an opening price *)

(** A number that passes the test of line 71 of the hook is infinite or
    finite with a sign: not NaN, not zero. *)
Lemma truthyNum_spec (p : float) :
  truthyNum p = true ->
  exists s, Prim2SF p = S754_infinity s \/ exists m e, Prim2SF p = S754_finite s m e.
Proof.
  unfold truthyNum, is_zero, is_nan. rewrite !FloatAxioms.eqb_spec.
  change (Prim2SF zero) with (S754_zero false).
  destruct (Prim2SF p) as [s|s| |s m e]; cbn; try discriminate; intros _.
  - exists s. left. reflexivity.
  - exists s. right. exists m, e. reflexivity.
Qed.

Lemma change_from_zero (p : float) :
  truthyNum p = true ->
  (p - 0 = p)%float
  /\ (0 <=? p)%float = (0 <? p)%float
  /\ ((p / 0) * 100)%float = if (0 <? p)%float then infinity else neg_infinity.
Proof.
  intros H. destruct (truthyNum_spec p H) as (s & Hs).
  assert (Hsub : (p - 0 = p)%float).
  { apply FloatAxioms.Prim2SF_inj. rewrite FloatAxioms.sub_spec.
    change (Prim2SF 0) with (S754_zero false).
    destruct Hs as [->|(m & e & ->)]; reflexivity. }
  assert (Hlt : (0 <? p)%float = negb s).
  { rewrite FloatAxioms.ltb_spec. change (Prim2SF 0) with (S754_zero false).
    destruct Hs as [->|(m & e & ->)]; destruct s; reflexivity. }
  assert (Hle : (0 <=? p)%float = negb s).
  { rewrite FloatAxioms.leb_spec. change (Prim2SF 0) with (S754_zero false).
    destruct Hs as [->|(m & e & ->)]; destruct s; reflexivity. }
  split; [exact Hsub|]. split; [congruence|].
  rewrite Hlt. apply FloatAxioms.Prim2SF_inj.
  rewrite FloatAxioms.mul_spec, FloatAxioms.div_spec.
  change (Prim2SF 0) with (S754_zero false).
  destruct Hs as [->|(m & e & ->)]; destruct s; reflexivity.
Qed.

(** X22. A quote that the polling fetcher builds while the stats give no
    opening price has [open_24h] "0", and the component divides by it:
    the 24h change it shows is the whole price in dollars and an infinite
    percentage, positive or negative with the sign of the price. *)
Theorem change_without_an_opening_price
    (productId : string) (tickerData statsData : value) (now : float) (p : float) :
  truthy (optProp statsData "open") = false ->
  parseFloatV (prop tickerData "price") = Some p ->
  truthyNum p = true ->
  change24h (realTickerData productId tickerData statsData now)
  = Some
      (if (0 <? p)%float
       then mkChange [Lit "+$"; ToFixed2 (abs p)] [Lit "+"; ToFixed2 infinity; Lit "%"] true
       else mkChange [Lit "-$"; ToFixed2 (abs p)] [ToFixed2 neg_infinity; Lit "%"] false).
Proof.
  intros Ho Hq Hp. unfold change24h, realTickerData, formatChange.
  change (prop (VObj ?l) "open_24h") with (orElse (optProp statsData "open") (VStr "0")).
  set (price := prop tickerData "price") in *.
  change (parseFloatV (prop (VObj ?l) "price")) with (parseFloatV price).
  unfold orElse. rewrite Ho, Hq.
  change (parseFloatV (VStr "0")) with (Some 0%float). cbv iota beta.
  destruct (change_from_zero _ Hp) as (-> & -> & ->).
  destruct (0 <? p)%float; reflexivity.
Qed.

Lemma change_without_an_opening_price_witness :
  let body := VObj [("price", VStr "50000.00")] in
  let s := execState (fetchPriceData_settled "BTC-USD"
                        (Some (mkResponse 200 (Some body), mkResponse 503 None)) 0%float)
             initial in
  tickerData s = Some (realTickerData "BTC-USD" body VNull 0%float)
  /\ change24h (realTickerData "BTC-USD" body VNull 0%float)
     = Some (mkChange [Lit "+$"; ToFixed2 50000%float]
               [Lit "+"; ToFixed2 infinity; Lit "%"] true).
Proof.
  cbv zeta. split; [vm_compute; reflexivity|].
  etransitivity.
  - apply (change_without_an_opening_price "BTC-USD" (VObj [("price", VStr "50000.00")])
             VNull 0%float 50000%float); vm_compute; reflexivity.
  - vm_compute. reflexivity.
Defined.
